(** * Gemini TTS: cache store and generation orchestration

    A shallow embedding of the caching and generation core of the add-on:

    - [src/core/exceptions.py]: the exception hierarchy, the constructors'
      [user_message] logic and the HTTP / network error mapping;
    - [src/core/constants.py]: the constants the code below reads;
    - [src/core/models.py]: [TTSConfig], [CacheFileInfo], [CacheMetadata],
      [AudioGenerationRequest], [AudioGenerationResult], [Result],
      [ValidationResult];
    - [src/services/cache_manager.py]: [CacheManager];
    - [src/services/audio_generator.py]: [AudioGenerator];
    - [src/services/config_service.py]: [validate_config].

    Conventions of the embedding.

    - Python [str] is [string]; a character is a code point below 256.
    - Python [float] (temperature, time stamps, durations) is [Q]; the
      arithmetic the code performs on them is exact here.
    - Python [dict] with its insertion order is an association list
      ([PyDict]); iterating a dict whose size changed raises [RuntimeError],
      as CPython's dict iterator does.
    - The cache directory is a finite map from file names to files; the
      names of the index are looked up in it as they are.
    - Exceptions are values ([exn]); a computation is a function from the
      program state to an outcome and a new state.  The state holds the
      objects the services share and mutate (the configuration, the loaded
      index) and the outside world (cache directory, clock, remote API).
    - Logging has no effect on the state and is left out.
    - Library functions whose results the code only passes on are section
      variables: [repr] of a float, [json.loads], [base64.b64decode],
      [round], the size in bytes of the index file and the
      regular-expression pipeline of the text processor. *)

From Stdlib Require Import Ascii String QArith DecimalString.
From stdpp Require Import gmap strings list.

Local Open Scope string_scope.
Local Open Scope Z_scope.

Set Warnings "-register-all".

(** ** Python strings *)

Module PyStr.

(** The double quote, written by its code. *)
Definition dquote : ascii := "034"%char.

Definition code (c : ascii) : Z := Z.of_nat (nat_of_ascii c).

Definition chars (s : string) : list ascii := list_ascii_of_string s.

(** [s.startswith(p)] *)
Definition startswith (s p : string) : bool := String.prefix p s.

(** [s.endswith(p)] *)
Definition endswith (s p : string) : bool :=
  String.prefix (string_of_list_ascii (rev (chars p)))
                (string_of_list_ascii (rev (chars s))).

(** [needle in hay] *)
Fixpoint contains (needle hay : string) : bool :=
  String.prefix needle hay ||
  match hay with
  | EmptyString => false
  | String _ rest => contains needle rest
  end.

(** [c in s] for a single character *)
Definition has_char (c : ascii) (s : string) : bool :=
  existsb (Ascii.eqb c) (chars s).

Definition lower_char (c : ascii) : ascii :=
  let n := code c in
  if ((65 <=? n) && (n <=? 90)) || ((192 <=? n) && (n <=? 222) && negb (n =? 215))
  then ascii_of_nat (Z.to_nat (n + 32)) else c.

(** [s.lower()] *)
Definition lower (s : string) : string :=
  string_of_list_ascii (map lower_char (chars s)).

(** [c.isspace()] *)
Definition isspace (c : ascii) : bool :=
  let n := code c in
  ((9 <=? n) && (n <=? 13)) || ((28 <=? n) && (n <=? 32)) || (n =? 133) || (n =? 160).

(** [not s.strip()] *)
Definition strip_is_empty (s : string) : bool := forallb isspace (chars s).

(** [s[:n]] *)
Definition take (n : nat) (s : string) : string := String.substring 0 n s.

(** [str(z)] for an int *)
Definition of_Z (z : Z) : string := NilZero.string_of_int (Z.to_int z).

(** [len(s)] *)
Definition len (s : string) : Z := Z.of_nat (String.length s).

Definition concat (l : list string) : string := fold_right String.append "" l.

(** [s.split(sep)] for a non-empty [sep], from left to right: [skip]
    characters of the occurrence of [sep] just found are still to be
    passed, [cur] holds the piece read so far, last character first. *)
Fixpoint split_from (sep : string) (skip : nat) (cur : list ascii) (s : string)
  : list string :=
  match s with
  | EmptyString => [string_of_list_ascii (rev cur)]
  | String c rest =>
      match skip with
      | S k => split_from sep k cur rest
      | O =>
          if String.prefix sep s
          then string_of_list_ascii (rev cur)
               :: split_from sep (String.length sep - 1) [] rest
          else split_from sep 0 (c :: cur) rest
      end
  end.

Definition split (sep s : string) : list string := split_from sep 0 [] s.

End PyStr.

(** ** hashlib.md5 (RFC 1321), on bytes given as numbers below 256 *)

Module MD5.

Definition w32 (x : Z) : Z := x mod 4294967296.
Definition add32 (a b : Z) : Z := w32 (a + b).
Definition not32 (a : Z) : Z := Z.lxor a 4294967295.
Definition rotl32 (x : Z) (c : Z) : Z :=
  Z.lor (w32 (Z.shiftl x c)) (Z.shiftr x (32 - c)).

Definition K : list Z :=
[ 3614090360; 3905402710; 606105819; 3250441966; 4118548399; 1200080426; 2821735955; 4249261313;
  1770035416; 2336552879; 4294925233; 2304563134; 1804603682; 4254626195; 2792965006; 1236535329;
  4129170786; 3225465664; 643717713; 3921069994; 3593408605; 38016083; 3634488961; 3889429448;
  568446438; 3275163606; 4107603335; 1163531501; 2850285829; 4243563512; 1735328473; 2368359562;
  4294588738; 2272392833; 1839030562; 4259657740; 2763975236; 1272893353; 4139469664; 3200236656;
  681279174; 3936430074; 3572445317; 76029189; 3654602809; 3873151461; 530742520; 3299628645;
  4096336452; 1126891415; 2878612391; 4237533241; 1700485571; 2399980690; 4293915773; 2240044497;
  1873313359; 4264355552; 2734768916; 1309151649; 4149444226; 3174756917; 718787259; 3951481745 ].

Definition S : list Z :=
[ 7; 12; 17; 22; 7; 12; 17; 22; 7; 12; 17; 22; 7; 12; 17; 22;
  5; 9; 14; 20; 5; 9; 14; 20; 5; 9; 14; 20; 5; 9; 14; 20;
  4; 11; 16; 23; 4; 11; 16; 23; 4; 11; 16; 23; 4; 11; 16; 23;
  6; 10; 15; 21; 6; 10; 15; 21; 6; 10; 15; 21; 6; 10; 15; 21 ].

Definition nthZ (l : list Z) (i : Z) : Z := nth (Z.to_nat i) l 0.

(** Little-endian bytes of a number, [n] of them. *)
Fixpoint le_bytes (n : nat) (x : Z) : list Z :=
  match n with
  | O => []
  | Datatypes.S n' => (x mod 256) :: le_bytes n' (x / 256)
  end.

Fixpoint le_word (bs : list Z) : Z :=
  match bs with
  | [] => 0
  | b :: rest => b + 256 * le_word rest
  end.

(** The message followed by 0x80, zeros up to 56 mod 64, and the bit
    length on 8 bytes. *)
Definition pad (msg : list Z) : list Z :=
  let n := Z.of_nat (length msg) in
  let zeros := Z.to_nat ((55 - n) mod 64) in
  msg ++ [128] ++ repeat 0 zeros ++ le_bytes 8 (8 * n).

(** The sixteen words of a 64-byte block. *)
Fixpoint words (n : nat) (block : list Z) : list Z :=
  match n with
  | O => []
  | Datatypes.S n' => le_word (firstn 4 block) :: words n' (skipn 4 block)
  end.

Record regs := Regs { rA : Z; rB : Z; rC : Z; rD : Z }.

Definition round (M : list Z) (r : regs) (i : Z) : regs :=
  let '(Regs a b c d) := r in
  let '(f, g) :=
    if i <? 16 then (Z.lor (Z.land b c) (Z.land (not32 b) d), i)
    else if i <? 32 then (Z.lor (Z.land d b) (Z.land (not32 d) c), (5 * i + 1) mod 16)
    else if i <? 48 then (Z.lxor (Z.lxor b c) d, (3 * i + 5) mod 16)
    else (Z.lxor c (Z.lor b (not32 d)), (7 * i) mod 16) in
  let f' := add32 (add32 (add32 f a) (nthZ K i)) (nthZ M g) in
  Regs d (add32 b (rotl32 f' (nthZ S i))) b c.

Definition block (r : regs) (blk : list Z) : regs :=
  let M := words 16 blk in
  let r' := fold_left (round M) (map Z.of_nat (seq 0 64)) r in
  Regs (add32 (rA r) (rA r')) (add32 (rB r) (rB r'))
       (add32 (rC r) (rC r')) (add32 (rD r) (rD r')).

Fixpoint blocks (n : nat) (r : regs) (bs : list Z) : regs :=
  match n with
  | O => r
  | Datatypes.S n' => blocks n' (block r (firstn 64 bs)) (skipn 64 bs)
  end.

Definition digest (msg : list Z) : list Z :=
  let p := pad msg in
  let r := blocks (length p / 64)%nat
                  (Regs 1732584193 4023233417 2562383102 271733878) p in
  le_bytes 4 (rA r) ++ le_bytes 4 (rB r) ++ le_bytes 4 (rC r) ++ le_bytes 4 (rD r).

Definition hexdigit (n : Z) : ascii :=
  ascii_of_nat (Z.to_nat (if n <? 10 then 48 + n else 87 + n)).

Definition hex2 (b : Z) : string :=
  String (hexdigit (b / 16)) (String (hexdigit (b mod 16)) EmptyString).

(** [hashlib.md5(s.encode('utf-8')).hexdigest()] for an ASCII string *)
Definition hexdigest (s : string) : string :=
  PyStr.concat (map hex2 (digest (map PyStr.code (PyStr.chars s)))).

End MD5.

(** ** src/core/exceptions.py *)

Inductive exc_class :=
  (* built-in and library exceptions the code can meet *)
  | Exception_ | RuntimeError | KeyError | IndexError | TypeError
  | ValueError | AttributeError | OSError | JSONDecodeError
  | UnicodeDecodeError | BinasciiError | URLError | HTTPError
  (* the add-on's hierarchy *)
  | TTSException
  | APIException | InvalidAPIKeyException | RateLimitedException
  | BadRequestException
  | NetworkException | TimeoutException | ConnectionException
  | CacheException | CacheWriteException | CacheReadException
  | CacheCorruptedException
  | AudioException | AudioConversionException | AudioSizeException
  | SecurityException | PathSecurityException.

#[global] Instance exc_class_eq_dec : EqDecision exc_class.
Proof. solve_decision. Defined.

(** The base class named in each [class X(Base)] header. *)
Definition base (c : exc_class) : option exc_class :=
  match c with
  | Exception_ => None
  | RuntimeError | KeyError | IndexError | TypeError | ValueError
  | AttributeError | OSError | TTSException => Some Exception_
  | JSONDecodeError | UnicodeDecodeError | BinasciiError => Some ValueError
  | URLError => Some OSError
  | HTTPError => Some URLError
  | APIException | NetworkException | CacheException | AudioException
  | SecurityException => Some TTSException
  | InvalidAPIKeyException | RateLimitedException | BadRequestException =>
      Some APIException
  | TimeoutException | ConnectionException => Some NetworkException
  | CacheWriteException | CacheReadException | CacheCorruptedException =>
      Some CacheException
  | AudioConversionException | AudioSizeException => Some AudioException
  | PathSecurityException => Some SecurityException
  end.

Fixpoint subclass_fuel (n : nat) (c d : exc_class) : bool :=
  bool_decide (c = d) ||
  match n, base c with
  | S n', Some b => subclass_fuel n' b d
  | _, _ => false
  end.

(** [issubclass(c, d)]; no class is more than four steps below [Exception]. *)
Definition issubclass (c d : exc_class) : bool := subclass_fuel 4 c d.

Record exn := Exn {
  e_class : exc_class;
  e_message : string;              (* args[0] *)
  e_error_code : option string;
  e_status_code : option Z;
  e_user_message : option string   (* None: the attribute is absent *)
}.

(** [isinstance(e, (c1, ..., cn))] *)
Definition isinstance (e : exn) (cs : list exc_class) : bool :=
  existsb (issubclass (e_class e)) cs.

(** [str(e)]: [TTSException.__str__], and the message for built-ins. *)
Definition str_exn (e : exn) : string :=
  match e_error_code e with
  | Some c => PyStr.concat ["["; c; "] "; e_message e]
  | None => e_message e
  end.

Definition builtin_exn (c : exc_class) (msg : string) : exn :=
  Exn c msg None None None.

Definition mk_APIException (c : exc_class) (message : string)
    (status_code : option Z) (error_code : option string) : exn :=
  Exn c message error_code status_code
      (Some (match status_code with
             | Some 403 => "Invalid API key. Check your configuration."
             | Some 429 => "Rate limited. Wait a moment and try again."
             | Some 400 => "Invalid request. Check your text and settings."
             | _ => message
             end)).

Definition new_APIException (message : string) (status_code : option Z) : exn :=
  mk_APIException APIException message status_code None.

Definition new_InvalidAPIKeyException (message : string) : exn :=
  mk_APIException InvalidAPIKeyException message (Some 403) (Some "INVALID_API_KEY").

Definition new_RateLimitedException (message : string) : exn :=
  mk_APIException RateLimitedException message (Some 429) (Some "RATE_LIMITED").

Definition new_BadRequestException (message : string) : exn :=
  mk_APIException BadRequestException message (Some 400) (Some "BAD_REQUEST").

Definition mk_NetworkException (c : exc_class) (message : string)
    (error_code : option string) (timeout : bool) : exn :=
  Exn c message error_code None
      (Some (if timeout then "Network timeout. Check your connection."
             else if PyStr.contains "connection" (PyStr.lower message)
             then "Connection failed. Check your internet."
             else "Network error. Check your connection.")).

Definition new_NetworkException (message : string) : exn :=
  mk_NetworkException NetworkException message None false.

Definition new_TimeoutException (message : string) : exn :=
  mk_NetworkException TimeoutException message (Some "TIMEOUT") true.

Definition new_ConnectionException (message : string) : exn :=
  mk_NetworkException ConnectionException message (Some "CONNECTION_ERROR") false.

Definition mk_CacheException (c : exc_class) (message : string)
    (error_code : option string) (critical : bool) : exn :=
  Exn c message error_code None
      (Some (if critical then message
             else "Cache error. Audio may not be saved for reuse.")).

Definition new_CacheWriteException (message : string) : exn :=
  mk_CacheException CacheWriteException message (Some "CACHE_WRITE_ERROR") false.

Definition new_AudioException (message : string) : exn :=
  Exn AudioException message None None (Some "Audio processing error.").

Definition new_AudioSizeException (message : string) (actual_size : Z) : exn :=
  Exn AudioSizeException message (Some "AUDIO_SIZE_ERROR") None
      (Some "Audio generation failed - invalid audio data received").

Definition new_SecurityException (message : string) : exn :=
  Exn SecurityException message None None (Some "Security error. Operation blocked.").

(** [HTTP_STATUS_EXCEPTIONS] and [create_api_exception] *)
Definition create_api_exception (status_code : Z) (message : string) : exn :=
  if status_code =? 400 then new_BadRequestException message
  else if (status_code =? 401) || (status_code =? 403)
  then new_InvalidAPIKeyException message
  else if status_code =? 429 then new_RateLimitedException message
  else new_APIException message (Some status_code).

(** [handle_http_error], on the [code] and [reason] of the [HTTPError] *)
Definition handle_http_error (code : Z) (reason : string) : exn :=
  create_api_exception code (PyStr.concat ["HTTP "; PyStr.of_Z code; ": "; reason]).

(** [handle_network_error], on [str(error)] *)
Definition handle_network_error (error_str : string) : exn :=
  let l := PyStr.lower error_str in
  if PyStr.contains "timeout" l then new_TimeoutException error_str
  else if PyStr.contains "connection" l then new_ConnectionException error_str
  else new_NetworkException error_str.

(** ** src/core/constants.py *)

Module ModelConstants.
Definition FLASH_UNIFIED := "gemini-2.5-flash-preview-06-05".
Definition PRO_UNIFIED := "gemini-2.5-pro-preview-06-05".
Definition FLASH_TTS := "gemini-2.5-flash-preview-tts".
Definition PRO_TTS := "gemini-2.5-pro-preview-tts".
Definition DEFAULT_MODEL := "flash_unified".
Definition DEFAULT_FALLBACK_MODEL := "flash_tts".

(** [get_model_definitions()[model]["model_id"]]; [None] is a [KeyError]. *)
Definition model_id (model : string) : option string :=
  if String.eqb model "flash_unified" then Some FLASH_UNIFIED
  else if String.eqb model "pro_unified" then Some PRO_UNIFIED
  else if String.eqb model "flash_tts" then Some FLASH_TTS
  else if String.eqb model "pro_tts" then Some PRO_TTS
  else None.

Definition FLASH_THINKING_RANGE : Z * Z := (0, 24576).
Definition PRO_THINKING_RANGE : Z * Z := (128, 32768).

(** An entry of [get_model_definitions()]; the TTS-only models have no
    ["thinking_budget_range"] key. *)
Record model_info := {
  mi_model_id : string;
  mi_display_name : string;
  mi_description : string;
  mi_mode : string;
  mi_thinking_budget_range : option (Z * Z)
}.

Definition get_model_definitions : list (string * model_info) :=
  [ ("flash_unified",
     {| mi_model_id := FLASH_UNIFIED;
        mi_display_name := "Gemini 2.5 Flash (Unified)";
        mi_description := "AI preprocessing + TTS in one call";
        mi_mode := "unified";
        mi_thinking_budget_range := Some FLASH_THINKING_RANGE |});
    ("pro_unified",
     {| mi_model_id := PRO_UNIFIED;
        mi_display_name := "Gemini 2.5 Pro (Unified)";
        mi_description := "Best quality with AI preprocessing";
        mi_mode := "unified";
        mi_thinking_budget_range := Some PRO_THINKING_RANGE |});
    ("flash_tts",
     {| mi_model_id := FLASH_TTS;
        mi_display_name := "Gemini 2.5 Flash (TTS Only)";
        mi_description := "Traditional TTS without preprocessing";
        mi_mode := "traditional";
        mi_thinking_budget_range := None |});
    ("pro_tts",
     {| mi_model_id := PRO_TTS;
        mi_display_name := "Gemini 2.5 Pro (TTS Only)";
        mi_description := "High quality traditional TTS";
        mi_mode := "traditional";
        mi_thinking_budget_range := None |}) ].
End ModelConstants.

Module APIConstants.
Definition UNIFIED_TIMEOUT := 45.
Definition TRADITIONAL_TIMEOUT := 30.
Definition MIN_API_KEY_LENGTH := 20.
End APIConstants.

Module VoiceConstants.
Definition NATURAL_VOICES : list string :=
  ["Zephyr"; "Puck"; "Charon"; "Kore"; "Fenrir"; "Leda"].
Definition EXPRESSIVE_VOICES : list string :=
  ["Orus"; "Aoede"; "Callirhoe"; "Autonoe"; "Enceladus"; "Iapetus"].
Definition TECHNICAL_VOICES : list string :=
  ["Umbriel"; "Algieba"; "Despina"; "Erinome"; "Algenib"; "Rasalgethi"].
Definition DRAMATIC_VOICES : list string :=
  ["Laomedeia"; "Achernar"; "Alnilam"; "Schedar"; "Gacrux"; "Pulcherrima"].
Definition SPECIALIZED_VOICES : list string :=
  ["Achird"; "Zubenelgenubi"; "Vindemiatrix"; "Sadachbia"; "Sadaltager"; "Sulafat"].
Definition DEFAULT_VOICE := "Zephyr".

Definition get_all_voices : list string :=
  (NATURAL_VOICES ++ EXPRESSIVE_VOICES ++ TECHNICAL_VOICES
   ++ DRAMATIC_VOICES ++ SPECIALIZED_VOICES)%list.
End VoiceConstants.

Module AudioConstants.
Definition MIN_AUDIO_SIZE := 1000.
Definition MAX_AUDIO_SIZE := 50 * 1024 * 1024.
End AudioConstants.

Module CacheConstants.
Definition METADATA_FILENAME := "cache_metadata.json".
Definition TEMP_FILE_PREFIX := ".cache_tmp_".
Definition TEMP_FILE_CLEANUP_HOURS := 1.
Definition CACHE_AUDIO_EXT := ".wav".
End CacheConstants.

Module FileConstants.
Definition MAX_FILENAME_LENGTH := 255.
(** Less-than, greater-than, colon, double quote, slash, backslash,
    bar, question mark, star. *)
Definition FORBIDDEN_CHARS : string :=
  String.append "<>:" (String PyStr.dquote "/\|?*").
End FileConstants.

(** ** Python dictionaries, in insertion order *)

Module PyDict.
Section Ops.
Context {V : Type}.

(** [d.get(k)] *)
Fixpoint get (k : string) (d : list (string * V)) : option V :=
  match d with
  | [] => None
  | (k', v) :: rest => if String.eqb k k' then Some v else get k rest
  end.

(** [k in d] *)
Definition mem (k : string) (d : list (string * V)) : bool :=
  match get k d with Some _ => true | None => false end.

(** [d[k] = v]: an existing key keeps its place, a new one goes last. *)
Fixpoint set (k : string) (v : V) (d : list (string * V)) : list (string * V) :=
  match d with
  | [] => [(k, v)]
  | (k', v') :: rest =>
      if String.eqb k k' then (k, v) :: rest else (k', v') :: set k v rest
  end.

(** [del d[k]], for a key that is present. *)
Definition del (k : string) (d : list (string * V)) : list (string * V) :=
  filter (fun kv => k ≠ kv.1) d.

(** [len(d)] *)
Definition len (d : list (string * V)) : nat := length d.
End Ops.

End PyDict.

(** ** src/core/models.py *)

Record TTSConfig := {
  api_key : string;
  model : string;
  cfg_processing_mode : string;
  voice : string;
  temperature : Q;
  thinking_budget : Z;
  enable_cache : bool;
  cache_days : Z;
  enable_fallback : bool;
  cache_preprocessing : bool;
  preprocessing_style : string;
  enable_style_control : bool;
  auto_detect_content : bool;
  prefer_instructions : bool
}.

(** [config.model = m] *)
Definition set_model (m : string) (c : TTSConfig) : TTSConfig :=
  {| api_key := api_key c; model := m;
     cfg_processing_mode := cfg_processing_mode c; voice := voice c;
     temperature := temperature c; thinking_budget := thinking_budget c;
     enable_cache := enable_cache c; cache_days := cache_days c;
     enable_fallback := enable_fallback c;
     cache_preprocessing := cache_preprocessing c;
     preprocessing_style := preprocessing_style c;
     enable_style_control := enable_style_control c;
     auto_detect_content := auto_detect_content c;
     prefer_instructions := prefer_instructions c |}.

Record CacheFileInfo := {
  created : Q;
  accessed : Q;
  version : string;
  cache_key : string;
  file_size : Z
}.


Record CacheMetadata := {
  md_version : string;
  files : list (string * CacheFileInfo)
}.

(** [CacheMetadata()] *)
Definition new_CacheMetadata : CacheMetadata :=
  {| md_version := "2.0"; files := [] |}.

Definition set_files (fs : list (string * CacheFileInfo)) (m : CacheMetadata)
  : CacheMetadata :=
  {| md_version := md_version m; files := fs |}.

(** [CacheMetadata.add_file], with the reading of [time.time()] *)
Definition add_file (current_time : Q) (filename key : string) (size : Z)
    (m : CacheMetadata) : CacheMetadata :=
  set_files (PyDict.set filename
               {| created := current_time; accessed := current_time;
                  version := md_version m; cache_key := key;
                  file_size := size |} (files m)) m.

(** [CacheMetadata.update_access], with the reading of [time.time()] the
    method takes when the file is present *)
Definition update_access (now : Q) (filename : string) (m : CacheMetadata)
  : CacheMetadata :=
  match PyDict.get filename (files m) with
  | Some info =>
      set_files (PyDict.set filename
                   {| created := created info; accessed := now;
                      version := version info; cache_key := cache_key info;
                      file_size := file_size info |} (files m)) m
  | None => m
  end.

Record AudioGenerationRequest := {
  text : string;
  req_config : TTSConfig;
  processing_mode : string;
  use_cache : bool
}.

(** [AudioGenerationRequest(text, config, processing_mode, use_cache)]
    with its [__post_init__]: the checks, then the default mode. *)
Definition new_AudioGenerationRequest (text : string) (config : TTSConfig)
    (processing_mode : option string) (use_cache : bool)
  : exn + AudioGenerationRequest :=
  if PyStr.strip_is_empty text
  then inl (builtin_exn ValueError "Text cannot be empty")
  else if 5000 <? PyStr.len text
  then inl (builtin_exn ValueError "Text too long (max 5000 characters)")
  else inr {| text := text; req_config := config;
              processing_mode :=
                match processing_mode with
                | Some m => m
                | None => cfg_processing_mode config
                end;
              use_cache := use_cache |}.

Record AudioGenerationResult := {
  success : bool;
  filename : option string;
  error_message : option string;
  used_cache : bool;
  res_processing_mode : option string;
  generation_time : Q
}.

(** ** JSON values, and [json.dumps] *)

Inductive json :=
  | JNull
  | JBool (b : bool)
  | JInt (z : Z)
  | JFloat (q : Q)
  | JStr (s : string)
  | JArr (l : list json)
  | JObj (kv : list (string * json)).

Module Json.

Definition hex4 (n : Z) : string :=
  String.append (MD5.hex2 (n / 256)) (MD5.hex2 (n mod 256)).

(** One character of a string, as [json.dumps] writes it with
    [ensure_ascii]. *)
Definition encode_char (c : ascii) : string :=
  let n := PyStr.code c in
  if n =? 34 then String "\" (String PyStr.dquote "")
  else if n =? 92 then "\\"
  else if n =? 10 then "\n"
  else if n =? 13 then "\r"
  else if n =? 9 then "\t"
  else if n =? 12 then "\f"
  else if n =? 8 then "\b"
  else if (32 <=? n) && (n <=? 126) then String c ""
  else String.append "\u" (hex4 n).

Definition encode_str (s : string) : string :=
  String PyStr.dquote
    (String.append (PyStr.concat (map encode_char (PyStr.chars s)))
                   (String PyStr.dquote "")).

Fixpoint join (sep : string) (l : list string) : string :=
  match l with
  | [] => ""
  | [x] => x
  | x :: rest => String.append x (String.append sep (join sep rest))
  end.

Fixpoint insert_sorted {A} (x : string * A) (l : list (string * A)) :=
  match l with
  | [] => [x]
  | y :: rest =>
      if String.leb x.1 y.1 then x :: l else y :: insert_sorted x rest
  end.

(** [sorted(items)] on the keys *)
Definition sort_items {A} (l : list (string * A)) : list (string * A) :=
  fold_right insert_sorted [] l.

Section Dumps.
(** [repr] of a float *)
Variable float_repr : Q -> string.

(** [json.dumps(j, sort_keys=sort_keys)] *)
Fixpoint dumps (sort_keys : bool) (j : json) : string :=
  match j with
  | JNull => "null"
  | JBool true => "true"
  | JBool false => "false"
  | JInt z => PyStr.of_Z z
  | JFloat q => float_repr q
  | JStr s => encode_str s
  | JArr l =>
      PyStr.concat ["["; join ", " (map (dumps sort_keys) l); "]"]
  | JObj kv =>
      let items := map (fun '(k, v) => (k, dumps sort_keys v)) kv in
      let items := if sort_keys then sort_items items else items in
      PyStr.concat
        ["{";
         join ", " (map (fun '(k, v) => PyStr.concat [encode_str k; ": "; v]) items);
         "}"]
  end.
End Dumps.

End Json.

(** ** src/core/models.py: validation and operation results *)

(** [x <= y] and [x < y] on floats *)
Definition Qleb (x y : Q) : bool := Qle_bool x y.
Definition Qltb (x y : Q) : bool := negb (Qle_bool y x).

(** [TTSConfig.validate] *)
Definition validate (c : TTSConfig) : bool :=
  if PyStr.strip_is_empty (api_key c) then false
  else if Qltb (temperature c) 0 || Qltb 2 (temperature c) then false
  else if (thinking_budget c <? 0) || (32768 <? thinking_budget c) then false
  else if (cache_days c <? 1) || (365 <? cache_days c) then false
  else true.

(** [Result]: [data] is any value, [JNull] for [None]. *)
Module Result.

Record t := {
  success : bool;
  data : json;
  error : option string;
  error_code : option string
}.

(** [Result.success_result(data)] *)
Definition success_result (d : json) : t :=
  {| success := true; data := d; error := None; error_code := None |}.

(** [Result.error_result(error, error_code)] *)
Definition error_result (e : string) (code : option string) : t :=
  {| success := false; data := JNull; error := Some e; error_code := code |}.

(** [Result.failed] *)
Definition failed (r : t) : bool := negb (success r).

End Result.

(** [ValidationResult(Result)], with its [field_errors] dictionary *)
Module ValidationResult.

Record t := {
  success : bool;
  data : json;
  error : option string;
  error_code : option string;
  field_errors : list (string * string)
}.

(** [ValidationResult.success_result()] *)
Definition success_result : t :=
  {| success := true; data := JNull; error := None; error_code := None;
     field_errors := [] |}.

(** [add_field_error]: an [error] that is [None] or empty is replaced,
    another one is extended. *)
Definition add_field_error (field e : string) (r : t) : t :=
  {| success := false;
     data := data r;
     error :=
       Some (match error r with
             | Some old =>
                 if negb (String.eqb old "")
                 then PyStr.concat [old; "; "; field; ": "; e]
                 else PyStr.concat [field; ": "; e]
             | None => PyStr.concat [field; ": "; e]
             end);
     error_code := error_code r;
     field_errors := PyDict.set field e (field_errors r) |}.

End ValidationResult.

(** ** The program state *)

(** What [json.load] returns for the index file, as far as
    [_load_metadata] looks into it.  An absent key is [None]; a value
    of the wrong kind (no [.get], no [.items]) is [DocOther],
    [FilesOther], or an entry [None]. *)
Record file_doc := {
  d_created : option Q;
  d_accessed : option Q;
  d_version : option string;
  d_cache_key : option string;
  d_file_size : option Z
}.

Inductive files_doc :=
  | FilesDict (entries : list (string * option file_doc))
  | FilesOther.

Inductive index_doc :=
  | DocDict (doc_version : option string) (doc_files : option files_doc)
  | DocOther.

(** A file of the cache directory holds bytes that are no JSON document
    (audio, or a damaged index), or the text of a JSON document. *)
Inductive content :=
  | Blob (data : list Byte.byte)
  | IndexText (doc : index_doc).

Record node := {
  n_content : content;
  n_ctime : Q;          (* os.path.getctime *)
  n_readable : bool;    (* open(path, 'r') succeeds *)
  n_locked : bool       (* removing or overwriting it raises OSError *)
}.

Record api_call := {
  c_model_id : string;
  c_prompt : string;
  c_voice : string;
  c_temperature : Q;
  c_thinking_budget : option Z;   (* thinkingBudget, when the payload has it *)
  c_timeout : Z;
  c_api_key : string
}.

(** What [urllib.request.urlopen] and [response.read()] do: a response,
    an [HTTPError], another [URLError] (given by its [str]), or any other
    exception. *)
Inductive urlopen_outcome :=
  | Response (status : Z) (body : list Byte.byte)
  | HTTPErr (code : Z) (reason : string)
  | URLErr (error_str : string)
  | OtherErr (e : exn).

Record State := {
  st_config : TTSConfig;                 (* the shared config object *)
  st_metadata : option CacheMetadata;    (* CacheManager._metadata *)
  st_dir : gmap string node;             (* the cache directory *)
  st_writable : bool;                    (* its entries can be changed *)
  st_clock : nat -> Q;                   (* the n-th reading of time.time() *)
  st_ticks : nat;
  st_api : nat -> api_call -> urlopen_outcome;   (* the remote side *)
  st_calls : list api_call               (* requests sent so far *)
}.

Definition with_config (c : TTSConfig) (s : State) : State :=
  {| st_config := c; st_metadata := st_metadata s; st_dir := st_dir s;
     st_writable := st_writable s; st_clock := st_clock s;
     st_ticks := st_ticks s; st_api := st_api s; st_calls := st_calls s |}.

Definition with_metadata (m : option CacheMetadata) (s : State) : State :=
  {| st_config := st_config s; st_metadata := m; st_dir := st_dir s;
     st_writable := st_writable s; st_clock := st_clock s;
     st_ticks := st_ticks s; st_api := st_api s; st_calls := st_calls s |}.

Definition with_dir (d : gmap string node) (s : State) : State :=
  {| st_config := st_config s; st_metadata := st_metadata s; st_dir := d;
     st_writable := st_writable s; st_clock := st_clock s;
     st_ticks := st_ticks s; st_api := st_api s; st_calls := st_calls s |}.

Definition with_ticks (n : nat) (s : State) : State :=
  {| st_config := st_config s; st_metadata := st_metadata s;
     st_dir := st_dir s; st_writable := st_writable s;
     st_clock := st_clock s; st_ticks := n; st_api := st_api s;
     st_calls := st_calls s |}.

Definition with_calls (l : list api_call) (s : State) : State :=
  {| st_config := st_config s; st_metadata := st_metadata s;
     st_dir := st_dir s; st_writable := st_writable s;
     st_clock := st_clock s; st_ticks := st_ticks s; st_api := st_api s;
     st_calls := l |}.

(** ** Computations: state, exceptions, and a bound on the recursion *)

Inductive outcome (A : Type) :=
  | Ok (a : A)
  | Raise (e : exn)
  | OutOfFuel.
Arguments Ok {A} a.
Arguments Raise {A} e.
Arguments OutOfFuel {A}.

Definition M (A : Type) : Type := State -> outcome A * State.

Definition ret {A} (a : A) : M A := fun s => (Ok a, s).

Definition raise {A} (e : exn) : M A := fun s => (Raise e, s).

Definition bind {A B} (m : M A) (k : A -> M B) : M B :=
  fun s =>
    match m s with
    | (Ok a, s') => k a s'
    | (Raise e, s') => (Raise e, s')
    | (OutOfFuel, s') => (OutOfFuel, s')
    end.

Notation "x <- m ;; k" := (bind m (fun x => k))
  (at level 100, m at next level, right associativity).
Notation "m ;;; k" := (bind m (fun _ => k))
  (at level 100, right associativity).

(** [try: m / except (c1, ..., cn) as e: h e] *)
Definition try_except {A} (m : M A) (cs : list exc_class) (h : exn -> M A)
  : M A :=
  fun s =>
    match m s with
    | (Raise e, s') => if isinstance e cs then h e s' else (Raise e, s')
    | r => r
    end.

(** [try: m / except ...: / finally: f], for an [f] that cannot fail *)
Definition finally {A} (m : M A) (f : State -> State) : M A :=
  fun s => let '(r, s') := m s in (r, f s').

Definition get_state : M State := fun s => (Ok s, s).

Definition modify (f : State -> State) : M unit := fun s => (Ok tt, f s).

(** [time.time()] *)
Definition time_time : M Q :=
  fun s => (Ok (st_clock s (st_ticks s)), with_ticks (S (st_ticks s)) s).

(** [int(x)] for a float: towards zero *)
Definition int_of_float (x : Q) : Z := Z.quot (Qnum x) (Zpos (Qden x)).

(** [x > y] on floats *)
Definition Qgtb (x y : Q) : bool := negb (Qle_bool x y).

(** *** The cache directory *)

Definition os_error (what path : string) : exn :=
  builtin_exn OSError (PyStr.concat [what; ": "; path]).

(** [os.path.exists(os.path.join(cache_dir, name))] *)
Definition path_exists (name : string) : M bool :=
  fun s => (Ok (bool_decide (is_Some (st_dir s !! name))), s).

Definition node_locked (s : State) (name : string) : bool :=
  match st_dir s !! name with
  | Some n => n_locked n
  | None => false
  end.

(** [with open(path, 'w') as f: f.write(...)]: the file is created or
    replaced by one holding [c]. *)
Definition write_file (name : string) (c : content) : M unit :=
  fun s =>
    if st_writable s && negb (node_locked s name)
    then (Ok tt,
          with_dir (<[name := {| n_content := c;
                                 n_ctime := st_clock s (st_ticks s);
                                 n_readable := true;
                                 n_locked := false |}]> (st_dir s)) s)
    else (Raise (os_error "Permission denied" name), s).

(** [os.replace(src, dst)] *)
Definition os_replace (src dst : string) : M unit :=
  fun s =>
    match st_dir s !! src with
    | Some n =>
        if st_writable s && negb (node_locked s dst)
        then (Ok tt, with_dir (<[dst := n]> (delete src (st_dir s))) s)
        else (Raise (os_error "Permission denied" dst), s)
    | None => (Raise (os_error "No such file or directory" src), s)
    end.

(** [os.remove(path)] *)
Definition os_remove (name : string) : M unit :=
  fun s =>
    match st_dir s !! name with
    | Some n =>
        if st_writable s && negb (n_locked n)
        then (Ok tt, with_dir (delete name (st_dir s)) s)
        else (Raise (os_error "Permission denied" name), s)
    | None => (Raise (os_error "No such file or directory" name), s)
    end.

(** [os.path.getctime(path)] *)
Definition getctime (name : string) : M Q :=
  fun s =>
    match st_dir s !! name with
    | Some n => (Ok (n_ctime n), s)
    | None => (Raise (os_error "No such file or directory" name), s)
    end.

(** [os.listdir(cache_dir)] *)
Definition listdir : M (list string) :=
  fun s => (Ok ((map_to_list (st_dir s)).*1), s).

(** [with open(path, 'r') as f: json.load(f)] *)
Definition json_load_file (name : string) : M index_doc :=
  fun s =>
    match st_dir s !! name with
    | Some n =>
        if n_readable n then
          match n_content n with
          | IndexText doc => (Ok doc, s)
          | Blob _ =>
              (Raise (builtin_exn JSONDecodeError "Expecting value"), s)
          end
        else (Raise (os_error "Permission denied" name), s)
    | None => (Raise (os_error "No such file or directory" name), s)
    end.


(** ** src/services/cache_manager.py *)

Module CacheManager.

Definition metadata_file : string := CacheConstants.METADATA_FILENAME.

Definition default {A} (o : option A) (d : A) : A :=
  match o with Some a => a | None => d end.

Definition no_attribute (what : string) : exn :=
  builtin_exn AttributeError
    (PyStr.concat ["object has no attribute '"; what; "'"]).

(** The loop of [_load_metadata] over [data.get("files", {}).items()].
    Both defaults [time.time()] are evaluated for every entry. *)
Fixpoint load_entries (entries : list (string * option file_doc))
    (metadata : CacheMetadata) : M CacheMetadata :=
  match entries with
  | [] => ret metadata
  | (filename, None) :: _ => raise (no_attribute "get")
  | (filename, Some file_data) :: rest =>
      t1 <- time_time ;;
      t2 <- time_time ;;
      load_entries rest
        (set_files
           (PyDict.set filename
              {| created := default (d_created file_data) t1;
                 accessed := default (d_accessed file_data) t2;
                 version := default (d_version file_data) "1.0";
                 cache_key := default (d_cache_key file_data) "";
                 file_size := default (d_file_size file_data) 0 |}
              (files metadata))
           metadata)
  end.

(** The [try] block of [_load_metadata]. *)
Definition _load_metadata_body : M CacheMetadata :=
  present <- path_exists metadata_file ;;
  if present then
    data <- json_load_file metadata_file ;;
    match data with
    | DocOther => raise (no_attribute "get")
    | DocDict v fs =>
        let metadata :=
          {| md_version := default v "1.0"; files := [] |} in
        match fs with
        | None => ret metadata
        | Some FilesOther => raise (no_attribute "items")
        | Some (FilesDict entries) => load_entries entries metadata
        end
    end
  else ret new_CacheMetadata.

Definition _load_metadata : M CacheMetadata :=
  try_except _load_metadata_body [Exception_]
             (fun e => ret new_CacheMetadata).

(** [get_metadata]: the index is loaded on first use and kept. *)
Definition get_metadata : M CacheMetadata :=
  s <- get_state ;;
  match st_metadata s with
  | Some m => ret m
  | None =>
      m <- _load_metadata ;;
      modify (with_metadata (Some m)) ;;;
      ret m
  end.

(** Assignment to the fields of the loaded metadata object. *)
Definition put_metadata (m : CacheMetadata) : M unit :=
  modify (with_metadata (Some m)).

(** The entry [_save_metadata] writes for a file. *)
Definition saved_entry (item : string * CacheFileInfo)
  : string * option file_doc :=
  let '(filename, file_info) := item in
  (filename,
   Some {| d_created := Some (created file_info);
           d_accessed := Some (accessed file_info);
           d_version := Some (version file_info);
           d_cache_key := Some (cache_key file_info);
           d_file_size := Some (file_size file_info) |}).

(** The [data] dictionary [_save_metadata] serialises. *)
Definition doc_of_metadata (m : CacheMetadata) : index_doc :=
  DocDict (Some (md_version m))
          (Some (FilesDict (map saved_entry (files m)))).

(** [_save_metadata]: the index goes to a temporary file that then
    replaces the index file; any failure is a [CacheWriteException]. *)
Definition _save_metadata : M unit :=
  try_except
    (metadata <- get_metadata ;;
     let data := doc_of_metadata metadata in
     let temp_file := String.append metadata_file ".tmp" in
     write_file temp_file (IndexText data) ;;;
     os_replace temp_file metadata_file)
    [Exception_]
    (fun e =>
       raise (new_CacheWriteException
                (String.append "Cannot save metadata: " (str_exn e)))).

(** [metadata.update_access(filename)] on the loaded object *)
Definition do_update_access (filename : string) : M unit :=
  metadata <- get_metadata ;;
  if PyDict.mem filename (files metadata) then
    now <- time_time ;;
    put_metadata (update_access now filename metadata)
  else ret tt.

(** [del metadata.files[filename]] on the loaded object *)
Definition do_del (filename : string) : M unit :=
  metadata <- get_metadata ;;
  if PyDict.mem filename (files metadata) then
    put_metadata (set_files (PyDict.del filename (files metadata)) metadata)
  else raise (builtin_exn KeyError filename).

(** The [for] loop of [get_cached_file], over the items the iterator
    still has to yield.  [used] is the size of the dictionary when the
    iteration began; each step of the iterator, the last one that ends
    the loop too, first compares it with the present size.  The local
    [metadata] is the loaded object, which [get_metadata] gives as it is
    now. *)
Fixpoint lookup_loop (key : string) (items : list (string * CacheFileInfo))
    (used : nat) : M (option string) :=
  metadata <- get_metadata ;;
  if negb (Nat.eqb (PyDict.len (files metadata)) used) then
    raise (builtin_exn RuntimeError "dictionary changed size during iteration")
  else
    match items with
    | [] => ret None
    | (filename, file_info) :: rest =>
        if String.eqb (cache_key file_info) key then
          present <- path_exists filename ;;
          if present then
            do_update_access filename ;;;
            _save_metadata ;;;
            ret (Some filename)
          else
            do_del filename ;;;
            _save_metadata ;;;
            lookup_loop key rest used
        else lookup_loop key rest used
    end.

(** The [try] block of [get_cached_file]. *)
Definition get_cached_file_body (key : string) : M (option string) :=
  metadata <- get_metadata ;;
  lookup_loop key (files metadata) (PyDict.len (files metadata)).

Definition get_cached_file (key : string) : M (option string) :=
  try_except (get_cached_file_body key) [Exception_] (fun e => ret None).

(** The first forbidden character that occurs in the name. *)
Definition forbidden_in (name : string) : option ascii :=
  List.find (fun c => PyStr.has_char c name)
            (PyStr.chars FileConstants.FORBIDDEN_CHARS).

Definition _validate_filename (name : string) : M unit :=
  if FileConstants.MAX_FILENAME_LENGTH <? PyStr.len name then
    raise (new_SecurityException
             (String.append "Filename too long: " (PyStr.of_Z (PyStr.len name))))
  else
    match forbidden_in name with
    | Some c =>
        raise (new_SecurityException
                 (String.append "Forbidden character in filename: " (String c "")))
    | None =>
        if PyStr.startswith name "." && negb (PyStr.startswith name ".cache_tmp_")
        then raise (new_SecurityException
                      (String.append "Invalid filename pattern: " name))
        else ret tt
    end.

(** The name [save_audio] gives the file, from the key and [int(time.time())]. *)
Definition audio_filename (key : string) (timestamp : Z) : string :=
  PyStr.concat ["gemini_tts_"; PyStr.take 8 key; "_"; PyStr.of_Z timestamp; ".wav"].

(** The name of the temporary file [save_audio] writes first. *)
Definition temp_filename (name : string) : string := String.append ".tmp_" name.

Definition save_audio (key : string) (audio_data : list Byte.byte) : M string :=
  now <- time_time ;;
  let timestamp := int_of_float now in
  let name := audio_filename key timestamp in
  _validate_filename name ;;;
  try_except
    (let temp_file := temp_filename name in
     write_file temp_file (Blob audio_data) ;;;
     os_replace temp_file name ;;;
     metadata <- get_metadata ;;
     current_time <- time_time ;;
     put_metadata
       (add_file current_time name key (Z.of_nat (length audio_data)) metadata) ;;;
     _save_metadata ;;;
     ret name)
    [Exception_]
    (fun e =>
       let temp_file := temp_filename name in
       present <- path_exists temp_file ;;
       (if present
        then try_except (os_remove temp_file) [OSError] (fun _ => ret tt)
        else ret tt) ;;;
       raise (new_CacheWriteException
                (String.append "Cannot save audio file: " (str_exn e)))).

(** [save_audio] up to the write of its temporary file: the steps done
    when the process dies between that write and [os.replace]. *)
Definition save_audio_until_temp_written (key : string)
    (audio_data : list Byte.byte) : M string :=
  now <- time_time ;;
  let timestamp := int_of_float now in
  let name := audio_filename key timestamp in
  _validate_filename name ;;;
  let temp_file := temp_filename name in
  write_file temp_file (Blob audio_data) ;;;
  ret temp_file.





(** The loop of [cleanup_temp_files] over the directory listing. *)
Fixpoint remove_temp (names : list string) (current_time cleanup_age : Q)
    (removed_count : Z) : M Z :=
  match names with
  | [] => ret removed_count
  | filename :: rest =>
      n <- (if PyStr.startswith filename CacheConstants.TEMP_FILE_PREFIX then
              try_except
                (ctime <- getctime filename ;;
                 let file_age := (current_time - ctime)%Q in
                 if Qgtb file_age cleanup_age then
                   os_remove filename ;;;
                   ret (removed_count + 1)
                 else ret removed_count)
                [Exception_]
                (fun e => ret removed_count)
            else ret removed_count) ;;
      remove_temp rest current_time cleanup_age n
  end.

Definition cleanup_temp_files : M Z :=
  try_except
    (current_time <- time_time ;;
     let cleanup_age := inject_Z (CacheConstants.TEMP_FILE_CLEANUP_HOURS * 3600) in
     names <- listdir ;;
     remove_temp names current_time cleanup_age 0)
    [Exception_]
    (fun e => ret 0).

(** The files [validate_cache_integrity] reports as orphaned. *)
Definition orphaned_files : M (list string) :=
  metadata <- get_metadata ;;
  names <- listdir ;;
  ret (filter (fun name =>
                 PyStr.endswith name CacheConstants.CACHE_AUDIO_EXT
                 && negb (PyStr.startswith name ".")
                 && negb (PyDict.mem name (files metadata))) names).




Section Integrity.

(** The number of bytes of the text of a JSON document. *)
Variable text_size : index_doc -> Z.








End Integrity.

End CacheManager.

(** ** src/services/audio_generator.py *)

(** The collaborators an [AudioGenerator] is built with: each is an object
    or [None]. *)
Record AudioGenerator := {
  cache_manager : bool;
  text_processor : bool
}.

Module Envelope.

Definition type_error (msg : string) : exn := builtin_exn TypeError msg.

(** [k in j] *)
Definition contains (k : string) (j : json) : exn + bool :=
  match j with
  | JObj kv => inr (PyDict.mem k kv)
  | JArr l =>
      inr (existsb (fun x => match x with
                             | JStr s => String.eqb s k
                             | _ => false
                             end) l)
  | JStr s => inr (PyStr.contains k s)
  | _ => inl (type_error "argument is not iterable")
  end.

(** [j[k]] for a string [k] *)
Definition getitem (j : json) (k : string) : exn + json :=
  match j with
  | JObj kv =>
      match PyDict.get k kv with
      | Some v => inr v
      | None => inl (builtin_exn KeyError (PyStr.concat ["'"; k; "'"]))
      end
  | JArr _ => inl (type_error "list indices must be integers or slices, not str")
  | JStr _ => inl (type_error "string indices must be integers, not 'str'")
  | _ => inl (type_error "object is not subscriptable")
  end.

(** [j[0]] *)
Definition getitem0 (j : json) : exn + json :=
  match j with
  | JArr (x :: _) => inr x
  | JArr [] => inl (builtin_exn IndexError "list index out of range")
  | JStr (String c _) => inr (JStr (String c ""))
  | JStr EmptyString => inl (builtin_exn IndexError "string index out of range")
  | JObj _ => inl (builtin_exn KeyError "0")
  | _ => inl (type_error "object is not subscriptable")
  end.

End Envelope.

(** A result without effect, as a computation. *)
Definition lift {A} (r : exn + A) : M A :=
  match r with
  | inl e => raise e
  | inr a => ret a
  end.

(** The newline character. *)
Definition nl : string := String "010"%char "".

Section Generator.

(** [repr] of a float, as [json.dumps] writes it. *)
Variable float_repr : Q -> string.

(** [json.loads(response_data.decode('utf-8'))]: the document, or the
    [JSONDecodeError] or [UnicodeDecodeError] raised.  An object of the
    result has no key twice. *)
Variable json_loads : list Byte.byte -> exn + json.

(** [base64.b64decode] of a string: the bytes, or the error raised. *)
Variable b64decode : string -> exn + list Byte.byte.

(** The substitutions of [TextProcessor.preprocess_text], for a style
    and a text; [re.sub] does not fail. *)
Variable re_pipeline : string -> string -> string.

Variable self : AudioGenerator.

(** [TextProcessor.preprocess_text] *)
Definition preprocess_text (config : TTSConfig) (text : string) : string :=
  if negb (enable_style_control config) then text
  else re_pipeline (preprocessing_style config) text.

(** The [key_data] dictionary of [_generate_cache_key]. *)
Definition key_data (config : TTSConfig) (request : AudioGenerationRequest)
  : json :=
  JObj [ ("text", JStr (text request));
         ("model", JStr (model config));
         ("voice", JStr (voice config));
         ("temperature", JFloat (temperature config));
         ("mode", JStr (processing_mode request));
         ("style", if enable_style_control config
                   then JStr (preprocessing_style config) else JNull);
         ("thinking_budget",
          JInt (if String.eqb (processing_mode request) "unified"
                then thinking_budget config else 0)) ].

(** [_generate_cache_key], on the generator's config *)
Definition _generate_cache_key (config : TTSConfig)
    (request : AudioGenerationRequest) : string :=
  let key_string := Json.dumps float_repr true (key_data config request) in
  MD5.hexdigest key_string.

(** [AudioGenerationResult(success=False)] *)
Definition failed_lookup : AudioGenerationResult :=
  {| success := false; filename := None; error_message := None;
     used_cache := false; res_processing_mode := None; generation_time := 0 |}.

(** [_try_cache_lookup]: an empty file name counts as no file. *)
Definition _try_cache_lookup (request : AudioGenerationRequest)
  : M AudioGenerationResult :=
  r <- try_except
         (s <- get_state ;;
          let key := _generate_cache_key (st_config s) request in
          found <- CacheManager.get_cached_file key ;;
          match found with
          | Some name =>
              if negb (String.eqb name "") then
                ret (Some {| success := true; filename := Some name;
                             error_message := None; used_cache := true;
                             res_processing_mode := Some (processing_mode request);
                             generation_time := 0 |})
              else ret None
          | None => ret None
          end)
         [Exception_]
         (fun e => ret None) ;;
  match r with
  | Some hit => ret hit
  | None => ret failed_lookup
  end.

Definition _build_unified_prompt (config : TTSConfig) (text : string) : string :=
  let base_prompt :=
    PyStr.concat
      [ "You are an expert text-to-speech specialist. Your task is to analyze the given text and convert it to natural, clear speech.";
        nl; nl; "Text to process: "; text; nl; nl; "Instructions:"; nl;
        "1. Analyze the text structure and content type"; nl;
        "2. Apply appropriate preprocessing for optimal speech synthesis"; nl;
        "3. Generate natural, flowing speech output"; nl;
        "4. Maintain the original meaning while optimizing for audio delivery" ] in
  if negb (String.eqb (preprocessing_style config) "natural")
  then PyStr.concat [base_prompt; nl; "5. Use "; preprocessing_style config;
                     " style delivery"]
  else base_prompt.

Definition sum_bind {A B} (r : exn + A) (k : A -> exn + B) : exn + B :=
  match r with inl e => inl e | inr a => k a end.

Definition require (present : bool) (msg : string) : exn + unit :=
  if present then inr tt else inl (new_APIException msg None).

(** The walk of [_extract_audio_data] through the response, down to
    [part["inlineData"]["data"]]. *)
Definition inline_data (response_json : json) : exn + json :=
  sum_bind (Envelope.contains "candidates" response_json) (fun has =>
  sum_bind (require has "Invalid API response: no candidates") (fun _ =>
  sum_bind (Envelope.getitem response_json "candidates") (fun candidates =>
  sum_bind (Envelope.getitem0 candidates) (fun candidate =>
  sum_bind (Envelope.contains "content" candidate) (fun has =>
  sum_bind (require has "Invalid API response: no content") (fun _ =>
  sum_bind (Envelope.getitem candidate "content") (fun content =>
  sum_bind (Envelope.contains "parts" content) (fun has =>
  sum_bind (require has "Invalid API response: no parts") (fun _ =>
  sum_bind (Envelope.getitem content "parts") (fun parts =>
  sum_bind (Envelope.getitem0 parts) (fun part =>
  sum_bind (Envelope.contains "inlineData" part) (fun has =>
  sum_bind (require has "Invalid API response: no audio data") (fun _ =>
  sum_bind (Envelope.getitem part "inlineData") (fun inline =>
  Envelope.getitem inline "data")))))))))))))).

(** [base64.b64decode(audio_b64)] *)
Definition decode_audio (audio_b64 : json) : exn + list Byte.byte :=
  match audio_b64 with
  | JStr s => b64decode s
  | _ => inl (Envelope.type_error
                "argument should be a bytes-like object or ASCII string")
  end.

(** The two size checks of [_extract_audio_data]. *)
Definition validate_audio (audio_data : list Byte.byte)
  : exn + list Byte.byte :=
  let n := Z.of_nat (length audio_data) in
  if n <? AudioConstants.MIN_AUDIO_SIZE
  then inl (new_AudioSizeException "Audio data too small" n)
  else if AudioConstants.MAX_AUDIO_SIZE <? n
  then inl (new_AudioSizeException "Audio data too large" n)
  else inr audio_data.

(** The [try] block of [_extract_audio_data]. *)
Definition extract_body (response_data : list Byte.byte)
  : exn + list Byte.byte :=
  sum_bind (json_loads response_data) (fun response_json =>
  sum_bind (inline_data response_json) (fun audio_b64 =>
  sum_bind (decode_audio audio_b64) validate_audio)).

(** [_extract_audio_data]: the [try] block under its three [except]
    clauses, tried in order. *)
Definition _extract_audio_data (response_data : list Byte.byte)
  : exn + list Byte.byte :=
  match extract_body response_data with
  | inr audio_data => inr audio_data
  | inl e =>
      if isinstance e [JSONDecodeError] then
        inl (new_APIException
               (String.append "Invalid JSON response: " (str_exn e)) None)
      else if isinstance e [KeyError] then
        inl (new_APIException
               (String.append "Missing response field: " (str_exn e)) None)
      else if isinstance e [Exception_] then
        inl (new_AudioException
               (String.append "Audio extraction failed: " (str_exn e)))
      else inl e
  end.

(** Sending the request: the call is recorded, the remote side answers. *)
Definition urlopen (call : api_call) : M urlopen_outcome :=
  fun s =>
    (Ok (st_api s (length (st_calls s)) call),
     with_calls (st_calls s ++ [call]) s).

Definition api_call_failed (e : exn) : exn :=
  new_APIException (String.append "API call failed: " (str_exn e)) None.

Definition _call_gemini_api (model_id prompt voice : string)
    (temperature : Q) (timeout : Z) (thinking_budget : Z)
  : M (list Byte.byte) :=
  s <- get_state ;;
  let call := {| c_model_id := model_id; c_prompt := prompt;
                 c_voice := voice; c_temperature := temperature;
                 c_thinking_budget :=
                   if 0 <? thinking_budget then Some thinking_budget else None;
                 c_timeout := timeout;
                 c_api_key := api_key (st_config s) |} in
  answer <- urlopen call ;;
  match answer with
  | Response status body =>
      (* inside the [try]: what is raised here reaches the last clause *)
      try_except
        (if negb (status =? 200) then
           raise (create_api_exception status
                    (String.append "HTTP " (PyStr.of_Z status)))
         else lift (_extract_audio_data body))
        [Exception_]
        (fun e => raise (api_call_failed e))
  | HTTPErr code reason => raise (handle_http_error code reason)
  | URLErr error_str => raise (handle_network_error error_str)
  | OtherErr e => raise (api_call_failed e)
  end.

Definition _save_and_return (request : AudioGenerationRequest)
    (audio_data : list Byte.byte) (mode : string) (duration : Q)
  : M AudioGenerationResult :=
  name <- (if cache_manager self && use_cache request then
             try_except
               (s <- get_state ;;
                let key := _generate_cache_key (st_config s) request in
                saved <- CacheManager.save_audio key audio_data ;;
                ret (Some saved))
               [Exception_]
               (fun e => ret None)
           else ret None) ;;
  ret {| success := true; filename := name; error_message := None;
         used_cache := false; res_processing_mode := Some mode;
         generation_time := duration |}.

(** [ModelConstants.get_model_definitions()[model]["model_id"]] *)
Definition lookup_model_id (m : string) : M string :=
  match ModelConstants.model_id m with
  | Some id => ret id
  | None => raise (builtin_exn KeyError (PyStr.concat ["'"; m; "'"]))
  end.

(** The [try] block of [_generate_unified]. *)
Definition _generate_unified_body (request : AudioGenerationRequest)
  : M AudioGenerationResult :=
  s <- get_state ;;
  let config := st_config s in
  let prompt := _build_unified_prompt config (text request) in
  start_time <- time_time ;;
  model_id <- lookup_model_id (model config) ;;
  audio_data <- _call_gemini_api model_id prompt (voice config)
                  (temperature config) APIConstants.UNIFIED_TIMEOUT
                  (thinking_budget config) ;;
  end_time <- time_time ;;
  _save_and_return request audio_data "unified" (end_time - start_time)%Q.

(** The [try] block of [_generate_traditional]. *)
Definition _generate_traditional_body (request : AudioGenerationRequest)
  : M AudioGenerationResult :=
  s <- get_state ;;
  let config := st_config s in
  let processed_text :=
    if text_processor self && enable_style_control config
    then preprocess_text config (text request) else text request in
  start_time <- time_time ;;
  model_id <- lookup_model_id (model config) ;;
  audio_data <- _call_gemini_api model_id
                  (String.append "Please convert this text to speech: " processed_text)
                  (voice config) (temperature config)
                  APIConstants.TRADITIONAL_TIMEOUT 0 ;;
  end_time <- time_time ;;
  _save_and_return request audio_data "traditional" (end_time - start_time)%Q.

(** [getattr(error, 'user_message', str(error))] *)
Definition error_text (error : exn) : string :=
  match e_user_message error with
  | Some m => m
  | None => str_exn error
  end.

Definition error_result (error : exn) (request : AudioGenerationRequest)
  : AudioGenerationResult :=
  {| success := false; filename := None;
     error_message := Some (error_text error); used_cache := false;
     res_processing_mode := Some (processing_mode request);
     generation_time := 0 |}.

(** The condition under which [_handle_generation_error] tries the
    fallback model. *)
Definition fallback_wanted (config : TTSConfig) (error : exn) : bool :=
  enable_fallback config
  && negb (String.eqb (model config) ModelConstants.DEFAULT_FALLBACK_MODEL)
  && negb (isinstance error [InvalidAPIKeyException; RateLimitedException]).

(** [_generate_traditional], given the handler its [except] clause calls. *)
Definition _generate_traditional_with
    (handler : exn -> AudioGenerationRequest -> M AudioGenerationResult)
    (request : AudioGenerationRequest) : M AudioGenerationResult :=
  try_except (_generate_traditional_body request) [Exception_]
             (fun e => handler e request).

(** [_handle_generation_error] calls [_generate_traditional], which calls
    it back on failure; [fuel] bounds the depth of these calls. *)
Fixpoint _handle_generation_error (fuel : nat) (error : exn)
    (request : AudioGenerationRequest) : M AudioGenerationResult :=
  match fuel with
  | O => fun s => (OutOfFuel, s)
  | S fuel' =>
      s <- get_state ;;
      let config := st_config s in
      early <-
        (if fallback_wanted config error then
           (* TTSConfig.from_dict(self.config.to_dict()) copies every field *)
           let fallback_config :=
             set_model ModelConstants.DEFAULT_FALLBACK_MODEL config in
           let original_model := model config in
           modify (fun s =>
                     with_config
                       (set_model ModelConstants.DEFAULT_FALLBACK_MODEL
                                  (st_config s)) s) ;;;
           finally
             (try_except
                (fallback_request <-
                   lift (new_AudioGenerationRequest (text request)
                           fallback_config (Some "traditional")
                           (use_cache request)) ;;
                 result <- _generate_traditional_with
                             (_handle_generation_error fuel') fallback_request ;;
                 if success result then ret (Some result) else ret None)
                [Exception_]
                (fun fallback_error => ret None))
             (fun s => with_config (set_model original_model (st_config s)) s)
         else ret None) ;;
      match early with
      | Some result => ret result
      | None => ret (error_result error request)
      end
  end.

Definition _generate_traditional (fuel : nat) (request : AudioGenerationRequest)
  : M AudioGenerationResult :=
  _generate_traditional_with (_handle_generation_error fuel) request.

Definition _generate_unified (fuel : nat) (request : AudioGenerationRequest)
  : M AudioGenerationResult :=
  try_except (_generate_unified_body request) [Exception_]
             (fun e => _handle_generation_error fuel e request).

Definition generate_audio (fuel : nat) (request : AudioGenerationRequest)
  : M AudioGenerationResult :=
  cached <- (if use_cache request && cache_manager self then
               cached_result <- _try_cache_lookup request ;;
               ret (if success cached_result then Some cached_result else None)
             else ret None) ;;
  match cached with
  | Some cached_result => ret cached_result
  | None =>
      if String.eqb (processing_mode request) "unified"
      then _generate_unified fuel request
      else _generate_traditional fuel request
  end.

End Generator.

(** [config.thinking_budget = b] and [config.preprocessing_style = st] *)
Definition set_thinking_budget (b : Z) (c : TTSConfig) : TTSConfig :=
  {| api_key := api_key c; model := model c;
     cfg_processing_mode := cfg_processing_mode c; voice := voice c;
     temperature := temperature c; thinking_budget := b;
     enable_cache := enable_cache c; cache_days := cache_days c;
     enable_fallback := enable_fallback c;
     cache_preprocessing := cache_preprocessing c;
     preprocessing_style := preprocessing_style c;
     enable_style_control := enable_style_control c;
     auto_detect_content := auto_detect_content c;
     prefer_instructions := prefer_instructions c |}.

Definition set_preprocessing_style (st : string) (c : TTSConfig) : TTSConfig :=
  {| api_key := api_key c; model := model c;
     cfg_processing_mode := cfg_processing_mode c; voice := voice c;
     temperature := temperature c; thinking_budget := thinking_budget c;
     enable_cache := enable_cache c; cache_days := cache_days c;
     enable_fallback := enable_fallback c;
     cache_preprocessing := cache_preprocessing c;
     preprocessing_style := st;
     enable_style_control := enable_style_control c;
     auto_detect_content := auto_detect_content c;
     prefer_instructions := prefer_instructions c |}.

(** [min_budget <= budget <= max_budget] *)
Definition in_range (range : Z * Z) (budget : Z) : bool :=
  (range.1 <=? budget) && (budget <=? range.2).

(** [AudioGenerator.validate_model_config], on the generator's config *)
Definition validate_model_config (config : TTSConfig) : Result.t :=
  let model_defs := ModelConstants.get_model_definitions in
  match PyDict.get (model config) model_defs with
  | None =>
      Result.error_result (String.append "Invalid model: " (model config)) None
  | Some model_info =>
      match ModelConstants.mi_thinking_budget_range model_info with
      | Some (min_budget, max_budget) =>
          if negb (in_range (min_budget, max_budget) (thinking_budget config))
          then Result.error_result
                 (PyStr.concat ["Thinking budget ";
                                PyStr.of_Z (thinking_budget config);
                                " outside range [";
                                PyStr.of_Z min_budget; ", ";
                                PyStr.of_Z max_budget; "]"]) None
          else Result.success_result (JStr "Model configuration valid")
      | None => Result.success_result (JStr "Model configuration valid")
      end
  end.

Section ApiTest.

Variable json_loads : list Byte.byte -> exn + json.
Variable b64decode : string -> exn + list Byte.byte.

(** [round(x, ndigits)] on a float *)
Variable round_float : Q -> Z -> Q.

(** [AudioGenerator.test_api_connection] *)
Definition test_api_connection : M Result.t :=
  let test_text := "Testing API connection." in
  try_except
    (start_time <- time_time ;;
     s <- get_state ;;
     let config := st_config s in
     model_id <- lookup_model_id (model config) ;;
     audio_data <- _call_gemini_api json_loads b64decode model_id
                     (String.append "Please convert this text to speech: " test_text)
                     (voice config) 0 APIConstants.TRADITIONAL_TIMEOUT 0 ;;
     end_time <- time_time ;;
     let duration := (end_time - start_time)%Q in
     s' <- get_state ;;
     ret (Result.success_result
            (JObj [("response_time", JFloat (round_float duration 2));
                   ("audio_size", JInt (Z.of_nat (length audio_data)));
                   ("model", JStr (model (st_config s')));
                   ("voice", JStr (voice (st_config s')))])))
    [Exception_]
    (fun e => ret (Result.error_result (error_text e) (e_error_code e))).

End ApiTest.

(** ** src/services/config_service.py *)

Module ConfigurationService.

(** [validate_config]: the checks in their order, each adding its field
    error to the result. *)
Definition validate_config (config : TTSConfig) : ValidationResult.t :=
  let result := ValidationResult.success_result in
  let result :=
    if PyStr.strip_is_empty (api_key config)
    then ValidationResult.add_field_error "api_key" "API key required" result
    else if PyStr.len (api_key config) <? APIConstants.MIN_API_KEY_LENGTH
    then ValidationResult.add_field_error "api_key" "API key too short" result
    else result in
  let models := ModelConstants.get_model_definitions in
  let result :=
    match PyDict.get (model config) models with
    | None =>
        ValidationResult.add_field_error "model"
          (String.append "Invalid model: " (model config)) result
    | Some model_info =>
        match ModelConstants.mi_thinking_budget_range model_info with
        | Some (min_budget, max_budget) =>
            if negb (in_range (min_budget, max_budget) (thinking_budget config))
            then ValidationResult.add_field_error "thinking_budget"
                   (PyStr.concat ["Budget must be "; PyStr.of_Z min_budget;
                                  "-"; PyStr.of_Z max_budget]) result
            else result
        | None => result
        end
    end in
  let result :=
    if negb (existsb (String.eqb (voice config)) VoiceConstants.get_all_voices)
    then ValidationResult.add_field_error "voice"
           (String.append "Invalid voice: " (voice config)) result
    else result in
  let result :=
    if negb (Qleb 0 (temperature config) && Qleb (temperature config) 2)
    then ValidationResult.add_field_error "temperature"
           "Temperature must be 0.0-2.0" result
    else result in
  let result :=
    if negb ((1 <=? cache_days config) && (cache_days config <=? 365))
    then ValidationResult.add_field_error "cache_days"
           "Cache days must be 1-365" result
    else result in
  result.

End ConfigurationService.

(** ** The vocabulary of the properties *)

(** A computation keeps a relation between the state before and after,
    and does not depend on a recursion bound. *)
Definition keeps (R : State -> State -> Prop) {A} (m : M A) : Prop :=
  forall s, (m s).1 <> OutOfFuel /\ R s (m s).2.

(** The relation the cache operations keep: they send nothing to the
    remote side and leave the configuration alone. *)
Definition same_net (s s' : State) : Prop :=
  st_calls s' = st_calls s /\ st_config s' = st_config s /\ st_api s' = st_api s.

(** The index file is there but [_load_metadata] cannot use it: it cannot
    be opened, it holds no JSON document, or the document has not the
    shape the loader walks through. *)
Definition index_unloadable (s : State) : Prop :=
  exists n,
    st_dir s !! CacheManager.metadata_file = Some n /\
    (n_readable n = false
     \/ (exists data, n_content n = Blob data)
     \/ n_content n = IndexText DocOther
     \/ (exists v, n_content n = IndexText (DocDict v (Some FilesOther)))
     \/ (exists v entries name,
            n_content n = IndexText (DocDict v (Some (FilesDict entries)))
            /\ In (name, None) entries)).

(** The document the index file holds, when it holds one. *)
Definition index_on_disk (s : State) : option index_doc :=
  match st_dir s !! CacheManager.metadata_file with
  | Some n =>
      match n_content n with
      | IndexText doc => Some doc
      | Blob _ => None
      end
  | None => None
  end.

(** [_save_metadata] can write its temporary file and move it over the
    index file. *)
Definition index_writable (s : State) : Prop :=
  st_writable s = true
  /\ node_locked s (String.append CacheManager.metadata_file ".tmp") = false
  /\ node_locked s CacheManager.metadata_file = false.

(** The relation an operation keeps when it leaves one name of the cache
    directory as it is. *)
Definition keeps_file (name : string) (s s' : State) : Prop :=
  st_dir s' !! name = st_dir s !! name.

(** The file of an entry is out of the way: it is absent, or [os.remove]
    succeeds on it. *)
Definition removable (s : State) (name : string) : bool :=
  match st_dir s !! name with
  | None => true
  | Some n => st_writable s && negb (n_locked n)
  end.


(** The request [_handle_generation_error] builds for the fallback model,
    and the state in which it runs it. *)
Definition fallback_request (s : State) (request : AudioGenerationRequest)
  : AudioGenerationRequest :=
  {| text := text request;
     req_config := set_model ModelConstants.DEFAULT_FALLBACK_MODEL (st_config s);
     processing_mode := "traditional";
     use_cache := use_cache request |}.

Definition fallback_state (s : State) : State :=
  with_config (set_model ModelConstants.DEFAULT_FALLBACK_MODEL (st_config s)) s.

(** The request [_call_gemini_api] sends. *)
Definition the_call (s : State) (model_id prompt voice : string)
    (temperature : Q) (timeout thinking_budget : Z) : api_call :=
  {| c_model_id := model_id; c_prompt := prompt; c_voice := voice;
     c_temperature := temperature;
     c_thinking_budget :=
       if 0 <? thinking_budget then Some thinking_budget else None;
     c_timeout := timeout;
     c_api_key := api_key (st_config s) |}.

(** What both [try] blocks do once the model is known: one request is
    sent, to that model. *)
Definition sends_one (id : string) (s s' : State) : Prop :=
  exists call,
    st_calls s' = (st_calls s ++ [call])%list
    /\ c_model_id call = id
    /\ st_config s' = st_config s
    /\ st_api s' = st_api s.

(** The text passes the checks of [AudioGenerationRequest.__post_init__]. *)
Definition text_ok (t : string) : Prop :=
  PyStr.strip_is_empty t = false /\ PyStr.len t <= 5000.

(** The remote side answers the next request with a 200 response from
    which [_extract_audio_data] gets audio. *)
Definition api_delivers (json_loads : list Byte.byte -> exn + json)
    (b64decode : string -> exn + list Byte.byte)
    (s : State) (audio : list Byte.byte) : Prop :=
  exists body,
    (forall c, st_api s (length (st_calls s)) c = Response 200 body)
    /\ _extract_audio_data json_loads b64decode body = inr audio.

(** The requests sent between two states. *)
Definition sent (s s' : State) (new : list api_call) : Prop :=
  st_calls s' = (st_calls s ++ new)%list.

(** The cache is as it was: the directory, the loaded index and the
    permission to write. *)
Definition same_cache (s s' : State) : Prop :=
  st_dir s' = st_dir s /\ st_metadata s' = st_metadata s
  /\ st_writable s' = st_writable s.

(** The temporary file [_save_metadata] writes before it moves it over the
    index file. *)
Definition index_tmp : string := String.append CacheManager.metadata_file ".tmp".

(** The index file [_save_metadata] leaves for the index [m], and the
    directory with it. *)
Definition index_node (s : State) (m : CacheMetadata) : node :=
  {| n_content := IndexText (CacheManager.doc_of_metadata m);
     n_ctime := st_clock s (st_ticks s);
     n_readable := true; n_locked := false |}.

Definition saved_dir (s : State) (m : CacheMetadata) : gmap string node :=
  <[CacheManager.metadata_file := index_node s m]>
    (delete index_tmp (<[index_tmp := index_node s m]> (st_dir s))).

(** An entry after [update_access] at time [now]: only [accessed] moves. *)
Definition touched (now : Q) (info : CacheFileInfo) : CacheFileInfo :=
  {| created := created info; accessed := now; version := version info;
     cache_key := cache_key info; file_size := file_size info |}.

(** The directory lets [save_audio] store a file under [name]: the
    temporary file and the file can be written, and so can the index. *)
Definition can_store (s : State) (name : string) : Prop :=
  index_writable s
  /\ node_locked s (CacheManager.temp_filename name) = false
  /\ node_locked s name = false.

(** The name [save_audio] chooses in state [s], from the key and the clock. *)
Definition save_name (key : string) (s : State) : string :=
  CacheManager.audio_filename key (int_of_float (st_clock s (st_ticks s))).

(** The file [save_audio] stores. *)
Definition audio_node (s : State) (data : list Byte.byte) : node :=
  {| n_content := Blob data; n_ctime := st_clock s (S (st_ticks s));
     n_readable := true; n_locked := false |}.

(** No character of the string is one of [FORBIDDEN_CHARS]. *)
Definition allowed (s : string) : bool :=
  forallb (fun c => negb (PyStr.has_char c FileConstants.FORBIDDEN_CHARS))
          (PyStr.chars s).











(** The exception [_call_gemini_api] raises when [urlopen] raises. *)
Definition refusal (answer : urlopen_outcome) : option exn :=
  match answer with
  | HTTPErr code reason => Some (handle_http_error code reason)
  | URLErr error_str => Some (handle_network_error error_str)
  | OtherErr e => Some (api_call_failed e)
  | Response _ _ => None
  end.

(** The request goes by the cache: it asks for no cache, or the generator
    has no cache manager. *)
Definition uncached (self : AudioGenerator) (request : AudioGenerationRequest)
  : Prop :=
  use_cache request = false \/ cache_manager self = false.

(** The prompt of a traditional request. *)
Definition traditional_prompt (re_pipeline : string -> string -> string)
    (self : AudioGenerator) (config : TTSConfig)
    (request : AudioGenerationRequest) : string :=
  String.append "Please convert this text to speech: "
    (if text_processor self && enable_style_control config
     then preprocess_text re_pipeline config (text request) else text request).

(** What a [try] block of either mode does: it sends one request to the
    configured model, or none when the model is unknown, and leaves the
    configuration alone. *)
Definition attempt (self : AudioGenerator)
    (body : AudioGenerationRequest -> M AudioGenerationResult)
    (request : AudioGenerationRequest) (s : State) : Prop :=
  exists r s' new,
    body request s = (r, s')
    /\ r <> OutOfFuel
    /\ sent s s' new
    /\ match ModelConstants.model_id (model (st_config s)) with
       | Some id => exists call, new = [call] /\ c_model_id call = id
       | None => new = [] /\ exists e, r = Raise e /\ e_class e = KeyError
       end
    /\ st_config s' = st_config s /\ st_api s' = st_api s
    /\ (forall res, r = Ok res -> success res = true /\ used_cache res = false)
    /\ (uncached self request -> same_cache s s').

(** The request [test_api_connection] sends. *)
Definition test_call (config : TTSConfig) (id : string) : api_call :=
  {| c_model_id := id;
     c_prompt := "Please convert this text to speech: Testing API connection.";
     c_voice := voice config;
     c_temperature := 0;
     c_thinking_budget := None;
     c_timeout := APIConstants.TRADITIONAL_TIMEOUT;
     c_api_key := api_key config |}.

(** ** Concrete instances *)

(** [TTSConfig()] with an API key. *)
Definition demo_config : TTSConfig :=
  {| api_key := "demo-key"; model := "flash_unified";
     cfg_processing_mode := "unified"; voice := "Zephyr"; temperature := 0;
     thinking_budget := 0; enable_cache := true; cache_days := 30;
     enable_fallback := true; cache_preprocessing := true;
     preprocessing_style := "natural"; enable_style_control := true;
     auto_detect_content := true; prefer_instructions := true |}.

Definition demo_request (mode : string) : AudioGenerationRequest :=
  {| text := "Hello world"; req_config := demo_config;
     processing_mode := mode; use_cache := true |}.

Definition demo_generator : AudioGenerator :=
  {| cache_manager := true; text_processor := true |}.

(** [repr] of the temperature [0.0] of [demo_config]. *)
Definition demo_repr (q : Q) : string := "0.0".

(** A response body is read as the envelope the API returns, and its
    payload decodes to [n] zero bytes. *)
Definition demo_envelope : json :=
  JObj [("candidates",
         JArr [JObj [("content",
                      JObj [("parts",
                             JArr [JObj [("inlineData",
                                          JObj [("data", JStr "AAAA")])]])])]])].

Definition demo_loads (body : list Byte.byte) : exn + json := inr demo_envelope.

Definition demo_decode (n : nat) (s : string) : exn + list Byte.byte :=
  inr (repeat Byte.x00 n).

Definition demo_pipeline (style text : string) : string := text.

Definition demo_state (md : option CacheMetadata) (dir : gmap string node)
    (writable : bool) (now : Q) (api : nat -> api_call -> urlopen_outcome)
  : State :=
  {| st_config := demo_config; st_metadata := md; st_dir := dir;
     st_writable := writable; st_clock := fun _ => now; st_ticks := 0;
     st_api := api; st_calls := [] |}.

Definition demo_file (locked : bool) : node :=
  {| n_content := Blob []; n_ctime := 0; n_readable := true; n_locked := locked |}.

Definition demo_entry (key : string) (created_at : Q) : CacheFileInfo :=
  {| created := created_at; accessed := created_at; version := "2.0";
     cache_key := key; file_size := 2000 |}.

Definition demo_index (entries : list (string * CacheFileInfo)) : CacheMetadata :=
  {| md_version := "2.0"; files := entries |}.

Definition api_down (n : nat) (c : api_call) : urlopen_outcome :=
  URLErr "<urlopen error timed out>".

Definition api_up (n : nat) (c : api_call) : urlopen_outcome := Response 200 [].

(** The key of [demo_request "unified"] under [demo_config]. *)
Definition demo_key : string := "5fea075d67587777ae18e57dded0013a".

(** A configuration [validate_config] accepts. *)
Definition demo_valid_config : TTSConfig :=
  {| api_key := "0123456789abcdefghijklmn"; model := "pro_tts";
     cfg_processing_mode := "traditional"; voice := "Puck"; temperature := 1;
     thinking_budget := 512; enable_cache := true; cache_days := 30;
     enable_fallback := true; cache_preprocessing := true;
     preprocessing_style := "natural"; enable_style_control := true;
     auto_detect_content := true; prefer_instructions := true |}.

(** A request that asks for no cache. *)
Definition demo_request_no_cache : AudioGenerationRequest :=
  {| text := "Hello world"; req_config := demo_config;
     processing_mode := "traditional"; use_cache := false |}.

Definition api_unauthorized (n : nat) (c : api_call) : urlopen_outcome :=
  HTTPErr 401 "Unauthorized".

(** * Properties *)

(** ** The hash function on the test vectors of RFC 1321 *)

Example md5_empty : MD5.hexdigest "" = "d41d8cd98f00b204e9800998ecf8427e".
Proof. vm_compute. reflexivity. Qed.

Example md5_abc : MD5.hexdigest "abc" = "900150983cd24fb0d6963f7d28e17f72".
Proof. vm_compute. reflexivity. Qed.

Example md5_two_blocks :
  MD5.hexdigest "aaaaaaaaaaaaaaaaaaaaaaaaaaaaaaaaaaaaaaaaaaaaaaaaaaaaaaaaaaaaaaaaaaaaaa"
  = "0f5c6c4e740bfcc08c3c26ccb2673d46".
Proof. vm_compute. reflexivity. Qed.

(** ** Cache keys *)

Section CacheKey.

Variable float_repr : Q -> string.

Lemma key_data_agree c1 r1 c2 r2 :
  text r1 = text r2 ->
  model c1 = model c2 ->
  voice c1 = voice c2 ->
  temperature c1 = temperature c2 ->
  processing_mode r1 = processing_mode r2 ->
  enable_style_control c1 = enable_style_control c2 ->
  (enable_style_control c1 = true ->
   preprocessing_style c1 = preprocessing_style c2) ->
  (processing_mode r1 = "unified" ->
   thinking_budget c1 = thinking_budget c2) ->
  key_data c1 r1 = key_data c2 r2.
Proof.
  intros Ht Hm Hv Htemp Hmode Hen Hst Hb. unfold key_data.
  rewrite <- Ht, <- Hm, <- Hv, <- Htemp, <- Hmode, <- Hen.
  destruct (enable_style_control c1) eqn:En.
  - rewrite <- (Hst eq_refl).
    destruct (String.eqb (processing_mode r1) "unified") eqn:Eu; [|reflexivity].
    apply String.eqb_eq in Eu. rewrite (Hb Eu). reflexivity.
  - destruct (String.eqb (processing_mode r1) "unified") eqn:Eu; [|reflexivity].
    apply String.eqb_eq in Eu. rewrite (Hb Eu). reflexivity.
Qed.

(** C1. Two requests that agree on text, model, voice, temperature,
    processing mode, on the style when style control is enabled and on
    the thinking budget when the mode is unified get the same cache
    key.  In particular the configured thinking budget does not matter
    outside unified mode, and the preprocessing style does not matter
    while style control is disabled. *)
Theorem cache_key_deterministic :
  (forall c1 r1 c2 r2,
      text r1 = text r2 ->
      model c1 = model c2 ->
      voice c1 = voice c2 ->
      temperature c1 = temperature c2 ->
      processing_mode r1 = processing_mode r2 ->
      enable_style_control c1 = enable_style_control c2 ->
      (enable_style_control c1 = true ->
       preprocessing_style c1 = preprocessing_style c2) ->
      (processing_mode r1 = "unified" ->
       thinking_budget c1 = thinking_budget c2) ->
      _generate_cache_key float_repr c1 r1 = _generate_cache_key float_repr c2 r2)
  /\ (forall c r b,
         processing_mode r <> "unified" ->
         _generate_cache_key float_repr (set_thinking_budget b c) r
         = _generate_cache_key float_repr c r)
  /\ (forall c r st,
         enable_style_control c = false ->
         _generate_cache_key float_repr (set_preprocessing_style st c) r
         = _generate_cache_key float_repr c r).
Proof.
  split; [|split].
  - intros. unfold _generate_cache_key. f_equal. f_equal.
    by apply key_data_agree.
  - intros c r b Hmode. unfold _generate_cache_key. f_equal. f_equal.
    apply key_data_agree; try reflexivity. intros Hu. by destruct Hmode.
  - intros c r st Hen. unfold _generate_cache_key. f_equal. f_equal.
    apply key_data_agree; try reflexivity. simpl. intros Ht. congruence.
Qed.

End CacheKey.

(** The key of the request [Hello world] under the default configuration,
    as [hashlib] computes it. *)
Example cache_key_hello_world :
  _generate_cache_key demo_repr demo_config (demo_request "unified")
  = "5fea075d67587777ae18e57dded0013a".
Proof. vm_compute. reflexivity. Qed.

(** ** Reasoning about computations *)

Lemma issubclass_Exception c : issubclass c Exception_ = true.
Proof. by destruct c. Qed.

Lemma isinstance_Exception e : isinstance e [Exception_] = true.
Proof. unfold isinstance. simpl. by rewrite issubclass_Exception. Qed.

Lemma try_except_Exception {A} (m : M A) h s :
  try_except m [Exception_] h s
  = match m s with
    | (Raise e, s') => h e s'
    | r => r
    end.
Proof.
  unfold try_except. destruct (m s) as [[a|e|] s']; try done.
  by rewrite isinstance_Exception.
Qed.

Lemma bind_Ok {A B} (m : M A) (k : A -> M B) s a s' :
  m s = (Ok a, s') -> bind m k s = k a s'.
Proof. unfold bind. by intros ->. Qed.

Lemma bind_Raise {A B} (m : M A) (k : A -> M B) s e s' :
  m s = (Raise e, s') -> bind m k s = (Raise e, s').
Proof. unfold bind. by intros ->. Qed.

Lemma with_ticks_id s : with_ticks (st_ticks s) s = s.
Proof. by destruct s. Qed.

Lemma with_metadata_id s m : st_metadata s = Some m -> with_metadata (Some m) s = s.
Proof. destruct s; simpl. by intros ->. Qed.

Lemma set_model_restore c m : set_model (model c) (set_model m c) = c.
Proof. by destruct c. Qed.

Section Keeps.

Variable R : State -> State -> Prop.
Hypothesis R_refl : forall s, R s s.
Hypothesis R_trans : forall a b c, R a b -> R b c -> R a c.

Lemma keeps_ret {A} (a : A) : keeps R (ret a).
Proof. intros s. simpl. split; [done | apply R_refl]. Qed.

Lemma keeps_raise {A} e : keeps R (@raise A e).
Proof. intros s. simpl. split; [done | apply R_refl]. Qed.

Lemma keeps_get_state : keeps R get_state.
Proof. intros s. simpl. split; [done | apply R_refl]. Qed.

Lemma keeps_lift {A} (r : exn + A) : keeps R (lift r).
Proof. destruct r; [apply keeps_raise | apply keeps_ret]. Qed.

Lemma keeps_bind {A B} (m : M A) (k : A -> M B) :
  keeps R m -> (forall a, keeps R (k a)) -> keeps R (bind m k).
Proof.
  intros Hm Hk s. unfold bind. destruct (Hm s) as [Hf Hr].
  destruct (m s) as [[a|e|] s']; simpl in *; try done.
  destruct (Hk a s') as [Hf' Hr']. split; [done | by eapply R_trans].
Qed.

Lemma keeps_try_except {A} (m : M A) cs h :
  keeps R m -> (forall e, keeps R (h e)) -> keeps R (try_except m cs h).
Proof.
  intros Hm Hh s. unfold try_except. destruct (Hm s) as [Hf Hr].
  destruct (m s) as [[a|e|] s']; simpl in *; try done.
  destruct (isinstance e cs); [|done].
  destruct (Hh e s') as [Hf' Hr']. split; [done | by eapply R_trans].
Qed.

Lemma keeps_finally {A} (m : M A) f :
  keeps R m -> (forall s, R s (f s)) -> keeps R (finally m f).
Proof.
  intros Hm Hf s. unfold finally. destruct (Hm s) as [Hn Hr].
  destruct (m s) as [r s']; simpl in *. split; [done | by eapply R_trans].
Qed.

Lemma keeps_modify f : (forall s, R s (f s)) -> keeps R (modify f).
Proof. intros Hf s. simpl. split; [done | apply Hf]. Qed.

End Keeps.

Lemma same_net_refl s : same_net s s.
Proof. by repeat split. Qed.

Lemma same_net_trans a b c : same_net a b -> same_net b c -> same_net a c.
Proof. unfold same_net. intros (?&?&?) (?&?&?). repeat split; congruence. Qed.

Abbreviation quiet := (keeps same_net).

Create HintDb quiet.

Ltac quiet_step :=
  first
    [ apply (keeps_ret _ same_net_refl)
    | apply (keeps_raise _ same_net_refl)
    | apply (keeps_get_state _ same_net_refl)
    | apply (keeps_lift _ same_net_refl)
    | apply (keeps_bind _ same_net_trans); [|intros ?]
    | apply (keeps_try_except _ same_net_trans); [|intros ?]
    | apply (keeps_modify same_net); intros ?; by repeat split ].

Lemma quiet_time_time : quiet time_time.
Proof. intros s. by repeat split. Qed.

Lemma quiet_path_exists name : quiet (path_exists name).
Proof. intros s. by repeat split. Qed.

Lemma quiet_write_file name c : quiet (write_file name c).
Proof. intros s. unfold write_file. by destruct (_ && _). Qed.

Lemma quiet_os_replace src dst : quiet (os_replace src dst).
Proof.
  intros s. unfold os_replace. destruct (st_dir s !! src); [|done].
  by destruct (_ && _).
Qed.

Lemma quiet_os_remove name : quiet (os_remove name).
Proof.
  intros s. unfold os_remove. destruct (st_dir s !! name); [|done].
  by destruct (_ && _).
Qed.

Lemma quiet_getctime name : quiet (getctime name).
Proof. intros s. unfold getctime. by destruct (st_dir s !! name). Qed.

Lemma quiet_listdir : quiet listdir.
Proof. intros s. by repeat split. Qed.

Lemma quiet_json_load_file name : quiet (json_load_file name).
Proof.
  intros s. unfold json_load_file. destruct (st_dir s !! name) as [n|]; [|done].
  destruct (n_readable n); [|done]. by destruct (n_content n).
Qed.

#[local] Hint Resolve quiet_time_time quiet_path_exists quiet_write_file
  quiet_os_replace quiet_os_remove quiet_getctime quiet_listdir
  quiet_json_load_file : quiet.

Ltac quiet_auto :=
  repeat first
    [ solve [eauto with quiet]
    | quiet_step
    | match goal with
      | |- keeps _ (match ?x with _ => _ end) => destruct x
      | |- keeps _ (if ?x then _ else _) => destruct x
      | |- keeps _ (let '(_, _) := ?x in _) => destruct x
      end
    | progress cbv zeta ].

(** ** The cache manager sends nothing and always returns *)

Section CacheQuiet.
Import CacheManager.

Lemma quiet_load_entries entries : forall md, quiet (load_entries entries md).
Proof.
  induction entries as [|[name [fd|]] rest IH]; intros md; simpl; quiet_auto.
Qed.

#[local] Hint Resolve quiet_load_entries : quiet.

Lemma quiet__load_metadata : quiet _load_metadata.
Proof. unfold _load_metadata, _load_metadata_body. quiet_auto. Qed.

#[local] Hint Resolve quiet__load_metadata : quiet.

Lemma quiet_get_metadata : quiet get_metadata.
Proof. unfold get_metadata. quiet_auto. Qed.

Lemma quiet_put_metadata m : quiet (put_metadata m).
Proof. unfold put_metadata. quiet_auto. Qed.

#[local] Hint Resolve quiet_get_metadata quiet_put_metadata : quiet.

Lemma quiet__save_metadata : quiet _save_metadata.
Proof. unfold _save_metadata. quiet_auto. Qed.

Lemma quiet_do_update_access name : quiet (do_update_access name).
Proof. unfold do_update_access. quiet_auto. Qed.

Lemma quiet_do_del name : quiet (do_del name).
Proof. unfold do_del. quiet_auto. Qed.

#[local] Hint Resolve quiet__save_metadata quiet_do_update_access
  quiet_do_del : quiet.

Lemma quiet_lookup_loop key items : forall used, quiet (lookup_loop key items used).
Proof.
  induction items as [|[name info] rest IH]; intros used; simpl; quiet_auto.
Qed.

#[local] Hint Resolve quiet_lookup_loop : quiet.

Lemma quiet_get_cached_file key : quiet (get_cached_file key).
Proof. unfold get_cached_file, get_cached_file_body. quiet_auto. Qed.

Lemma quiet__validate_filename name : quiet (_validate_filename name).
Proof. unfold _validate_filename. quiet_auto. Qed.

#[local] Hint Resolve quiet__validate_filename : quiet.

Lemma quiet_save_audio key data : quiet (save_audio key data).
Proof. unfold save_audio. quiet_auto. Qed.

End CacheQuiet.

(** ** Loading the index *)

Section LoadIndex.
Import CacheManager.

Lemma get_metadata_loaded s m :
  st_metadata s = Some m -> get_metadata s = (Ok m, s).
Proof. intros H. unfold get_metadata, bind, get_state. by rewrite H. Qed.

Lemma load_entries_ticks entries :
  forall md s, exists r n, load_entries entries md s = (r, with_ticks n s).
Proof.
  induction entries as [|[name [fd|]] rest IH]; intros md s; simpl.
  - exists (Ok md), (st_ticks s). by rewrite with_ticks_id.
  - unfold bind at 1 2. simpl.
    edestruct IH as (r & n & ->). by exists r, n.
  - exists (Raise (no_attribute "get")), (st_ticks s). by rewrite with_ticks_id.
Qed.

Lemma _load_metadata_body_ticks s :
  exists r n, _load_metadata_body s = (r, with_ticks n s).
Proof.
  unfold _load_metadata_body, bind, path_exists, json_load_file.
  case_bool_decide as Hex.
  - destruct Hex as [n Hn]. rewrite Hn.
    destruct (n_readable n);
      [|eexists _, (st_ticks s); by rewrite with_ticks_id].
    destruct (n_content n) as [data|[v [[entries|]|]|]];
      try (eexists _, (st_ticks s); by rewrite with_ticks_id).
    apply load_entries_ticks.
  - eexists _, (st_ticks s). by rewrite with_ticks_id.
Qed.

Lemma _load_metadata_total s :
  exists m n, _load_metadata s = (Ok m, with_ticks n s).
Proof.
  unfold _load_metadata. rewrite try_except_Exception.
  destruct (_load_metadata_body_ticks s) as (r & n & Hr).
  destruct (quiet__load_metadata s) as [Hfuel _].
  unfold _load_metadata in Hfuel. rewrite try_except_Exception, Hr in Hfuel.
  rewrite Hr. destruct r as [m|e|]; simpl in *; try done; by eexists _, n.
Qed.

Lemma _load_metadata_fresh s e s' :
  _load_metadata_body s = (Raise e, s') ->
  _load_metadata s = (Ok new_CacheMetadata, s').
Proof.
  intros H. unfold _load_metadata. by rewrite try_except_Exception, H.
Qed.

Lemma get_metadata_spec s :
  exists m n,
    get_metadata s = (Ok m, with_metadata (Some m) (with_ticks n s)).
Proof.
  destruct (st_metadata s) as [m|] eqn:E.
  - exists m, (st_ticks s). rewrite with_ticks_id, with_metadata_id by done.
    by apply get_metadata_loaded.
  - destruct (_load_metadata_total s) as (m & n & Hm).
    exists m, n. unfold get_metadata, bind at 1, get_state. rewrite E.
    unfold bind. by rewrite Hm.
Qed.

Lemma load_entries_bad_entry name pre :
  forall post md s,
  exists e s', load_entries (pre ++ (name, None) :: post) md s = (Raise e, s').
Proof.
  induction pre as [|[k [fd|]] pre IH]; intros post md s; simpl.
  - by eexists _, _.
  - unfold bind at 1 2. simpl. apply IH.
  - by eexists _, _.
Qed.

Lemma lookup_loop_empty key s :
  st_metadata s = Some new_CacheMetadata ->
  lookup_loop key [] 0 s = (Ok None, s).
Proof.
  intros H. simpl. by rewrite (bind_Ok _ _ _ _ _ (get_metadata_loaded _ _ H)).
Qed.

Lemma get_cached_file_empty key s :
  st_metadata s = Some new_CacheMetadata ->
  get_cached_file key s = (Ok None, s).
Proof.
  intros H. unfold get_cached_file, get_cached_file_body.
  rewrite try_except_Exception.
  rewrite (bind_Ok _ _ _ _ _ (get_metadata_loaded _ _ H)). simpl files.
  by rewrite lookup_loop_empty.
Qed.

End LoadIndex.

Lemma unloadable_body_raises s :
  index_unloadable s ->
  exists e s', CacheManager._load_metadata_body s = (Raise e, s').
Proof.
  intros (n & Hn & Hbad).
  unfold CacheManager._load_metadata_body, bind, path_exists, json_load_file.
  rewrite bool_decide_eq_true_2 by (rewrite Hn; eauto). rewrite Hn.
  destruct Hbad as [Hr|[[data Hc]|[Hc|[[v Hc]|(v & entries & name & Hc & Hin)]]]].
  - rewrite Hr. by eexists _, _.
  - destruct (n_readable n); [|by eexists _, _]. rewrite Hc. by eexists _, _.
  - destruct (n_readable n); [|by eexists _, _]. rewrite Hc. by eexists _, _.
  - destruct (n_readable n); [|by eexists _, _]. rewrite Hc. by eexists _, _.
  - destruct (n_readable n); [|by eexists _, _]. rewrite Hc.
    apply in_split in Hin as (pre & post & ->).
    apply load_entries_bad_entry.
Qed.

(** C10. When the index file exists but cannot be read or parsed,
    [_load_metadata] returns a fresh empty [CacheMetadata] and raises
    nothing.  From then on the entries the file held are absent: every
    lookup is a miss that reports no error, on this and on later calls,
    and every audio file of the directory is an orphan. *)
Theorem load_metadata_unloadable_index s :
  index_unloadable s ->
  (exists s', CacheManager._load_metadata s = (Ok new_CacheMetadata, s'))
  /\ (st_metadata s = None ->
      (forall key, exists s',
            CacheManager.get_cached_file key s = (Ok None, s')
            /\ st_metadata s' = Some new_CacheMetadata
            /\ forall key', CacheManager.get_cached_file key' s' = (Ok None, s'))
      /\ (exists orphans s',
             CacheManager.orphaned_files s = (Ok orphans, s')
             /\ forall name,
                 is_Some (st_dir s !! name) ->
                 PyStr.endswith name CacheConstants.CACHE_AUDIO_EXT = true ->
                 PyStr.startswith name "." = false ->
                 In name orphans)).
Proof.
  intros Hbad. destruct (unloadable_body_raises s Hbad) as (e & s1 & Hraise).
  pose proof (_load_metadata_fresh _ _ _ Hraise) as Hload.
  split; [by exists s1|]. intros Hnone.
  assert (Hget : CacheManager.get_metadata s
                 = (Ok new_CacheMetadata, with_metadata (Some new_CacheMetadata) s1)).
  { unfold CacheManager.get_metadata, bind at 1, get_state. rewrite Hnone.
    unfold bind. by rewrite Hload. }
  split.
  - intros key. exists (with_metadata (Some new_CacheMetadata) s1).
    split; [|split; [done|]].
    + unfold CacheManager.get_cached_file, CacheManager.get_cached_file_body.
      rewrite try_except_Exception, (bind_Ok _ _ _ _ _ Hget). simpl files.
      by rewrite lookup_loop_empty.
    + intros key'. by apply get_cached_file_empty.
  - eexists _, _. split.
    + unfold CacheManager.orphaned_files.
      rewrite (bind_Ok _ _ _ _ _ Hget). unfold bind, listdir, ret. reflexivity.
    + intros name [n Hn] Hext Hdot. apply list_elem_of_In.
      apply list_elem_of_filter. split.
      * simpl. rewrite Hext, Hdot. done.
      * destruct (_load_metadata_body_ticks s) as (r & k & Hk).
        rewrite Hraise in Hk. injection Hk as _ ->. simpl.
        apply list_elem_of_fmap. exists (name, n). split; [done|].
        by apply elem_of_map_to_list.
Qed.

(** ** Looking up a key *)

Section Lookup.
Import CacheManager.

Lemma get_In {V} name (v : V) d :
  In (name, v) d -> PyDict.mem name d = true.
Proof.
  unfold PyDict.mem. induction d as [|[k w] d IH]; simpl; [done|].
  intros [H|H].
  - injection H as -> ->. by rewrite String.eqb_refl.
  - destruct (String.eqb name k); [done | by apply IH].
Qed.



Lemma _save_metadata_spec s m :
  st_metadata s = Some m ->
  exists r s',
    _save_metadata s = (r, s')
    /\ st_metadata s' = Some m
    /\ (r = Ok tt \/ exists e, r = Raise e)
    /\ (index_writable s ->
        r = Ok tt /\ index_on_disk s' = Some (doc_of_metadata m))
    /\ (st_writable s = false -> exists e, r = Raise e).
Proof.
  intros Hm. unfold _save_metadata. rewrite try_except_Exception.
  rewrite (bind_Ok _ _ _ _ _ (get_metadata_loaded _ _ Hm)).
  unfold bind, write_file.
  destruct (st_writable s) eqn:Hw; simpl.
  - destruct (node_locked s (String.append metadata_file ".tmp")) eqn:Ht; simpl.
    + eexists _, _. split; [reflexivity|]. split; [done|].
      split; [eauto|]. split; [|done].
      intros (_ & Ht' & _). congruence.
    + unfold os_replace. simpl. rewrite lookup_insert_eq. simpl. rewrite Hw. simpl.
      destruct (node_locked _ metadata_file) eqn:Hl; simpl.
      * eexists _, _. split; [reflexivity|]. split; [done|].
        split; [eauto|]. split; [|done].
        intros (_ & _ & Hl'). unfold node_locked in Hl, Hl'. simpl in Hl.
        rewrite lookup_insert_ne in Hl by done. congruence.
      * eexists _, _. split; [reflexivity|]. split; [done|].
        split; [eauto|]. split; [|done].
        intros _. split; [done|]. unfold index_on_disk. simpl.
        by rewrite lookup_insert_eq.
  - eexists _, _. split; [reflexivity|]. split; [done|].
    split; [eauto|]. split; [|eauto].
    intros (Hw' & _). congruence.
Qed.

Lemma lookup_loop_skip key pre :
  forall rest s m,
    st_metadata s = Some m ->
    Forall (fun kv : string * CacheFileInfo => cache_key kv.2 <> key) pre ->
    lookup_loop key (pre ++ rest) (PyDict.len (files m)) s
    = lookup_loop key rest (PyDict.len (files m)) s.
Proof.
  induction pre as [|[k info] pre IH]; intros rest s m Hm Hpre; [done|].
  apply Forall_cons in Hpre as [Hk Hpre]. simpl in Hk.
  rewrite <- app_comm_cons.
  cbn [lookup_loop].
  rewrite (bind_Ok _ _ _ _ _ (get_metadata_loaded _ _ Hm)).
  rewrite Nat.eqb_refl. cbn [negb].
  apply String.eqb_neq in Hk. rewrite Hk. by apply IH.
Qed.

End Lookup.

Section LookupSteps.
Import CacheManager.




Lemma lookup_loop_first key s m pre name info post :
  st_metadata s = Some m ->
  files m = (pre ++ (name, info) :: post)%list ->
  Forall (fun kv : string * CacheFileInfo => cache_key kv.2 <> key) pre ->
  lookup_loop key (files m) (PyDict.len (files m)) s
  = lookup_loop key ((name, info) :: post) (PyDict.len (files m)) s.
Proof.
  intros Hm Hfiles Hpre.
  pose proof (lookup_loop_skip key pre ((name, info) :: post) s m Hm Hpre) as H.
  by rewrite <- Hfiles in H.
Qed.

End LookupSteps.


(** C9. [get_cached_file] returns for every key and every state and never
    raises: an exception inside it makes it return [None].  So does, on a
    hit whose file is there, a failure to save the index after the access
    time was recorded. *)
Theorem get_cached_file_never_raises :
  (forall key s, exists found s',
        CacheManager.get_cached_file key s = (Ok found, s'))
  /\ (forall key s e s',
         CacheManager.get_cached_file_body key s = (Raise e, s') ->
         CacheManager.get_cached_file key s = (Ok None, s'))
  /\ (forall key s m pre name info post,
         st_metadata s = Some m ->
         files m = (pre ++ (name, info) :: post)%list ->
         Forall (fun kv : string * CacheFileInfo => cache_key kv.2 <> key) pre ->
         cache_key info = key ->
         is_Some (st_dir s !! name) ->
         st_writable s = false ->
         exists s', CacheManager.get_cached_file key s = (Ok None, s')).
Proof.
  split; [|split].
  - intros key s. destruct (quiet_get_cached_file key s) as [Hfuel _].
    unfold CacheManager.get_cached_file in *.
    rewrite try_except_Exception in *.
    destruct (CacheManager.get_cached_file_body key s) as [[found|e|] s'];
      simpl in *; try done; by eexists _, _.
  - intros key s e s' H. unfold CacheManager.get_cached_file.
    by rewrite try_except_Exception, H.
  - intros key s m pre name info post Hm Hfiles Hpre Hkey Hfile Hro.
    assert (Hin : In (name, info) (files m)).
    { rewrite Hfiles. apply in_or_app. right. by left. }
    unfold CacheManager.get_cached_file, CacheManager.get_cached_file_body.
    rewrite try_except_Exception.
    rewrite (bind_Ok _ _ _ _ _ (get_metadata_loaded _ _ Hm)).
    rewrite (lookup_loop_first key s m pre name info post Hm Hfiles Hpre).
    cbn [CacheManager.lookup_loop].
    rewrite (bind_Ok _ _ _ _ _ (get_metadata_loaded _ _ Hm)).
    rewrite Nat.eqb_refl. cbn [negb].
    apply String.eqb_eq in Hkey. rewrite Hkey.
    unfold bind at 1, path_exists. rewrite bool_decide_eq_true_2 by done.
    unfold CacheManager.do_update_access.
    unfold bind at 1.
    rewrite (bind_Ok _ _ _ _ _ (get_metadata_loaded _ _ Hm)).
    rewrite (get_In _ _ _ Hin).
    unfold bind at 1 2. unfold time_time, CacheManager.put_metadata, modify.
    match goal with
    | |- context [CacheManager._save_metadata ?s1] =>
        destruct (_save_metadata_spec s1 _ eq_refl)
          as (r & s2 & Hsave & _ & _ & _ & Hfail)
    end.
    destruct (Hfail Hro) as [e ->].
    rewrite Hsave. by eexists.
Qed.

(** ** What is saved is what is loaded *)

Section SaveLoad.
Import CacheManager.

Lemma set_fresh {V} k (v : V) d :
  PyDict.get k d = None -> PyDict.set k v d = (d ++ [(k, v)])%list.
Proof.
  induction d as [|[k' v'] d IH]; simpl; [done|].
  destruct (String.eqb k k'); [done|]. intros H. by rewrite IH.
Qed.

Lemma get_app_fresh {V} k k' (v : V) d :
  k <> k' -> PyDict.get k d = None -> PyDict.get k (d ++ [(k', v)])%list = None.
Proof.
  intros Hne. induction d as [|[k2 v2] d IH]; simpl.
  - apply String.eqb_neq in Hne. by rewrite Hne.
  - destruct (String.eqb k k2); [done|]. exact IH.
Qed.

Lemma load_saved_entries l :
  forall acc v s,
    NoDup l.*1 ->
    (forall k, k ∈ l.*1 -> PyDict.get k acc = None) ->
    load_entries (map saved_entry l) {| md_version := v; files := acc |} s
    = (Ok {| md_version := v; files := (acc ++ l)%list |},
       with_ticks (st_ticks s + 2 * length l) s).
Proof.
  induction l as [|[k info] l IH]; intros acc v s Hnd Hfresh.
  - simpl. by rewrite app_nil_r, Nat.add_0_r, with_ticks_id.
  - apply NoDup_cons in Hnd as [Hk Hnd]. cbn [map saved_entry load_entries].
    unfold bind at 1 2, time_time. cbn [fst snd default].
    unfold set_files. cbn [md_version files].
    rewrite set_fresh by (apply Hfresh; left).
    rewrite IH; [| done |].
    + f_equal.
      * destruct info. by rewrite <- app_assoc.
      * unfold with_ticks. cbn [st_config st_metadata st_dir st_writable
                                st_clock st_ticks st_api st_calls length].
        f_equal. lia.
    + intros k' Hk'. destruct info. apply get_app_fresh.
      * intros ->. done.
      * apply Hfresh. by right.
Qed.

(** An index file written by [_save_metadata] is loaded back as the
    index that was saved. *)
Lemma load_saved_index s m n :
  NoDup (files m).*1 ->
  st_dir s !! metadata_file = Some n ->
  n_readable n = true ->
  n_content n = IndexText (doc_of_metadata m) ->
  exists ticks, _load_metadata s = (Ok m, with_ticks ticks s).
Proof.
  intros Hnd Hn Hr Hc. unfold _load_metadata. rewrite try_except_Exception.
  unfold _load_metadata_body, bind, path_exists, json_load_file.
  rewrite bool_decide_eq_true_2 by (rewrite Hn; eauto).
  rewrite Hn, Hr, Hc. unfold doc_of_metadata. cbn [default].
  rewrite load_saved_entries by done. destruct m. by eexists.
Qed.

End SaveLoad.

(** ** Temporary files *)

Lemma keeps_file_refl name s : keeps_file name s s.
Proof. done. Qed.

Lemma keeps_file_trans name a b c :
  keeps_file name a b -> keeps_file name b c -> keeps_file name a c.
Proof. unfold keeps_file. congruence. Qed.

Section TempFiles.
Import CacheManager.

Variable name : string.
Hypothesis name_not_temp :
  PyStr.startswith name CacheConstants.TEMP_FILE_PREFIX = false.

Lemma keeps_file_getctime other : keeps (keeps_file name) (getctime other).
Proof. intros s. unfold getctime. by destruct (st_dir s !! other). Qed.

Lemma keeps_file_os_remove other :
  other <> name -> keeps (keeps_file name) (os_remove other).
Proof.
  intros Hne s. unfold os_remove. destruct (st_dir s !! other); [|done].
  destruct (_ && _); [|done]. split; [done|].
  unfold keeps_file. simpl. by rewrite lookup_delete_ne.
Qed.

Lemma keeps_file_remove_temp names :
  forall current_time cleanup_age removed_count,
    keeps (keeps_file name)
          (remove_temp names current_time cleanup_age removed_count).
Proof.
  induction names as [|other names IH]; intros ct age c; simpl.
  - apply (keeps_ret _ (keeps_file_refl name)).
  - apply (keeps_bind _ (keeps_file_trans name)); [|intros; apply IH].
    destruct (PyStr.startswith other CacheConstants.TEMP_FILE_PREFIX) eqn:Hpre;
      [|apply (keeps_ret _ (keeps_file_refl name))].
    assert (other <> name) by congruence.
    apply (keeps_try_except _ (keeps_file_trans name));
      [|intros; apply (keeps_ret _ (keeps_file_refl name))].
    apply (keeps_bind _ (keeps_file_trans name));
      [apply keeps_file_getctime|intros ctime].
    destruct (Qgtb _ _); [|apply (keeps_ret _ (keeps_file_refl name))].
    apply (keeps_bind _ (keeps_file_trans name));
      [by apply keeps_file_os_remove|intros].
    apply (keeps_ret _ (keeps_file_refl name)).
Qed.

Lemma keeps_file_cleanup_temp_files :
  keeps (keeps_file name) cleanup_temp_files.
Proof.
  unfold cleanup_temp_files.
  apply (keeps_try_except _ (keeps_file_trans name));
    [|intros; apply (keeps_ret _ (keeps_file_refl name))].
  apply (keeps_bind _ (keeps_file_trans name)); [by intros s|intros ct].
  apply (keeps_bind _ (keeps_file_trans name)); [by intros s|intros names].
  apply keeps_file_remove_temp.
Qed.

End TempFiles.

(** C5, as the code has it.  The temporary file [save_audio] writes is
    named with the prefix [.tmp_], not with [TEMP_FILE_PREFIX], and the
    temporary file of the index is not named with it either; whatever
    its age, [cleanup_temp_files] leaves such a file in the directory.
    So a temporary file left behind by a run of [save_audio] that stopped
    before [os.replace] is still there after any later
    [cleanup_temp_files]. *)
Theorem save_audio_temp_file_survives_cleanup :
  (forall key timestamp,
      let temp_file :=
        CacheManager.temp_filename (CacheManager.audio_filename key timestamp) in
      PyStr.startswith temp_file ".tmp_" = true
      /\ PyStr.startswith temp_file CacheConstants.TEMP_FILE_PREFIX = false
      /\ forall s, exists removed s',
          CacheManager.cleanup_temp_files s = (Ok removed, s')
          /\ st_dir s' !! temp_file = st_dir s !! temp_file)
  /\ PyStr.startswith (String.append CacheManager.metadata_file ".tmp")
                      CacheConstants.TEMP_FILE_PREFIX = false
  /\ (forall key audio_data s temp_file s1,
         CacheManager.save_audio_until_temp_written key audio_data s
         = (Ok temp_file, s1) ->
         is_Some (st_dir s1 !! temp_file)
         /\ forall later, exists removed s',
             CacheManager.cleanup_temp_files (with_ticks later s1) = (Ok removed, s')
             /\ is_Some (st_dir s' !! temp_file)).
Proof.
  assert (Hkeep : forall name s,
             PyStr.startswith name CacheConstants.TEMP_FILE_PREFIX = false ->
             exists removed s',
               CacheManager.cleanup_temp_files s = (Ok removed, s')
               /\ st_dir s' !! name = st_dir s !! name).
  { intros name s Hpre.
    destruct (keeps_file_cleanup_temp_files name Hpre s) as [Hfuel Hkeep].
    unfold CacheManager.cleanup_temp_files in *.
    rewrite try_except_Exception in *.
    destruct (bind time_time _ s) as [[removed|e|] s']; simpl in *; try done;
      by eexists _, _. }
  split; [|split; [reflexivity|]].
  - intros key timestamp temp_file.
    split; [reflexivity|]. split; [reflexivity|]. intros s. by apply Hkeep.
  - intros key audio_data s temp_file s1.
    unfold CacheManager.save_audio_until_temp_written.
    unfold bind at 1, time_time. unfold bind at 1.
    destruct (CacheManager._validate_filename _ _) as [[[]|e|] s2] eqn:Hval;
      try discriminate.
    assert (Hs2 : s2 = with_ticks (S (st_ticks s)) s).
    { revert Hval. unfold CacheManager._validate_filename.
      repeat match goal with
             | |- context [if ?b then _ else _] => destruct b
             | |- context [match ?o with Some _ => _ | None => _ end] => destruct o
             end; unfold raise, ret; congruence. }
    unfold bind at 1, write_file.
    destruct (st_writable s2 && negb (node_locked s2 _)); [|discriminate].
    unfold ret. intros [= <- <-].
    assert (Hthere : is_Some
              (st_dir
                 (with_dir
                    (<[CacheManager.temp_filename
                         (CacheManager.audio_filename key
                            (int_of_float (st_clock s (st_ticks s)))) :=
                         {| n_content := Blob audio_data;
                            n_ctime := st_clock s2 (st_ticks s2);
                            n_readable := true; n_locked := false |}]>
                       (st_dir s2)) s2)
               !! CacheManager.temp_filename
                    (CacheManager.audio_filename key
                       (int_of_float (st_clock s (st_ticks s)))))).
    { simpl. rewrite lookup_insert_eq. by eexists. }
    split; [exact Hthere|]. intros later.
    match goal with
    | |- context [CacheManager.cleanup_temp_files ?s3] =>
        destruct (Hkeep (CacheManager.temp_filename
                           (CacheManager.audio_filename key
                              (int_of_float (st_clock s (st_ticks s))))) s3 eq_refl)
          as (removed & s' & Hrun & Hsame)
    end.
    exists removed, s'. split; [exact Hrun|]. rewrite Hsame. exact Hthere.
Qed.

(** ** Expiry *)

Section Expiry.
Import CacheManager.







Lemma get_lookup {V} (d : list (string * V)) i name v :
  NoDup d.*1 -> d !! i = Some (name, v) -> PyDict.get name d = Some v.
Proof.
  revert i. induction d as [|[k w] d IH]; intros i Hnd Hi; [done|].
  apply NoDup_cons in Hnd as [Hk Hnd]. destruct i as [|i]; simpl in *.
  - injection Hi as -> ->. by rewrite String.eqb_refl.
  - assert (name <> k).
    { intros ->. apply Hk. apply list_elem_of_fmap. exists (k, v).
      split; [done|]. by eapply list_elem_of_lookup_2. }
    apply String.eqb_neq in H. rewrite H. by eapply IH.
Qed.



End Expiry.





(** ** The generator *)

Section GeneratorProps.

Variable float_repr : Q -> string.
Variable json_loads : list Byte.byte -> exn + json.
Variable b64decode : string -> exn + list Byte.byte.
Variable re_pipeline : string -> string -> string.
Variable self : AudioGenerator.

Local Abbreviation call_api := (_call_gemini_api json_loads b64decode).
Local Abbreviation extract := (_extract_audio_data json_loads b64decode).
Local Abbreviation save_and_return := (_save_and_return float_repr self).
Local Abbreviation traditional_body :=
  (_generate_traditional_body float_repr json_loads b64decode re_pipeline self).
Local Abbreviation unified_body :=
  (_generate_unified_body float_repr json_loads b64decode self).
Local Abbreviation delivers := (api_delivers json_loads b64decode).
Local Abbreviation handle_error :=
  (_handle_generation_error float_repr json_loads b64decode re_pipeline self).

Lemma call_api_sends_once model_id prompt voice temperature timeout budget s :
  exists r,
    call_api model_id prompt voice temperature timeout budget s
    = (r, with_calls
            (st_calls s ++ [the_call s model_id prompt voice temperature timeout budget])
            s)
    /\ r <> OutOfFuel.
Proof.
  unfold _call_gemini_api, bind, get_state, urlopen. fold (the_call s model_id prompt voice temperature timeout budget).
  destruct (st_api s _ _) as [status body|code reason|err|e];
    try (eexists; split; [reflexivity|done]).
  rewrite try_except_Exception.
  destruct (negb (status =? 200)); simpl;
    [eexists; split; [reflexivity|done]|].
  destruct (extract body); simpl; eexists; split; try reflexivity; done.
Qed.

Lemma call_api_success model_id prompt voice temperature timeout budget s body audio :
  (forall c, st_api s (length (st_calls s)) c = Response 200 body) ->
  extract body = inr audio ->
  call_api model_id prompt voice temperature timeout budget s
  = (Ok audio,
     with_calls
       (st_calls s ++ [the_call s model_id prompt voice temperature timeout budget])
       s).
Proof.
  intros Hapi Hex. unfold _call_gemini_api, bind, get_state, urlopen.
  rewrite Hapi, try_except_Exception. simpl. by rewrite Hex.
Qed.

Lemma quiet_try_cache_lookup request :
  quiet (_try_cache_lookup float_repr request).
Proof.
  unfold _try_cache_lookup. pose proof quiet_get_cached_file.
  quiet_auto.
Qed.

Lemma quiet_save_and_return request audio mode duration :
  quiet (save_and_return request audio mode duration).
Proof.
  unfold _save_and_return. pose proof quiet_save_audio. quiet_auto.
Qed.

Lemma quiet_run {A} (m : M A) s r s' :
  quiet m -> m s = (r, s') -> r <> OutOfFuel /\ same_net s s'.
Proof. intros Hq E. specialize (Hq s). by rewrite E in Hq. Qed.

(** A [try] whose handler returns a value returns a value. *)
Lemma try_except_returns {A} (m : M A) (a : A) s r s' :
  try_except m [Exception_] (fun _ => ret a) s = (r, s') ->
  r <> OutOfFuel -> exists v, r = Ok v.
Proof.
  rewrite try_except_Exception.
  destruct (m s) as [[v|e|] s1]; intros [= <- <-] Hfuel; try done; by eexists.
Qed.

Lemma save_and_return_succeeds request audio mode duration s :
  exists res s',
    save_and_return request audio mode duration s = (Ok res, s')
    /\ success res = true /\ used_cache res = false
    /\ same_net s s'.
Proof.
  unfold _save_and_return. unfold bind at 1.
  destruct (cache_manager self && use_cache request).
  - match goal with
    | |- context [try_except ?m ?cs ?h s] =>
        assert (Hq : quiet (try_except m cs h))
          by (pose proof quiet_save_audio; quiet_auto);
        destruct (try_except m cs h s) as [r s1] eqn:E
    end.
    destruct (quiet_run _ _ _ _ Hq E) as [Hfuel Hnet].
    destruct (try_except_returns _ _ _ _ _ E Hfuel) as [v ->].
    by eexists _, _.
  - eexists _, _. split; [reflexivity|]. repeat split; done.
Qed.

Lemma try_cache_lookup_returns request s :
  exists res s',
    _try_cache_lookup float_repr request s = (Ok res, s') /\ same_net s s'.
Proof.
  unfold _try_cache_lookup. unfold bind at 1.
  match goal with
  | |- context [try_except ?m ?cs ?h s] =>
      assert (Hq : quiet (try_except m cs h))
        by (pose proof quiet_get_cached_file; quiet_auto);
      destruct (try_except m cs h s) as [r s1] eqn:E
  end.
  destruct (quiet_run _ _ _ _ Hq E) as [Hfuel Hnet].
  destruct (try_except_returns _ _ _ _ _ E Hfuel) as [[hit|] ->];
    by eexists _, _.
Qed.

Lemma after_call model_id prompt voice temperature timeout budget s s1 s2 :
  same_net s s1 ->
  same_net
    (with_calls
       (st_calls s1 ++ [the_call s1 model_id prompt voice temperature timeout budget])
       s1) s2 ->
  sends_one model_id s s2.
Proof.
  intros (Hc1 & Hg1 & Ha1) (Hc2 & Hg2 & Ha2). simpl in *.
  eexists. rewrite Hc2, Hc1. split; [reflexivity|].
  split; [done|]. split; congruence.
Qed.

Lemma traditional_body_known_model request s id :
  ModelConstants.model_id (model (st_config s)) = Some id ->
  exists r s',
    traditional_body request s = (r, s')
    /\ r <> OutOfFuel
    /\ sends_one id s s'
    /\ (forall res, r = Ok res -> success res = true).
Proof.
  intros Hid. unfold _generate_traditional_body.
  unfold bind at 1, get_state. unfold bind at 1, time_time.
  unfold bind at 1, lookup_model_id. rewrite Hid. unfold ret at 1.
  match goal with
  | |- context [bind (call_api ?a ?b ?c ?d ?e ?f) ?k ?s1] =>
      destruct (call_api_sends_once a b c d e f s1) as (r & Hcall & Hfuel);
      set (s1' := s1) in *
  end.
  destruct r as [audio|e|]; [| |done].
  - rewrite (bind_Ok _ _ _ _ _ Hcall). unfold bind at 1, time_time.
    match goal with
    | |- context [save_and_return ?a ?b ?c ?d ?s2] =>
        destruct (save_and_return_succeeds a b c d s2)
          as (res & s3 & Hsave & Hok & _ & Hnet)
    end.
    rewrite Hsave. exists (Ok res), s3. split; [done|]. split; [done|].
    split; [|by intros ? [= <-]].
    eapply after_call; [|exact Hnet]. by repeat split.
  - rewrite (bind_Raise _ _ _ _ _ Hcall). eexists _, _.
    split; [reflexivity|]. split; [done|]. split; [|done].
    eapply (after_call _ _ _ _ _ _ s s1'); by repeat split.
Qed.

Lemma unified_body_known_model request s id :
  ModelConstants.model_id (model (st_config s)) = Some id ->
  exists r s',
    unified_body request s = (r, s')
    /\ r <> OutOfFuel
    /\ sends_one id s s'
    /\ (forall res, r = Ok res -> success res = true).
Proof.
  intros Hid. unfold _generate_unified_body.
  unfold bind at 1, get_state. unfold bind at 1, time_time.
  unfold bind at 1, lookup_model_id. rewrite Hid. unfold ret at 1.
  match goal with
  | |- context [bind (call_api ?a ?b ?c ?d ?e ?f) ?k ?s1] =>
      destruct (call_api_sends_once a b c d e f s1) as (r & Hcall & Hfuel);
      set (s1' := s1) in *
  end.
  destruct r as [audio|e|]; [| |done].
  - rewrite (bind_Ok _ _ _ _ _ Hcall). unfold bind at 1, time_time.
    match goal with
    | |- context [save_and_return ?a ?b ?c ?d ?s2] =>
        destruct (save_and_return_succeeds a b c d s2)
          as (res & s3 & Hsave & Hok & _ & Hnet)
    end.
    rewrite Hsave. exists (Ok res), s3. split; [done|]. split; [done|].
    split; [|by intros ? [= <-]].
    eapply after_call; [|exact Hnet]. by repeat split.
  - rewrite (bind_Raise _ _ _ _ _ Hcall). eexists _, _.
    split; [reflexivity|]. split; [done|]. split; [|done].
    eapply (after_call _ _ _ _ _ _ s s1'); by repeat split.
Qed.

Lemma handle_error_no_fallback fuel e request s :
  fallback_wanted (st_config s) e = false ->
  handle_error (S fuel) e request s = (Ok (error_result e request), s).
Proof.
  intros H. cbn [_handle_generation_error].
  unfold bind at 1, get_state. by rewrite H.
Qed.

Lemma fallback_not_wanted_on_fallback_model c e :
  model c = ModelConstants.DEFAULT_FALLBACK_MODEL ->
  fallback_wanted c e = false.
Proof.
  intros H. unfold fallback_wanted. rewrite H, String.eqb_refl.
  by rewrite andb_false_r.
Qed.

Lemma handle_error_fallback fuel e request s :
  fallback_wanted (st_config s) e = true ->
  exists res s',
    handle_error (S (S fuel)) e request s = (Ok res, s')
    /\ st_config s' = st_config s
    /\ (success res = true \/ res = error_result e request)
    /\ (text_ok (text request) ->
        sends_one ModelConstants.FLASH_TTS s s')
    /\ (forall e2 s2,
           traditional_body (fallback_request s request) (fallback_state s)
           = (Raise e2, s2) ->
           res = error_result e request).
Proof.
  intros Hwanted. remember (S fuel) as fuel1 eqn:Hfuel1.
  cbn [_handle_generation_error].
  unfold bind at 1, get_state. rewrite Hwanted.
  unfold bind at 1. unfold bind at 1, modify. unfold finally.
  fold (fallback_state s).
  rewrite try_except_Exception.
  unfold new_AudioGenerationRequest.
  destruct (PyStr.strip_is_empty (text request)) eqn:Hblank.
  { (* the fallback request is refused *)
    eexists _, _. split; [reflexivity|]. simpl.
    split; [by rewrite set_model_restore|]. split; [by right|].
    split; [by intros [? ?]; congruence|]. done. }
  destruct (5000 <? PyStr.len (text request)) eqn:Hlong.
  { eexists _, _. split; [reflexivity|]. simpl.
    split; [by rewrite set_model_restore|]. split; [by right|].
    split; [intros [_ ?]; apply Z.ltb_lt in Hlong; lia|]. done. }
  unfold lift. unfold bind at 1, ret at 1. fold (fallback_request s request).
  unfold _generate_traditional_with.
  destruct (traditional_body_known_model (fallback_request s request)
              (fallback_state s) ModelConstants.FLASH_TTS eq_refl)
    as (r & s2 & Hbody & Hfuel & (call & Hcalls & Hid & Hcfg & Hapi) & Hsucc).
  unfold bind at 1. rewrite try_except_Exception, Hbody.
  destruct r as [res2|e2|]; [| |done].
  - rewrite (Hsucc res2 eq_refl). unfold ret at 1.
    eexists _, _. split; [reflexivity|]. simpl.
    split; [by rewrite Hcfg; simpl; rewrite set_model_restore|].
    split; [left; by apply Hsucc|].
    split; [|intros ? ? [=]].
    intros _. exists call. simpl. repeat split; try done.
    by rewrite Hcfg; simpl; rewrite set_model_restore.
  - subst fuel1. rewrite handle_error_no_fallback
      by (apply fallback_not_wanted_on_fallback_model; by rewrite Hcfg).
    unfold error_result at 1. cbn [success]. unfold ret at 1.
    eexists _, _. split; [reflexivity|]. simpl.
    split; [by rewrite Hcfg; simpl; rewrite set_model_restore|].
    split; [by right|]. split; [|done].
    intros _. exists call. simpl. repeat split; try done.
    by rewrite Hcfg; simpl; rewrite set_model_restore.
Qed.

Local Abbreviation generate_unified :=
  (_generate_unified float_repr json_loads b64decode re_pipeline self).
Local Abbreviation generate_traditional :=
  (_generate_traditional float_repr json_loads b64decode re_pipeline self).

(** A failed attempt hands its exception to [_handle_generation_error]. *)
Lemma generate_unified_failure fuel request s0 error s :
  unified_body request s0 = (Raise error, s) ->
  generate_unified fuel request s0 = handle_error fuel error request s.
Proof.
  intros H. unfold _generate_unified. by rewrite try_except_Exception, H.
Qed.

Lemma generate_traditional_failure fuel request s0 error s :
  traditional_body request s0 = (Raise error, s) ->
  generate_traditional fuel request s0 = handle_error fuel error request s.
Proof.
  intros H. unfold _generate_traditional, _generate_traditional_with.
  by rewrite try_except_Exception, H.
Qed.

(** C2. When a generation attempt has failed with an error that is
    neither an [InvalidAPIKeyException] nor a [RateLimitedException],
    fallback is enabled and the configured model is not the fallback
    model, handling the error sends exactly one more request, to the
    fallback model.  When the error is an [InvalidAPIKeyException] or a
    [RateLimitedException], handling it sends none.  [s] is the state
    the failed attempt left; the failed attempt of either mode hands its
    error to this handler. *)
Theorem fallback_policy fuel error request s :
  text_ok (text request) ->
  (enable_fallback (st_config s) = true ->
   model (st_config s) <> ModelConstants.DEFAULT_FALLBACK_MODEL ->
   isinstance error [InvalidAPIKeyException; RateLimitedException] = false ->
   exists res s' call,
     handle_error (S (S fuel)) error request s = (Ok res, s')
     /\ st_calls s' = (st_calls s ++ [call])%list
     /\ ModelConstants.model_id ModelConstants.DEFAULT_FALLBACK_MODEL
        = Some (c_model_id call))
  /\ (isinstance error [InvalidAPIKeyException; RateLimitedException] = true ->
      exists res s',
        handle_error (S (S fuel)) error request s = (Ok res, s')
        /\ st_calls s' = st_calls s)
  /\ (forall s0,
         (unified_body request s0 = (Raise error, s) ->
          generate_unified (S (S fuel)) request s0
          = handle_error (S (S fuel)) error request s)
         /\ (traditional_body request s0 = (Raise error, s) ->
             generate_traditional (S (S fuel)) request s0
             = handle_error (S (S fuel)) error request s)).
Proof.
  intros Htext. split; [|split].
  - intros Hen Hmodel Hcls.
    assert (Hwanted : fallback_wanted (st_config s) error = true).
    { unfold fallback_wanted. rewrite Hen, Hcls.
      apply String.eqb_neq in Hmodel. by rewrite Hmodel. }
    destruct (handle_error_fallback fuel error request s Hwanted)
      as (res & s' & Hrun & _ & _ & Hsend & _).
    destruct (Hsend Htext) as (call & Hcalls & Hid & _).
    exists res, s', call. by rewrite Hid.
  - intros Hcls. eexists _, _. split; [|reflexivity].
    apply handle_error_no_fallback. unfold fallback_wanted.
    rewrite Hcls. by rewrite andb_false_r.
  - intros s0. split; intros H.
    + by apply generate_unified_failure.
    + by apply generate_traditional_failure.
Qed.

(** C6. Handling a generation error always returns a result.  When the
    fallback attempt fails too, the result has [success = False] and its
    error message and processing mode are those of the original error
    and request; so has every failed result the handler returns. *)
Theorem fallback_failure_reports_original_error fuel error request s :
  exists res s',
    handle_error (S (S fuel)) error request s = (Ok res, s')
    /\ (success res = false ->
        error_message res = Some (error_text error)
        /\ res_processing_mode res = Some (processing_mode request))
    /\ (fallback_wanted (st_config s) error = true ->
        forall e2 s2,
          traditional_body (fallback_request s request) (fallback_state s)
          = (Raise e2, s2) ->
          success res = false
          /\ error_message res = Some (error_text error)).
Proof.
  destruct (fallback_wanted (st_config s) error) eqn:Hwanted.
  - destruct (handle_error_fallback fuel error request s Hwanted)
      as (res & s' & Hrun & _ & Hres & _ & Hfail).
    exists res, s'. split; [done|]. split.
    + intros Hs. destruct Hres as [Hok| ->]; [congruence|done].
    + intros _ e2 s2 Hbody. by rewrite (Hfail e2 s2 Hbody).
  - eexists _, _. split; [by apply handle_error_no_fallback|].
    split; [done|]. intros [=].
Qed.

Local Abbreviation generate :=
  (generate_audio float_repr json_loads b64decode re_pipeline self).

Lemma api_delivers_same_net s s' audio :
  same_net s s' -> delivers s audio -> delivers s' audio.
Proof.
  intros (Hc & _ & Ha) (body & Hapi & Hex). exists body. split; [|done].
  intros c. by rewrite Ha, Hc.
Qed.

Lemma unified_body_success request s id audio :
  ModelConstants.model_id (model (st_config s)) = Some id ->
  delivers s audio ->
  exists res s', unified_body request s = (Ok res, s') /\ success res = true.
Proof.
  intros Hid (body & Hapi & Hex). unfold _generate_unified_body.
  unfold bind at 1, get_state. unfold bind at 1, time_time.
  unfold bind at 1, lookup_model_id. rewrite Hid. unfold ret at 1.
  rewrite (bind_Ok _ _ _ _ _
             (call_api_success _ _ _ _ _ _ (with_ticks _ s) body audio Hapi Hex)).
  unfold bind at 1, time_time.
  match goal with
  | |- context [save_and_return ?a ?b ?c ?d ?s2] =>
      destruct (save_and_return_succeeds a b c d s2)
        as (res & s3 & Hsave & Hok & _)
  end.
  rewrite Hsave. by exists res, s3.
Qed.

Lemma traditional_body_success request s id audio :
  ModelConstants.model_id (model (st_config s)) = Some id ->
  delivers s audio ->
  exists res s', traditional_body request s = (Ok res, s') /\ success res = true.
Proof.
  intros Hid (body & Hapi & Hex). unfold _generate_traditional_body.
  unfold bind at 1, get_state. unfold bind at 1, time_time.
  unfold bind at 1, lookup_model_id. rewrite Hid. unfold ret at 1.
  rewrite (bind_Ok _ _ _ _ _
             (call_api_success _ _ _ _ _ _ (with_ticks _ s) body audio Hapi Hex)).
  unfold bind at 1, time_time.
  match goal with
  | |- context [save_and_return ?a ?b ?c ?d ?s2] =>
      destruct (save_and_return_succeeds a b c d s2)
        as (res & s3 & Hsave & Hok & _)
  end.
  rewrite Hsave. by exists res, s3.
Qed.

Lemma handle_error_returns fuel error request s :
  exists res s', handle_error (S (S fuel)) error request s = (Ok res, s').
Proof.
  destruct (fallback_wanted (st_config s) error) eqn:Hwanted.
  - destruct (handle_error_fallback fuel error request s Hwanted)
      as (res & s' & Hrun & _).
    by exists res, s'.
  - eexists _, _. by apply handle_error_no_fallback.
Qed.

Lemma traditional_body_fuel_free request s :
  (traditional_body request s).1 <> OutOfFuel.
Proof.
  destruct (ModelConstants.model_id (model (st_config s))) as [id|] eqn:Hid.
  - destruct (traditional_body_known_model request s id Hid)
      as (r & s' & -> & Hfuel & _).
    done.
  - unfold _generate_traditional_body.
    unfold bind at 1, get_state. unfold bind at 1, time_time.
    unfold bind at 1, lookup_model_id. by rewrite Hid.
Qed.

Lemma unified_body_fuel_free request s :
  (unified_body request s).1 <> OutOfFuel.
Proof.
  destruct (ModelConstants.model_id (model (st_config s))) as [id|] eqn:Hid.
  - destruct (unified_body_known_model request s id Hid)
      as (r & s' & -> & Hfuel & _).
    done.
  - unfold _generate_unified_body.
    unfold bind at 1, get_state. unfold bind at 1, time_time.
    unfold bind at 1, lookup_model_id. by rewrite Hid.
Qed.

(** Two levels of recursion are enough: [generate_audio] returns a
    result, for every request and every state. *)
Lemma generate_audio_returns fuel request s :
  exists res s', generate (S (S fuel)) request s = (Ok res, s').
Proof.
  assert (Hgen : forall s1,
            exists res s',
              (if String.eqb (processing_mode request) "unified"
               then generate_unified (S (S fuel)) request
               else generate_traditional (S (S fuel)) request) s1 = (Ok res, s')).
  { intros s1. destruct (String.eqb (processing_mode request) "unified").
    - unfold _generate_unified. rewrite try_except_Exception.
      pose proof (unified_body_fuel_free request s1) as Hfuel.
      destruct (unified_body request s1) as [[res|e|] s2]; [| |done].
      + by eexists _, _.
      + apply handle_error_returns.
    - unfold _generate_traditional, _generate_traditional_with.
      rewrite try_except_Exception.
      pose proof (traditional_body_fuel_free request s1) as Hfuel.
      destruct (traditional_body request s1) as [[res|e|] s2]; [| |done].
      + by eexists _, _.
      + apply handle_error_returns. }
  unfold generate_audio. unfold bind at 1.
  destruct (use_cache request && cache_manager self); [|apply Hgen].
  unfold bind at 1.
  destruct (try_cache_lookup_returns request s) as (r & s1 & Hl & _).
  rewrite Hl. destruct (success r); [by exists r, s1 | apply Hgen].
Qed.

(** C7. Once the audio bytes are there, the result is a success whatever
    the cache does: [_save_and_return] always returns [success = True],
    with no file name when [save_audio] raised; and [generate_audio]
    returns a success whenever the remote side delivers audio, in every
    state of the cache directory. *)
Theorem cache_write_failure_keeps_success :
  (forall request audio mode duration s,
      exists res s',
        save_and_return request audio mode duration s = (Ok res, s')
        /\ success res = true /\ used_cache res = false)
  /\ (forall request audio mode duration s e s1,
         cache_manager self = true ->
         use_cache request = true ->
         CacheManager.save_audio
           (_generate_cache_key float_repr (st_config s) request) audio s
         = (Raise e, s1) ->
         exists res,
           save_and_return request audio mode duration s = (Ok res, s1)
           /\ success res = true /\ filename res = None)
  /\ (forall fuel request s id audio,
         ModelConstants.model_id (model (st_config s)) = Some id ->
         delivers s audio ->
         exists res s',
           generate fuel request s = (Ok res, s') /\ success res = true).
Proof.
  split; [|split].
  - intros request audio mode duration s.
    destruct (save_and_return_succeeds request audio mode duration s)
      as (res & s' & H & Hok & Hused & _).
    by exists res, s'.
  - intros request audio mode duration s e s1 Hcm Huse Hsave.
    unfold _save_and_return. rewrite Hcm, Huse. cbn [andb]. unfold bind at 1.
    rewrite try_except_Exception. unfold bind at 1, get_state.
    rewrite (bind_Raise _ _ _ _ _ Hsave). by eexists.
  - intros fuel request s id audio Hid Hapi.
    assert (Hgen : forall s1, same_net s s1 ->
              exists res s',
                (if String.eqb (processing_mode request) "unified"
                 then generate_unified fuel request
                 else generate_traditional fuel request) s1 = (Ok res, s')
                /\ success res = true).
    { intros s1 Hnet.
      assert (Hid1 : ModelConstants.model_id (model (st_config s1)) = Some id).
      { destruct Hnet as (_ & -> & _). done. }
      pose proof (api_delivers_same_net _ _ _ Hnet Hapi) as Hapi1.
      destruct (String.eqb (processing_mode request) "unified").
      - destruct (unified_body_success request s1 id audio Hid1 Hapi1)
          as (res & s' & Hbody & Hok).
        exists res, s'. split; [|done].
        unfold _generate_unified. by rewrite try_except_Exception, Hbody.
      - destruct (traditional_body_success request s1 id audio Hid1 Hapi1)
          as (res & s' & Hbody & Hok).
        exists res, s'. split; [|done].
        unfold _generate_traditional, _generate_traditional_with.
        by rewrite try_except_Exception, Hbody. }
    unfold generate_audio. unfold bind at 1.
    destruct (use_cache request && cache_manager self).
    + unfold bind at 1.
      destruct (try_cache_lookup_returns request s) as (r & s1 & Hl & Hnet).
      rewrite Hl. destruct (success r) eqn:Hr.
      * by exists r, s1.
      * apply Hgen. done.
    + apply Hgen. apply same_net_refl.
Qed.

(** C4, as the code has it.  When the response is a 200 whose decoded
    audio is smaller than [MIN_AUDIO_SIZE] or larger than
    [MAX_AUDIO_SIZE], the [AudioSizeException] raised by the size check
    does not leave [_extract_audio_data]: its last [except] clause
    turns it into a plain [AudioException], and the last clause of
    [_call_gemini_api] turns that into a plain [APIException].  The call
    fails, but not with an [AudioSizeException]. *)
Theorem audio_size_error_is_rewrapped body response_json audio_b64 audio_data :
  json_loads body = inr response_json ->
  inline_data response_json = inr audio_b64 ->
  decode_audio b64decode audio_b64 = inr audio_data ->
  (Z.of_nat (length audio_data) < AudioConstants.MIN_AUDIO_SIZE
   \/ AudioConstants.MAX_AUDIO_SIZE < Z.of_nat (length audio_data)) ->
  (exists e, extract_body json_loads b64decode body = inl e
             /\ e_class e = AudioSizeException)
  /\ (exists e1, extract body = inl e1
                 /\ e_class e1 = AudioException
                 /\ isinstance e1 [AudioSizeException] = false)
  /\ (forall model_id prompt voice temperature timeout budget s,
         (forall c, st_api s (length (st_calls s)) c = Response 200 body) ->
         exists e2 s',
           call_api model_id prompt voice temperature timeout budget s
           = (Raise e2, s')
           /\ e_class e2 = APIException
           /\ isinstance e2 [AudioSizeException] = false).
Proof.
  intros Hjson Hwalk Hdec Hsize.
  assert (Hbody : exists e, extract_body json_loads b64decode body = inl e
                            /\ e_class e = AudioSizeException).
  { unfold extract_body, sum_bind. rewrite Hjson, Hwalk, Hdec.
    unfold validate_audio.
    destruct (Z.of_nat (length audio_data) <? AudioConstants.MIN_AUDIO_SIZE) eqn:Hmin;
      [by eexists|].
    destruct (AudioConstants.MAX_AUDIO_SIZE <? Z.of_nat (length audio_data)) eqn:Hmax;
      [by eexists|].
    apply Z.ltb_ge in Hmin, Hmax. lia. }
  destruct Hbody as (e & He & Hcls).
  assert (Hextract : exists e1, extract body = inl e1
                                /\ e_class e1 = AudioException
                                /\ isinstance e1 [AudioSizeException] = false).
  { unfold _extract_audio_data. rewrite He. unfold isinstance.
    rewrite Hcls. cbn [existsb]. by eexists. }
  split; [by exists e|]. split; [done|].
  intros model_id prompt voice temperature timeout budget s Hapi.
  destruct Hextract as (e1 & He1 & _).
  unfold _call_gemini_api, bind, get_state, urlopen.
  rewrite Hapi, try_except_Exception. cbn [negb Z.eqb Pos.eqb].
  rewrite He1. by eexists _, _.
Qed.

End GeneratorProps.

(** ** Dictionaries, the index file, hits and misses *)

Section PyDictFacts.
Context {V : Type}.

Lemma get_set_eq k (v : V) d : PyDict.get k (PyDict.set k v d) = Some v.
Proof.
  induction d as [|[k' v'] d IH]; simpl.
  - by rewrite String.eqb_refl.
  - destruct (String.eqb k k') eqn:E; simpl.
    + by rewrite String.eqb_refl.
    + by rewrite E.
Qed.

Lemma get_set_ne k k' (v : V) d :
  k <> k' -> PyDict.get k (PyDict.set k' v d) = PyDict.get k d.
Proof.
  intros Hne. induction d as [|[k2 v2] d IH]; simpl.
  - apply String.eqb_neq in Hne. by rewrite Hne.
  - destruct (String.eqb k' k2) eqn:E; simpl.
    + apply String.eqb_eq in E. subst k2.
      apply String.eqb_neq in Hne. by rewrite Hne.
    + by rewrite IH.
Qed.

Lemma set_first (P : string * V -> Prop) k v d :
  Forall P d ->
  exists pre post, PyDict.set k v d = (pre ++ (k, v) :: post)%list /\ Forall P pre.
Proof.
  induction d as [|[k' v'] d IH]; intros Hall; simpl.
  - by exists [], [].
  - apply Forall_cons in Hall as [Hhd Htl].
    destruct (String.eqb k k').
    + by exists [], d.
    + destruct (IH Htl) as (pre & post & -> & Hpre).
      exists ((k', v') :: pre), post. split; [done|]. by apply Forall_cons.
Qed.

End PyDictFacts.

Section IndexFile.
Import CacheManager.

Lemma _save_metadata_ok s m :
  st_metadata s = Some m ->
  index_writable s ->
  _save_metadata s = (Ok tt, with_dir (saved_dir s m) s).
Proof.
  intros Hm (Hw & Ht & Hl). unfold _save_metadata. rewrite try_except_Exception.
  rewrite (bind_Ok _ _ _ _ _ (get_metadata_loaded _ _ Hm)).
  unfold bind, write_file. rewrite Hw, Ht. simpl.
  unfold os_replace. simpl. rewrite lookup_insert_eq. simpl. rewrite Hw. simpl.
  assert (Hl' : node_locked
            (with_dir (<[String.append metadata_file ".tmp" := index_node s m]> (st_dir s)) s)
            metadata_file = false).
  { unfold node_locked in *. simpl. by rewrite lookup_insert_ne. }
  unfold index_node in Hl'. rewrite Hl'. reflexivity.
Qed.

Lemma saved_dir_other s m x :
  x <> metadata_file -> x <> index_tmp -> saved_dir s m !! x = st_dir s !! x.
Proof.
  intros H1 H2. unfold saved_dir.
  rewrite lookup_insert_ne by done. rewrite lookup_delete_ne by done.
  by rewrite lookup_insert_ne.
Qed.

Lemma index_writable_saved s m d :
  st_writable s = true ->
  index_writable (with_dir (saved_dir s m) (with_metadata d s)).
Proof.
  intros Hw. unfold index_writable, node_locked. simpl. split; [done|]. split.
  - unfold saved_dir. rewrite lookup_insert_ne by done. by rewrite lookup_delete_eq.
  - unfold saved_dir. by rewrite lookup_insert_eq.
Qed.

Lemma keeps_file_save_metadata x :
  x <> metadata_file -> x <> index_tmp -> keeps (keeps_file x) _save_metadata.
Proof.
  intros H1 H2. unfold _save_metadata.
  apply (keeps_try_except _ (keeps_file_trans x));
    [|intros; apply (keeps_raise _ (keeps_file_refl x))].
  apply (keeps_bind _ (keeps_file_trans x)).
  - intros s. destruct (get_metadata_spec s) as (m & n & ->). done.
  - intros m. cbv zeta.
    apply (keeps_bind _ (keeps_file_trans x)).
    + intros s. unfold write_file. destruct (_ && _); [|done].
      split; [done|]. unfold keeps_file. simpl. by rewrite lookup_insert_ne.
    + intros _ s. unfold os_replace. destruct (st_dir s !! _); [|done].
      destruct (_ && _); [|done]. split; [done|]. unfold keeps_file. simpl.
      rewrite lookup_insert_ne by done. by rewrite lookup_delete_ne.
Qed.

Lemma keeps_file_get_metadata x : keeps (keeps_file x) get_metadata.
Proof. intros s. destruct (get_metadata_spec s) as (m & n & ->). done. Qed.

End IndexFile.

Section MoreLookup.
Import CacheManager.

(** X1. When no entry of the index has the key, [get_cached_file] returns
    [None] and does nothing beyond loading the index: nothing is removed,
    no access time moves, no index file is written. *)
Theorem get_cached_file_miss key s s0 m :
  get_metadata s = (Ok m, s0) ->
  Forall (fun kv : string * CacheFileInfo => cache_key kv.2 <> key) (files m) ->
  get_cached_file key s = (Ok None, s0).
Proof.
  intros Hget Hall.
  destruct (get_metadata_spec s) as (m1 & n & Hspec).
  rewrite Hspec in Hget. injection Hget as -> <-.
  unfold get_cached_file, get_cached_file_body.
  rewrite try_except_Exception, (bind_Ok _ _ _ _ _ Hspec).
  set (s0 := with_metadata (Some m) (with_ticks n s)).
  pose proof (lookup_loop_skip key (files m) [] s0 m eq_refl Hall) as H.
  rewrite app_nil_r in H. rewrite H. cbn [lookup_loop].
  rewrite (bind_Ok _ _ _ _ _ (get_metadata_loaded s0 m eq_refl)).
  by rewrite Nat.eqb_refl.
Qed.

Lemma get_cached_file_hit_loaded key s m pre name info post :
  st_metadata s = Some m ->
  NoDup (files m).*1 ->
  files m = (pre ++ (name, info) :: post)%list ->
  Forall (fun kv : string * CacheFileInfo => cache_key kv.2 <> key) pre ->
  cache_key info = key ->
  is_Some (st_dir s !! name) ->
  index_writable s ->
  let now := st_clock s (st_ticks s) in
  let m' := update_access now name m in
  exists s',
    get_cached_file key s = (Ok (Some name), s')
    /\ st_metadata s' = Some m'
    /\ PyDict.get name (files m') = Some (touched now info)
    /\ (forall x, x <> name -> PyDict.get x (files m') = PyDict.get x (files m))
    /\ index_on_disk s' = Some (doc_of_metadata m')
    /\ (forall x, x <> metadata_file -> x <> index_tmp ->
                  st_dir s' !! x = st_dir s !! x).
Proof.
  intros Hm Hnd Hfiles Hpre Hkey Hfile Hw now m'.
  assert (Hin : In (name, info) (files m)).
  { rewrite Hfiles. apply in_or_app. right. by left. }
  assert (Hget : PyDict.get name (files m) = Some info).
  { apply (get_lookup _ (length pre)); [done|]. rewrite Hfiles.
    by rewrite list_lookup_middle. }
  unfold get_cached_file, get_cached_file_body.
  rewrite try_except_Exception.
  rewrite (bind_Ok _ _ _ _ _ (get_metadata_loaded _ _ Hm)).
  rewrite (lookup_loop_first key s m pre name info post Hm Hfiles Hpre).
  cbn [lookup_loop].
  rewrite (bind_Ok _ _ _ _ _ (get_metadata_loaded _ _ Hm)).
  rewrite Nat.eqb_refl. cbn [negb].
  apply String.eqb_eq in Hkey. rewrite Hkey.
  unfold bind at 1, path_exists. rewrite bool_decide_eq_true_2 by done.
  unfold do_update_access.
  unfold bind at 1.
  rewrite (bind_Ok _ _ _ _ _ (get_metadata_loaded _ _ Hm)).
  rewrite (get_In _ _ _ Hin).
  unfold bind at 1 2. unfold time_time, put_metadata, modify.
  fold now. fold m'.
  set (s1 := with_metadata (Some m') (with_ticks (S (st_ticks s)) s)).
  assert (Hw1 : index_writable s1) by exact Hw.
  rewrite (_save_metadata_ok s1 m' eq_refl Hw1). unfold ret.
  eexists. split; [reflexivity|]. split; [done|].
  assert (Hfiles' : files m' = PyDict.set name (touched now info) (files m)).
  { unfold m', update_access. by rewrite Hget. }
  split; [rewrite Hfiles'; apply get_set_eq|].
  split; [intros x Hx; rewrite Hfiles'; by apply get_set_ne|].
  split.
  - unfold index_on_disk. simpl. unfold saved_dir. by rewrite lookup_insert_eq.
  - intros x H1 H2. simpl. by rewrite saved_dir_other.
Qed.

(** X2. A hit, on an index that can be saved: the first entry with the
    key has its file, [get_cached_file] returns its name, sets [accessed]
    of that entry to the time it reads after loading the index and leaves
    every other field and every other entry as it was, writes that index
    to the index file, and touches no other file of the directory. *)
Theorem get_cached_file_hit key s s0 m pre name info post :
  get_metadata s = (Ok m, s0) ->
  NoDup (files m).*1 ->
  files m = (pre ++ (name, info) :: post)%list ->
  Forall (fun kv : string * CacheFileInfo => cache_key kv.2 <> key) pre ->
  cache_key info = key ->
  is_Some (st_dir s !! name) ->
  index_writable s ->
  let now := st_clock s (st_ticks s0) in
  let m' := update_access now name m in
  exists s',
    get_cached_file key s = (Ok (Some name), s')
    /\ st_metadata s' = Some m'
    /\ PyDict.get name (files m') = Some (touched now info)
    /\ (forall x, x <> name -> PyDict.get x (files m') = PyDict.get x (files m))
    /\ index_on_disk s' = Some (doc_of_metadata m')
    /\ (forall x, x <> metadata_file -> x <> index_tmp ->
                  st_dir s' !! x = st_dir s !! x).
Proof.
  intros Hget Hnd Hfiles Hpre Hkey Hfile Hw.
  destruct (get_metadata_spec s) as (m1 & n & Hspec).
  rewrite Hspec in Hget. injection Hget as -> <-.
  set (s0 := with_metadata (Some m) (with_ticks n s)).
  assert (Hsame : get_cached_file key s = get_cached_file key s0).
  { unfold get_cached_file, get_cached_file_body.
    rewrite !try_except_Exception, (bind_Ok _ _ _ _ _ Hspec).
    by rewrite (bind_Ok _ _ _ _ _ (get_metadata_loaded s0 m eq_refl)). }
  rewrite Hsame.
  exact (get_cached_file_hit_loaded key s0 m pre name info post eq_refl Hnd
           Hfiles Hpre Hkey Hfile Hw).
Qed.

End MoreLookup.

Section Restart.
Import CacheManager.

(** X3. What [_save_metadata] writes, [_load_metadata] reads back: after a
    successful save of an index, a process that starts on the same
    directory with no index loaded gets the same index, entry by entry
    and in the same order. *)
Theorem saved_index_is_loaded_back s m :
  st_metadata s = Some m ->
  NoDup (files m).*1 ->
  index_writable s ->
  exists s1,
    _save_metadata s = (Ok tt, s1)
    /\ forall s2,
        st_dir s2 = st_dir s1 ->
        st_metadata s2 = None ->
        exists s3, get_metadata s2 = (Ok m, s3) /\ st_metadata s3 = Some m.
Proof.
  intros Hm Hnd Hw. rewrite (_save_metadata_ok s m Hm Hw).
  eexists. split; [reflexivity|]. intros s2 Hdir Hnone.
  destruct (load_saved_index s2 m (index_node s m) Hnd) as (ticks & Hload);
    [|done|done|].
  { rewrite Hdir. simpl. unfold saved_dir. by rewrite lookup_insert_eq. }
  unfold get_metadata, bind at 1, get_state. rewrite Hnone.
  unfold bind. rewrite Hload. simpl. by eexists.
Qed.

End Restart.

(** ** Saving audio *)

Section SaveAudio.
Import CacheManager.

Lemma audio_filename_head key ts :
  exists rest, audio_filename key ts = String "g" rest.
Proof. unfold audio_filename. simpl. by eexists. Qed.

Lemma audio_filename_ne key ts :
  audio_filename key ts <> temp_filename (audio_filename key ts)
  /\ audio_filename key ts <> metadata_file
  /\ audio_filename key ts <> index_tmp
  /\ temp_filename (audio_filename key ts) <> metadata_file
  /\ temp_filename (audio_filename key ts) <> index_tmp.
Proof.
  destruct (audio_filename_head key ts) as [rest ->].
  repeat split; discriminate.
Qed.

Lemma _validate_filename_run name s :
  _validate_filename name s = (Ok tt, s)
  \/ exists e, _validate_filename name s = (Raise e, s)
               /\ e_class e = SecurityException.
Proof.
  unfold _validate_filename.
  destruct (_ <? _); [right; by eexists|].
  destruct (forbidden_in name); [right; by eexists|].
  destruct (_ && _); [right; by eexists|]. by left.
Qed.

Lemma _validate_filename_ok key ts s :
  PyStr.len (audio_filename key ts) <= FileConstants.MAX_FILENAME_LENGTH ->
  forbidden_in (audio_filename key ts) = None ->
  _validate_filename (audio_filename key ts) s = (Ok tt, s).
Proof.
  intros Hlen Hforb. unfold _validate_filename.
  apply Z.ltb_ge in Hlen. rewrite Hlen, Hforb.
  destruct (audio_filename_head key ts) as [rest ->]. reflexivity.
Qed.

Lemma NoDup_set {V} k (v : V) d :
  NoDup d.*1 -> NoDup (PyDict.set k v d).*1.
Proof.
  induction d as [|[k' v'] d IH]; simpl; intros Hnd.
  - apply NoDup_singleton.
  - apply NoDup_cons in Hnd as [Hk Hnd].
    destruct (String.eqb k k') eqn:E; simpl.
    + apply String.eqb_eq in E. subst k'. by apply NoDup_cons.
    + apply NoDup_cons. split; [|by apply IH].
      intros ((k2 & v2) & Hk2 & Hin)%list_elem_of_fmap. simpl in Hk2. subst k2.
      apply Hk. apply list_elem_of_fmap.
      assert (k' <> k) by (intros ->; by rewrite String.eqb_refl in E).
      clear IH Hk Hnd E. induction d as [|[k3 v3] d IH]; simpl in *.
      * apply list_elem_of_singleton in Hin. congruence.
      * destruct (String.eqb k k3) eqn:E3.
        -- apply elem_of_cons in Hin as [Hin|Hin]; [congruence|].
           exists (k', v2). split; [done|]. by right.
        -- apply elem_of_cons in Hin as [Hin|Hin].
           ++ injection Hin as <- <-. exists (k', v2). split; [done|]. left.
           ++ destruct (IH Hin) as (y & Hy & Hiny). exists y. split; [done|]. by right.
Qed.

Lemma write_file_ok name c s :
  st_writable s = true -> node_locked s name = false ->
  write_file name c s
  = (Ok tt,
     with_dir (<[name := {| n_content := c; n_ctime := st_clock s (st_ticks s);
                            n_readable := true; n_locked := false |}]> (st_dir s)) s).
Proof. intros Hw Hl. unfold write_file. by rewrite Hw, Hl. Qed.

Lemma os_replace_ok src dst n s :
  st_dir s !! src = Some n ->
  st_writable s = true -> node_locked s dst = false ->
  os_replace src dst s
  = (Ok tt, with_dir (<[dst := n]> (delete src (st_dir s))) s).
Proof. intros Hs Hw Hl. unfold os_replace. by rewrite Hs, Hw, Hl. Qed.

Lemma node_locked_insert_ne s d x y n :
  x <> y ->
  node_locked (with_dir (<[y := n]> d) s) x = node_locked (with_dir d s) x.
Proof. intros H. unfold node_locked. simpl. by rewrite lookup_insert_ne. Qed.

Lemma node_locked_delete_ne s d x y :
  x <> y ->
  node_locked (with_dir (delete y d) s) x = node_locked (with_dir d s) x.
Proof. intros H. unfold node_locked. simpl. by rewrite lookup_delete_ne. Qed.

Lemma save_audio_ok key data s m :
  st_metadata s = Some m ->
  let name := save_name key s in
  PyStr.len name <= FileConstants.MAX_FILENAME_LENGTH ->
  forbidden_in name = None ->
  can_store s name ->
  let m1 := add_file (st_clock s (S (st_ticks s))) name key
              (Z.of_nat (length data)) m in
  exists s1,
    save_audio key data s = (Ok name, s1)
    /\ st_metadata s1 = Some m1
    /\ st_dir s1 !! name = Some (audio_node s data)
    /\ st_dir s1 !! temp_filename name = None
    /\ index_on_disk s1 = Some (doc_of_metadata m1)
    /\ index_writable s1
    /\ (forall x, x <> name -> x <> temp_filename name ->
                  x <> metadata_file -> x <> index_tmp ->
                  st_dir s1 !! x = st_dir s !! x).
Proof.
  intros Hm name Hlen Hforb ((Hw & Hlt & Hlm) & Htemp & Hname) m1.
  destruct (audio_filename_ne key (int_of_float (st_clock s (st_ticks s))))
    as (Hne1 & Hne2 & Hne3 & Hne4 & Hne5).
  fold (save_name key s) in Hne1, Hne2, Hne3, Hne4, Hne5.
  fold name in Hne1, Hne2, Hne3, Hne4, Hne5.
  unfold save_audio. unfold bind at 1, time_time. cbv zeta.
  fold (save_name key s). fold name.
  rewrite (bind_Ok _ _ _ _ _ (_validate_filename_ok _ _ _ Hlen Hforb)).
  rewrite try_except_Exception.
  set (s0 := with_ticks (S (st_ticks s)) s).
  rewrite (bind_Ok _ _ _ _ _
             (write_file_ok (temp_filename name) (Blob data) s0 Hw Htemp)).
  fold (audio_node s data).
  set (d1 := <[temp_filename name := audio_node s data]> (st_dir s0)).
  assert (Hrep : os_replace (temp_filename name) name (with_dir d1 s0)
                 = (Ok tt, with_dir (<[name := audio_node s data]>
                                       (delete (temp_filename name) d1)) s0)).
  { rewrite (os_replace_ok _ _ (audio_node s data));
      [reflexivity | apply lookup_insert_eq | done |].
    unfold d1. by rewrite node_locked_insert_ne. }
  rewrite (bind_Ok _ _ _ _ _ Hrep).
  set (d2 := <[name := audio_node s data]> (delete (temp_filename name) d1)).
  rewrite (bind_Ok _ _ (with_dir d2 s0) _ _
             (get_metadata_loaded (with_dir d2 s0) m Hm)).
  unfold bind at 1, time_time. unfold bind at 1, put_metadata, modify.
  change (st_clock (with_dir d2 s0) (st_ticks (with_dir d2 s0)))
    with (st_clock s (S (st_ticks s))).
  fold m1.
  match goal with
  | |- context [bind _save_metadata _ ?s3] => set (s2 := s3)
  end.
  assert (Hw2 : index_writable s2).
  { unfold index_writable, s2, node_locked. simpl. split; [done|].
    unfold d2, d1. split.
    - rewrite lookup_insert_ne by done. rewrite lookup_delete_ne by done.
      rewrite lookup_insert_ne by done. exact Hlt.
    - rewrite lookup_insert_ne by done. rewrite lookup_delete_ne by done.
      rewrite lookup_insert_ne by done. exact Hlm. }
  rewrite (bind_Ok _ _ _ _ _ (_save_metadata_ok s2 m1 eq_refl Hw2)).
  unfold ret. eexists. split; [reflexivity|]. split; [done|].
  assert (Hother : forall x, x <> metadata_file -> x <> index_tmp ->
            st_dir (with_dir (saved_dir s2 m1) s2) !! x = d2 !! x).
  { intros x H1 H2. simpl. by rewrite saved_dir_other. }
  split; [rewrite Hother by done; unfold d2; apply lookup_insert_eq|].
  split.
  { rewrite Hother by done. unfold d2. rewrite lookup_insert_ne by done.
    apply lookup_delete_eq. }
  split.
  { unfold index_on_disk. simpl. unfold saved_dir. by rewrite lookup_insert_eq. }
  split.
  { apply (index_writable_saved s2 m1 (st_metadata s2)). exact Hw. }
  intros x H1 H2 H3 H4. rewrite Hother by done. unfold d2, d1.
  rewrite lookup_insert_ne by done. rewrite lookup_delete_ne by done.
  by rewrite lookup_insert_ne.
Qed.

(** The [except] clause of [save_audio]. *)
Lemma save_audio_handler {A} temp msg s :
  exists s',
    (present <- path_exists temp ;;
     (if present
      then try_except (os_remove temp) [OSError] (fun _ => ret tt)
      else ret tt) ;;;
     @raise A (new_CacheWriteException msg)) s
    = (Raise (new_CacheWriteException msg), s')
    /\ forall x, st_dir s' !! x
                 = if bool_decide (x = temp) && removable s temp
                   then None else st_dir s !! x.
Proof.
  unfold bind at 1, path_exists. unfold removable.
  destruct (st_dir s !! temp) as [n|] eqn:Hn.
  - rewrite bool_decide_eq_true_2 by eauto.
    unfold bind, try_except, os_remove. rewrite Hn.
    destruct (st_writable s && negb (n_locked n)); simpl.
    + eexists. split; [reflexivity|]. intros x. simpl.
      case_bool_decide as Hx; simpl.
      * subst x. apply lookup_delete_eq.
      * by apply lookup_delete_ne.
    + eexists. split; [reflexivity|]. intros x. by rewrite andb_false_r.
  - rewrite bool_decide_eq_false_2 by (intros [? ?]; done).
    unfold bind. simpl. eexists. split; [reflexivity|]. intros x.
    case_bool_decide as Hx; simpl; [by subst x|done].
Qed.

Lemma keeps_file_save_tail x name key size :
  x <> metadata_file -> x <> index_tmp ->
  keeps (keeps_file x)
    (metadata <- get_metadata ;;
     current_time <- time_time ;;
     put_metadata (add_file current_time name key size metadata) ;;;
     _save_metadata ;;;
     ret name).
Proof.
  intros H1 H2.
  apply (keeps_bind _ (keeps_file_trans x)); [apply keeps_file_get_metadata|].
  intros m. apply (keeps_bind _ (keeps_file_trans x)); [by intros s|].
  intros t. apply (keeps_bind _ (keeps_file_trans x)); [by intros s|].
  intros _. apply (keeps_bind _ (keeps_file_trans x));
    [by apply keeps_file_save_metadata|].
  intros _. apply (keeps_ret _ (keeps_file_refl x)).
Qed.

(** What [save_audio] does, step by step, whatever the state. *)
Lemma save_audio_cases key data s :
  let name := save_name key s in
  let temp := temp_filename name in
  let s0 := with_ticks (S (st_ticks s)) s in
  exists r s',
    save_audio key data s = (r, s')
    /\ ((exists e, r = Raise e /\ e_class e = SecurityException /\ s' = s0
                   /\ _validate_filename name s0 = (Raise e, s0))
        \/ ((r = Ok name
             \/ exists msg, r = Raise (new_CacheWriteException msg))
            /\ (st_dir s !! temp = None -> st_dir s' !! temp = None))).
Proof.
  intros name temp s0.
  destruct (audio_filename_ne key (int_of_float (st_clock s (st_ticks s))))
    as (Hne1 & Hne2 & Hne3 & Hne4 & Hne5).
  fold (save_name key s) in Hne1, Hne2, Hne3, Hne4, Hne5.
  fold name in Hne1, Hne2, Hne3, Hne4, Hne5. fold temp in Hne1, Hne4, Hne5.
  unfold save_audio. unfold bind at 1. unfold time_time at 1. cbv zeta.
  fold (save_name key s). fold name. fold temp. fold s0.
  destruct (_validate_filename_run name s0) as [Hval|(e & Hval & He)].
  2:{ rewrite (bind_Raise _ _ _ _ _ Hval). eexists _, _. split; [reflexivity|].
      left. by exists e. }
  rewrite (bind_Ok _ _ _ _ _ Hval). rewrite try_except_Exception.
  unfold bind at 1, write_file.
  destruct (st_writable s0 && negb (node_locked s0 temp)) eqn:Hwr.
  - apply andb_true_iff in Hwr as [Hw _].
    unfold bind at 1, os_replace. cbn [st_dir with_dir st_writable].
    rewrite lookup_insert_eq.
    match goal with
    | |- context [if ?b then _ else _] => destruct b
    end.
    + match goal with
      | |- context [bind get_metadata ?k ?sR] =>
          pose proof (keeps_file_save_tail temp name key
                        (Z.of_nat (length data)) Hne4 Hne5 sR) as [Hfuel Hkeep];
          destruct (bind get_metadata k sR) as [[v|e|] s3] eqn:Hrest
      end; [| |done].
      * assert (v = name) as ->.
        { revert Hrest. unfold bind at 1.
          destruct (get_metadata _) as [[m|?|] ?]; [|discriminate..].
          unfold bind at 1. unfold time_time at 1.
          unfold bind at 1, put_metadata, modify.
          unfold bind at 1. destruct (_save_metadata _) as [[[]|?|] ?];
            [|discriminate..].
          unfold ret. congruence. }
        eexists _, _. split; [reflexivity|]. right. split; [by left|].
        intros _. unfold keeps_file in Hkeep. simpl in Hkeep. rewrite Hkeep.
        rewrite lookup_insert_ne by done. apply lookup_delete_eq.
      * match goal with
        | |- context [bind (path_exists temp) ?k s3] =>
            destruct (@save_audio_handler string temp
                        (String.append "Cannot save audio file: " (str_exn e)) s3)
              as (s4 & Hh & Hdir)
        end.
        rewrite Hh. eexists _, _. split; [reflexivity|]. right. split; [right; by eexists|].
        intros _. rewrite Hdir.
        unfold keeps_file in Hkeep. simpl in Hkeep.
        destruct (bool_decide (temp = temp) && removable s3 temp); [done|].
        rewrite Hkeep. rewrite lookup_insert_ne by done. apply lookup_delete_eq.
    + match goal with
      | |- context [bind (path_exists temp) ?k ?s3] =>
          destruct (@save_audio_handler string temp
                      (String.append "Cannot save audio file: "
                         (str_exn (os_error "Permission denied" name))) s3)
            as (s4 & Hh & Hdir)
      end.
      rewrite Hh. eexists _, _. split; [reflexivity|]. right. split; [right; by eexists|].
      intros _. rewrite Hdir. rewrite bool_decide_eq_true_2 by done.
      unfold removable. simpl. rewrite lookup_insert_eq. simpl.
      change (st_writable s) with (st_writable s0). by rewrite Hw.
  - match goal with
    | |- context [bind (path_exists temp) ?k ?s3] =>
        destruct (@save_audio_handler string temp
                    (String.append "Cannot save audio file: "
                       (str_exn (os_error "Permission denied" temp))) s3)
          as (s4 & Hh & Hdir)
    end.
    rewrite Hh. eexists _, _. split; [reflexivity|]. right. split; [right; by eexists|].
    intros Habs. rewrite Hdir.
    destruct (bool_decide (temp = temp) && removable s0 temp); [done|]. exact Habs.
Qed.

End SaveAudio.

(** X4. [save_audio] raises two kinds of exception only.  A
    [SecurityException] comes from the file-name check, before anything is
    written: directory and index are as they were.  Anything that fails
    later is raised as [CacheWriteException], whose message for the user
    is "Cache error. Audio may not be saved for reuse.". *)
Theorem save_audio_raises key data s e s' :
  CacheManager.save_audio key data s = (Raise e, s') ->
  (e_class e = SecurityException
   /\ st_dir s' = st_dir s /\ st_metadata s' = st_metadata s)
  \/ (e_class e = CacheWriteException
      /\ e_user_message e = Some "Cache error. Audio may not be saved for reuse.").
Proof.
  intros Hrun.
  destruct (save_audio_cases key data s) as (r & s1 & Hr & Hcases).
  rewrite Hrun in Hr. injection Hr as <- <-.
  destruct Hcases as [(e1 & [= <-] & Hcls & -> & _)|[[Hok|(msg & [= ->])] _]].
  - by left.
  - discriminate Hok.
  - by right.
Qed.


(** X6. What is saved is found: on an index with no entry for the key,
    in a directory that lets the file and the index be written, [save_audio]
    returns the name built from the key and the clock, the file of that
    name holds the audio, and [get_cached_file] with the same key returns
    that name and leaves the file as it is. *)
Theorem save_audio_then_lookup key data s m :
  st_metadata s = Some m ->
  NoDup (files m).*1 ->
  Forall (fun kv : string * CacheFileInfo => cache_key kv.2 <> key) (files m) ->
  PyStr.len (save_name key s) <= FileConstants.MAX_FILENAME_LENGTH ->
  CacheManager.forbidden_in (save_name key s) = None ->
  can_store s (save_name key s) ->
  exists s1 s2,
    CacheManager.save_audio key data s = (Ok (save_name key s), s1)
    /\ st_dir s1 !! save_name key s = Some (audio_node s data)
    /\ CacheManager.get_cached_file key s1 = (Ok (Some (save_name key s)), s2)
    /\ st_dir s2 !! save_name key s = Some (audio_node s data).
Proof.
  intros Hm Hnd Hkeys Hlen Hforb Hstore.
  destruct (save_audio_ok key data s m Hm Hlen Hforb Hstore)
    as (s1 & Hsave & Hm1 & Hfile & _ & _ & Hw1 & _).
  set (name := save_name key s) in *.
  set (info := {| created := st_clock s (S (st_ticks s));
                  accessed := st_clock s (S (st_ticks s));
                  version := md_version m; cache_key := key;
                  file_size := Z.of_nat (length data) |}).
  destruct (set_first _ name info (files m) Hkeys) as (pre & post & Hsplit & Hpre).
  destruct (audio_filename_ne key (int_of_float (st_clock s (st_ticks s))))
    as (_ & Hne2 & Hne3 & _).
  destruct (get_cached_file_hit_loaded key s1 _ pre name info post Hm1)
    as (s2 & Hhit & _ & _ & _ & _ & Hdir); try done.
  - simpl. by apply NoDup_set.
  - exists s1, s2. split; [done|]. split; [done|]. split; [done|].
    rewrite Hdir by done. done.
Qed.

(** ** The file names of generated keys *)

Section Names.

Lemma chars_append a b :
  PyStr.chars (String.append a b) = (PyStr.chars a ++ PyStr.chars b)%list.
Proof. unfold PyStr.chars. induction a as [|c a IH]; simpl; [done|]. by rewrite IH. Qed.

Lemma allowed_append a b : allowed (String.append a b) = allowed a && allowed b.
Proof. unfold allowed. by rewrite chars_append, forallb_app. Qed.

Lemma allowed_concat l : forallb allowed l = true -> allowed (PyStr.concat l) = true.
Proof.
  induction l as [|a l IH]; simpl; [done|].
  intros [Ha Hl]%andb_true_iff. rewrite allowed_append, Ha. by apply IH.
Qed.

Lemma allowed_take n s : allowed s = true -> allowed (PyStr.take n s) = true.
Proof.
  unfold PyStr.take, allowed, PyStr.chars. revert s.
  induction n as [|n IH]; intros [|c s]; simpl; try done.
  intros [Hc Hs]%andb_true_iff. rewrite Hc. by apply IH.
Qed.

Lemma allowed_uint d : allowed (NilEmpty.string_of_uint d) = true.
Proof. induction d; simpl; try done; exact IHd. Qed.

Lemma allowed_cons c s :
  allowed (String c s)
  = negb (PyStr.has_char c FileConstants.FORBIDDEN_CHARS) && allowed s.
Proof. reflexivity. Qed.

Lemma allowed_of_Z z : allowed (PyStr.of_Z z) = true.
Proof.
  assert (Hnz : forall d, allowed (NilZero.string_of_uint d) = true).
  { intros d. destruct d; try done; exact (allowed_uint _). }
  unfold PyStr.of_Z, NilZero.string_of_int.
  destruct (Z.to_int z) as [d|d]; [apply Hnz|].
  rewrite allowed_cons. apply Hnz.
Qed.

Lemma allowed_hexdigit n :
  0 <= n < 16 ->
  negb (PyStr.has_char (MD5.hexdigit n) FileConstants.FORBIDDEN_CHARS) = true.
Proof.
  intros Hn. replace n with (Z.of_nat (Z.to_nat n)) by lia.
  assert (Hk : (Z.to_nat n < 16)%nat) by lia.
  generalize dependent (Z.to_nat n). intros k Hk.
  do 16 (destruct k as [|k]; [reflexivity|]). lia.
Qed.

Lemma allowed_hex2 b : 0 <= b < 256 -> allowed (MD5.hex2 b) = true.
Proof.
  intros Hb. unfold MD5.hex2. rewrite !allowed_cons.
  rewrite !allowed_hexdigit; [done| |].
  - by apply Z.mod_pos_bound.
  - split; [by apply Z.div_pos; lia | apply Z.div_lt_upper_bound; lia].
Qed.

Lemma le_bytes_range n :
  forall x, Forall (fun b => 0 <= b < 256) (MD5.le_bytes n x).
Proof.
  induction n as [|n IH]; intros x; simpl; [constructor|].
  constructor; [by apply Z.mod_pos_bound | apply IH].
Qed.

Lemma le_bytes_length n : forall x, length (MD5.le_bytes n x) = n.
Proof. induction n as [|n IH]; intros x; simpl; [done|]. by rewrite IH. Qed.

Lemma digest_range msg : Forall (fun b => 0 <= b < 256) (MD5.digest msg).
Proof. unfold MD5.digest. cbv zeta. repeat apply Forall_app_2; apply le_bytes_range. Qed.

Lemma allowed_hexdigest x : allowed (MD5.hexdigest x) = true.
Proof.
  unfold MD5.hexdigest. apply allowed_concat.
  pose proof (digest_range (map PyStr.code (PyStr.chars x))) as H.
  induction H as [|b l Hb Hl IH]; simpl; [done|].
  by rewrite allowed_hex2, IH.
Qed.

Lemma has_char_allowed c name :
  allowed name = true ->
  PyStr.has_char c FileConstants.FORBIDDEN_CHARS = true ->
  PyStr.has_char c name = false.
Proof.
  intros Hsafe Hc. unfold allowed, PyStr.has_char in *.
  induction (PyStr.chars name) as [|d l IH]; simpl in *; [done|].
  apply andb_true_iff in Hsafe as [Hd Hl]. rewrite (IH Hl), orb_false_r.
  destruct (Ascii.eqb c d) eqn:E; [|done].
  apply Ascii.eqb_eq in E. subst d. by rewrite Hc in Hd.
Qed.

Lemma allowed_not_forbidden name :
  allowed name = true -> CacheManager.forbidden_in name = None.
Proof.
  intros Hsafe. unfold CacheManager.forbidden_in.
  assert (Hall : forall c, In c (PyStr.chars FileConstants.FORBIDDEN_CHARS) ->
                           PyStr.has_char c name = false).
  { intros c Hin. apply has_char_allowed; [done|].
    unfold PyStr.has_char. apply existsb_exists. exists c.
    split; [done | apply Ascii.eqb_refl]. }
  induction (PyStr.chars FileConstants.FORBIDDEN_CHARS) as [|c l IH]; simpl; [done|].
  rewrite (Hall c) by (by left). apply IH. intros c' Hc'. apply Hall. by right.
Qed.

Lemma length_append a b :
  String.length (String.append a b) = (String.length a + String.length b)%nat.
Proof. induction a as [|c a IH]; simpl; [done|]. by rewrite IH. Qed.

Lemma length_take n s : (String.length (PyStr.take n s) <= n)%nat.
Proof.
  unfold PyStr.take. revert s. induction n as [|n IH]; intros [|c s]; simpl; try lia.
  specialize (IH s). lia.
Qed.

Lemma allowed_audio_filename key ts :
  allowed key = true ->
  allowed (CacheManager.audio_filename key ts) = true.
Proof.
  intros Hkey. unfold CacheManager.audio_filename. apply allowed_concat.
  cbn [forallb]. rewrite allowed_take by done. rewrite allowed_of_Z. reflexivity.
Qed.

Lemma length_audio_filename key ts :
  PyStr.len (CacheManager.audio_filename key ts) <= 24 + PyStr.len (PyStr.of_Z ts).
Proof.
  unfold CacheManager.audio_filename, PyStr.len, PyStr.concat. cbn [fold_right].
  rewrite !length_append. pose proof (length_take 8 key). simpl String.length. lia.
Qed.

End Names.

Section GeneratedKeys.
Import CacheManager.
Variable float_repr : Q -> string.

(** A name built from a generated key and a time stamp of at most 231
    characters passes [_validate_filename]. *)
Lemma generated_key_name_valid config request ts s :
  PyStr.len (PyStr.of_Z ts) <= 231 ->
  _validate_filename
    (audio_filename (_generate_cache_key float_repr config request) ts) s
  = (Ok tt, s).
Proof.
  intros Hts. apply _validate_filename_ok.
  - pose proof (length_audio_filename
                  (_generate_cache_key float_repr config request) ts).
    unfold FileConstants.MAX_FILENAME_LENGTH. lia.
  - apply allowed_not_forbidden, allowed_audio_filename.
    unfold _generate_cache_key. apply allowed_hexdigest.
Qed.

(** X7. A key made by [_generate_cache_key] always gives a file name
    that passes [_validate_filename] (a time stamp has far less than 231
    digits): with such a key [save_audio] returns the name or raises
    [CacheWriteException], never [SecurityException]. *)
Theorem save_audio_accepts_generated_keys config request data s r s' :
  let key := _generate_cache_key float_repr config request in
  PyStr.len (PyStr.of_Z (int_of_float (st_clock s (st_ticks s)))) <= 231 ->
  save_audio key data s = (r, s') ->
  r = Ok (save_name key s)
  \/ exists msg, r = Raise (new_CacheWriteException msg).
Proof.
  intros key Hts Hrun.
  destruct (save_audio_cases key data s) as (r1 & s1 & Hr & Hcases).
  rewrite Hrun in Hr. injection Hr as <- <-.
  destruct Hcases as [(e & _ & _ & _ & Hval)|[Hres _]]; [|exact Hres].
  unfold save_name, key in Hval.
  rewrite (generated_key_name_valid config request _ _ Hts) in Hval.
  discriminate Hval.
Qed.

End GeneratedKeys.

(** ** The sweep of temporary files *)

Section TempSweep.
Import CacheManager.




End TempSweep.

(** ** Expired files on disk, and clearing the cache *)

Section ExpirySweep.
Import CacheManager.








End ExpirySweep.



Section ClearCache.
Import CacheManager.




End ClearCache.

(** ** The integrity check *)

Section IntegrityProps.
Import CacheManager.
Variable text_size : index_doc -> Z.






End IntegrityProps.

(** ** Repair *)

Section SplitFacts.



End SplitFacts.

Section RepairProps.
Import CacheManager.
Variable text_size : index_doc -> Z.












End RepairProps.

Section RepairTheorem.
Import CacheManager.
Variable text_size : index_doc -> Z.


End RepairTheorem.

(** ** Generation from end to end *)

Lemma same_cache_refl s : same_cache s s.
Proof. by repeat split. Qed.

Lemma same_cache_trans a b c : same_cache a b -> same_cache b c -> same_cache a c.
Proof. unfold same_cache. intros (?&?&?) (?&?&?). repeat split; congruence. Qed.

Section GeneratorRuns.

Variable float_repr : Q -> string.
Variable json_loads : list Byte.byte -> exn + json.
Variable b64decode : string -> exn + list Byte.byte.
Variable re_pipeline : string -> string -> string.
Variable self : AudioGenerator.

Local Abbreviation call_api := (_call_gemini_api json_loads b64decode).
Local Abbreviation extract := (_extract_audio_data json_loads b64decode).
Local Abbreviation save_and_return := (_save_and_return float_repr self).
Local Abbreviation traditional_body :=
  (_generate_traditional_body float_repr json_loads b64decode re_pipeline self).
Local Abbreviation unified_body :=
  (_generate_unified_body float_repr json_loads b64decode self).
Local Abbreviation handle_error :=
  (_handle_generation_error float_repr json_loads b64decode re_pipeline self).
Local Abbreviation generate_unified :=
  (_generate_unified float_repr json_loads b64decode re_pipeline self).
Local Abbreviation generate_traditional :=
  (_generate_traditional float_repr json_loads b64decode re_pipeline self).
Local Abbreviation generate :=
  (generate_audio float_repr json_loads b64decode re_pipeline self).

Lemma try_cache_lookup_result request s :
  exists res s',
    _try_cache_lookup float_repr request s = (Ok res, s')
    /\ same_net s s'
    /\ (res = failed_lookup
        \/ (success res = true /\ used_cache res = true
            /\ res_processing_mode res = Some (processing_mode request)
            /\ exists name, filename res = Some name /\ name <> "")).
Proof.
  unfold _try_cache_lookup. unfold bind at 1. rewrite try_except_Exception.
  unfold bind at 1, get_state.
  set (key := _generate_cache_key float_repr (st_config s) request).
  destruct (quiet_get_cached_file key s) as [Hfuel Hnet].
  unfold bind at 1.
  destruct (CacheManager.get_cached_file key s) as [[[name|]|e|] s1];
    simpl in Hfuel, Hnet; [| | |done].
  - destruct (String.eqb name "") eqn:E; simpl.
    + eexists _, _. split; [reflexivity|]. split; [done|]. by left.
    + eexists _, _. split; [reflexivity|]. split; [done|]. right.
      repeat split; try done. exists name. split; [done|].
      by apply String.eqb_neq.
  - eexists _, _. split; [reflexivity|]. split; [done|]. by left.
  - eexists _, _. split; [reflexivity|]. split; [done|]. by left.
Qed.

Lemma save_and_return_run request audio mode duration s :
  exists res s',
    save_and_return request audio mode duration s = (Ok res, s')
    /\ success res = true /\ used_cache res = false
    /\ same_net s s'
    /\ (uncached self request -> s' = s).
Proof.
  destruct (save_and_return_succeeds float_repr self request audio mode duration s)
    as (res & s' & Hrun & Hok & Hused & Hnet).
  exists res, s'. repeat split; try done; try apply Hnet.
  intros Hun. revert Hrun. unfold _save_and_return. unfold bind at 1.
  assert (cache_manager self && use_cache request = false) as ->.
  { destruct Hun as [-> | ->]; [apply andb_false_r | done]. }
  unfold ret. congruence.
Qed.

(** After the model is looked up both [try] blocks go the same way. *)
Lemma generation_tail request id prompt v t timeout budget mode start s1 :
  exists r s',
    (audio_data <- call_api id prompt v t timeout budget ;;
     end_time <- time_time ;;
     save_and_return request audio_data mode (end_time - start)%Q) s1 = (r, s')
    /\ r <> OutOfFuel
    /\ st_calls s' = (st_calls s1 ++ [the_call s1 id prompt v t timeout budget])%list
    /\ st_config s' = st_config s1 /\ st_api s' = st_api s1
    /\ (forall res, r = Ok res ->
                    success res = true /\ used_cache res = false)
    /\ (forall e, r = Raise e ->
                  call_api id prompt v t timeout budget s1 = (Raise e, s'))
    /\ (uncached self request -> same_cache s1 s').
Proof.
  destruct (call_api_sends_once json_loads b64decode id prompt v t timeout budget s1)
    as (r & Hcall & Hfuel).
  destruct r as [audio|e|]; [| |done].
  - rewrite (bind_Ok _ _ _ _ _ Hcall). unfold bind at 1, time_time.
    match goal with
    | |- context [save_and_return ?a ?b ?c ?d ?s2] =>
        destruct (save_and_return_run a b c d s2)
          as (res & s3 & Hsave & Hok & Hused & (Hc & Hg & Ha) & Hun)
    end.
    rewrite Hsave. exists (Ok res), s3. split; [done|]. split; [done|].
    split; [by rewrite Hc|]. split; [by rewrite Hg|]. split; [by rewrite Ha|].
    split; [by intros ? [= <-]|]. split; [done|].
    intros H. rewrite (Hun H). by repeat split.
  - rewrite (bind_Raise _ _ _ _ _ Hcall). eexists _, _.
    split; [reflexivity|]. split; [done|]. split; [done|].
    split; [done|]. split; [done|]. split; [done|].
    split; [by intros ? [= <-]|]. intros _. by repeat split.
Qed.

Lemma unified_body_unfold request s id :
  ModelConstants.model_id (model (st_config s)) = Some id ->
  unified_body request s
  = (audio_data <- call_api id
                     (_build_unified_prompt (st_config s) (text request))
                     (voice (st_config s)) (temperature (st_config s))
                     APIConstants.UNIFIED_TIMEOUT (thinking_budget (st_config s)) ;;
     end_time <- time_time ;;
     save_and_return request audio_data "unified"
       (end_time - st_clock s (st_ticks s))%Q)
      (with_ticks (S (st_ticks s)) s).
Proof.
  intros Hid. unfold _generate_unified_body.
  unfold bind at 1, get_state. unfold bind at 1. unfold time_time at 1.
  unfold bind at 1, lookup_model_id. by rewrite Hid.
Qed.

Lemma traditional_body_unfold request s id :
  ModelConstants.model_id (model (st_config s)) = Some id ->
  traditional_body request s
  = (audio_data <- call_api id (traditional_prompt re_pipeline self (st_config s) request)
                     (voice (st_config s)) (temperature (st_config s))
                     APIConstants.TRADITIONAL_TIMEOUT 0 ;;
     end_time <- time_time ;;
     save_and_return request audio_data "traditional"
       (end_time - st_clock s (st_ticks s))%Q)
      (with_ticks (S (st_ticks s)) s).
Proof.
  intros Hid. unfold _generate_traditional_body.
  unfold bind at 1, get_state. unfold bind at 1. unfold time_time at 1.
  unfold bind at 1, lookup_model_id. by rewrite Hid.
Qed.

Lemma unified_body_unknown request s :
  ModelConstants.model_id (model (st_config s)) = None ->
  exists e, unified_body request s = (Raise e, with_ticks (S (st_ticks s)) s)
            /\ e_class e = KeyError.
Proof.
  intros Hid. unfold _generate_unified_body.
  unfold bind at 1, get_state. unfold bind at 1. unfold time_time at 1.
  unfold bind at 1, lookup_model_id. rewrite Hid. by eexists.
Qed.

Lemma traditional_body_unknown request s :
  ModelConstants.model_id (model (st_config s)) = None ->
  exists e, traditional_body request s = (Raise e, with_ticks (S (st_ticks s)) s)
            /\ e_class e = KeyError.
Proof.
  intros Hid. unfold _generate_traditional_body.
  unfold bind at 1, get_state. unfold bind at 1. unfold time_time at 1.
  unfold bind at 1, lookup_model_id. rewrite Hid. by eexists.
Qed.

Lemma unified_body_attempt request s : attempt self unified_body request s.
Proof.
  unfold attempt.
  destruct (ModelConstants.model_id (model (st_config s))) as [id|] eqn:Hid.
  - rewrite (unified_body_unfold request s id Hid).
    match goal with
    | |- context [bind (call_api ?a ?b ?c ?d ?e ?f) ?k ?s1] =>
        destruct (generation_tail request a b c d e f "unified"
                    (st_clock s (st_ticks s)) s1)
          as (r & s' & Hrun & Hfuel & Hcalls & Hcfg & Hapi & Hres & _ & Hun)
    end.
    rewrite Hrun. exists r, s', [the_call (with_ticks (S (st_ticks s)) s) id
      (_build_unified_prompt (st_config s) (text request))
      (voice (st_config s)) (temperature (st_config s))
      APIConstants.UNIFIED_TIMEOUT (thinking_budget (st_config s))].
    split; [done|]. split; [done|]. split; [exact Hcalls|].
    split; [by eexists|]. split; [done|]. split; [done|]. split; [done|].
    intros H. destruct (Hun H) as (?&?&?). by repeat split.
  - destruct (unified_body_unknown request s Hid) as (e & -> & He).
    eexists _, _, []. split; [reflexivity|]. split; [done|].
    split; [unfold sent; simpl; by rewrite app_nil_r|].
    split; [split; [done|by exists e]|]. split; [done|]. split; [done|].
    split; [done|]. intros _. by repeat split.
Qed.

Lemma traditional_body_attempt request s : attempt self traditional_body request s.
Proof.
  unfold attempt.
  destruct (ModelConstants.model_id (model (st_config s))) as [id|] eqn:Hid.
  - rewrite (traditional_body_unfold request s id Hid).
    match goal with
    | |- context [bind (call_api ?a ?b ?c ?d ?e ?f) ?k ?s1] =>
        destruct (generation_tail request a b c d e f "traditional"
                    (st_clock s (st_ticks s)) s1)
          as (r & s' & Hrun & Hfuel & Hcalls & Hcfg & Hapi & Hres & _ & Hun)
    end.
    rewrite Hrun. exists r, s', [the_call (with_ticks (S (st_ticks s)) s) id
      (traditional_prompt re_pipeline self (st_config s) request)
      (voice (st_config s)) (temperature (st_config s))
      APIConstants.TRADITIONAL_TIMEOUT 0].
    split; [done|]. split; [done|]. split; [exact Hcalls|].
    split; [by eexists|]. split; [done|]. split; [done|]. split; [done|].
    intros H. destruct (Hun H) as (?&?&?). by repeat split.
  - destruct (traditional_body_unknown request s Hid) as (e & -> & He).
    eexists _, _, []. split; [reflexivity|]. split; [done|].
    split; [unfold sent; simpl; by rewrite app_nil_r|].
    split; [split; [done|by exists e]|]. split; [done|]. split; [done|].
    split; [done|]. intros _. by repeat split.
Qed.

(** What [_handle_generation_error] does, whatever the error. *)
Lemma handle_error_run fuel e request s :
  exists res s' new,
    handle_error (S (S fuel)) e request s = (Ok res, s')
    /\ sent s s' new
    /\ (new = [] \/ exists call, new = [call]
                                 /\ c_model_id call = ModelConstants.FLASH_TTS)
    /\ st_config s' = st_config s /\ st_api s' = st_api s
    /\ used_cache res = false
    /\ (success res = false -> res = error_result e request)
    /\ (fallback_wanted (st_config s) e = false ->
        res = error_result e request /\ s' = s)
    /\ (res = error_result e request
        \/ exists s2,
             traditional_body (fallback_request s request) (fallback_state s)
             = (Ok res, s2))
    /\ (uncached self request -> same_cache s s').
Proof.
  destruct (fallback_wanted (st_config s) e) eqn:Hwanted.
  2:{ rewrite (handle_error_no_fallback float_repr json_loads b64decode
                 re_pipeline self (S fuel) e request s Hwanted).
      eexists _, _, []. split; [reflexivity|].
      split; [unfold sent; by rewrite app_nil_r|]. split; [by left|].
      split; [done|]. split; [done|]. split; [done|]. split; [done|].
      split; [done|]. split; [by left|]. intros _. by repeat split. }
  remember (S fuel) as fuel1 eqn:Hfuel1.
  cbn [_handle_generation_error].
  unfold bind at 1, get_state. rewrite Hwanted.
  unfold bind at 1. unfold bind at 1, modify. unfold finally.
  fold (fallback_state s).
  rewrite try_except_Exception.
  unfold new_AudioGenerationRequest.
  destruct (PyStr.strip_is_empty (text request)) eqn:Hblank.
  { eexists _, _, []. split; [reflexivity|]. simpl.
    split; [unfold sent; simpl; by rewrite app_nil_r|]. split; [by left|].
    split; [by rewrite set_model_restore|]. split; [done|]. split; [done|].
    split; [done|]. split; [done|]. split; [by left|]. intros _. by repeat split. }
  destruct (5000 <? PyStr.len (text request)) eqn:Hlong.
  { eexists _, _, []. split; [reflexivity|]. simpl.
    split; [unfold sent; simpl; by rewrite app_nil_r|]. split; [by left|].
    split; [by rewrite set_model_restore|]. split; [done|]. split; [done|].
    split; [done|]. split; [done|]. split; [by left|]. intros _. by repeat split. }
  unfold lift. unfold bind at 1, ret at 1. fold (fallback_request s request).
  unfold _generate_traditional_with.
  destruct (traditional_body_attempt (fallback_request s request) (fallback_state s))
    as (r & s2 & new & Hbody & Hfuel & Hsent & Hnew & Hcfg & Hapi & Hres & Hun).
  change (ModelConstants.model_id (model (st_config (fallback_state s))))
    with (Some ModelConstants.FLASH_TTS) in Hnew.
  destruct Hnew as (call & -> & Hid).
  assert (Huncached : uncached self request -> uncached self (fallback_request s request))
    by done.
  unfold bind at 1. rewrite try_except_Exception, Hbody.
  destruct r as [res2|e2|]; [| |done].
  - destruct (Hres res2 eq_refl) as [Hok Hused]. rewrite Hok. unfold ret at 1.
    eexists _, _, [call]. split; [reflexivity|]. simpl.
    split; [exact Hsent|]. split; [right; by exists call|].
    split; [by rewrite Hcfg; simpl; rewrite set_model_restore|].
    split; [done|]. split; [done|].
    split; [intros; congruence|]. split; [done|]. split; [right; by exists s2|].
    intros H. destruct (Hun (Huncached H)) as (?&?&?). by repeat split.
  - subst fuel1. rewrite (handle_error_no_fallback float_repr json_loads b64decode
                            re_pipeline self)
      by (apply fallback_not_wanted_on_fallback_model; by rewrite Hcfg).
    unfold error_result at 1. cbn [success]. unfold ret at 1.
    eexists _, _, [call]. split; [reflexivity|]. simpl.
    split; [exact Hsent|]. split; [right; by exists call|].
    split; [by rewrite Hcfg; simpl; rewrite set_model_restore|].
    split; [done|]. split; [done|]. split; [done|]. split; [done|].
    split; [by left|].
    intros H. destruct (Hun (Huncached H)) as (?&?&?). by repeat split.
Qed.

(** What [generate_audio] does, whatever the request and the state. *)
Lemma generate_audio_run fuel request s :
  exists res s' new,
    generate (S (S fuel)) request s = (Ok res, s')
    /\ sent s s' new
    /\ (length new <= 2)%nat
    /\ (forall call, new !! 1%nat = Some call ->
                     c_model_id call = ModelConstants.FLASH_TTS)
    /\ (forall call, new !! 0%nat = Some call ->
                     ModelConstants.model_id (model (st_config s))
                     = Some (c_model_id call)
                     \/ c_model_id call = ModelConstants.FLASH_TTS)
    /\ st_config s' = st_config s /\ st_api s' = st_api s
    /\ (used_cache res = true ->
        new = [] /\ success res = true
        /\ res_processing_mode res = Some (processing_mode request)
        /\ exists name, filename res = Some name /\ name <> "")
    /\ (uncached self request -> same_cache s s' /\ used_cache res = false).
Proof.
  assert (Hmode : forall body : AudioGenerationRequest -> M AudioGenerationResult,
            (forall s1, attempt self body request s1) ->
            forall s1,
            exists res s' new,
              try_except (body request) [Exception_]
                (fun e => handle_error (S (S fuel)) e request) s1 = (Ok res, s')
              /\ sent s1 s' new
              /\ (length new <= 2)%nat
              /\ (forall call, new !! 1%nat = Some call ->
                               c_model_id call = ModelConstants.FLASH_TTS)
              /\ (forall call, new !! 0%nat = Some call ->
                               ModelConstants.model_id (model (st_config s1))
                               = Some (c_model_id call)
                               \/ c_model_id call = ModelConstants.FLASH_TTS)
              /\ st_config s' = st_config s1 /\ st_api s' = st_api s1
              /\ used_cache res = false
              /\ (uncached self request -> same_cache s1 s')).
  { intros body Hbody s1.
    destruct (Hbody s1)
      as (r & s2 & new1 & Hrun & Hfuel & Hsent1 & Hnew1 & Hcfg1 & Hapi1 & Hres & Hun1).
    rewrite try_except_Exception, Hrun.
    destruct r as [res|e|]; [| |done].
    - destruct (Hres res eq_refl) as [_ Hused].
      exists res, s2, new1. split; [done|]. split; [done|].
      destruct (ModelConstants.model_id (model (st_config s1))) as [id|].
      + destruct Hnew1 as (call & -> & Hid).
        split; [simpl; lia|]. split; [by intros ? [=]|].
        split; [intros ? [= <-]; left; by rewrite Hid|]. done.
      + destruct Hnew1 as (-> & _).
        split; [simpl; lia|]. split; [by intros ? [=]|].
        split; [by intros ? [=]|]. done.
    - destruct (handle_error_run fuel e request s2)
        as (res & s3 & new2 & Hh & Hsent2 & Hnew2 & Hcfg2 & Hapi2 & Hused & _ & _ & _ & Hun2).
      exists res, s3, (new1 ++ new2)%list. split; [done|].
      split; [unfold sent in *; by rewrite Hsent2, Hsent1, app_assoc|].
      assert (Hlen2 : (length new2 <= 1)%nat).
      { destruct Hnew2 as [->|(c & -> & _)]; simpl; lia. }
      destruct (ModelConstants.model_id (model (st_config s1))) as [id|].
      + destruct Hnew1 as (call & -> & Hid).
        split; [simpl; lia|]. split.
        { intros c Hc. simpl in Hc.
          destruct Hnew2 as [->|(c2 & -> & Hid2)]; [done|].
          by injection Hc as <-. }
        split; [intros ? [= <-]; left; by rewrite Hid|].
        split; [congruence|]. split; [congruence|]. split; [done|].
        intros H. eapply same_cache_trans; [by apply Hun1 | by apply Hun2].
      + destruct Hnew1 as (-> & _). simpl.
        split; [lia|]. split.
        { intros c Hc. destruct Hnew2 as [->|(c2 & -> & Hid2)]; done. }
        split.
        { intros c Hc. destruct Hnew2 as [->|(c2 & -> & Hid2)]; [done|].
          injection Hc as <-. by right. }
        split; [congruence|]. split; [congruence|]. split; [done|].
        intros H. eapply same_cache_trans; [by apply Hun1 | by apply Hun2]. }
  assert (Hgen : forall s1,
            exists res s' new,
              (if String.eqb (processing_mode request) "unified"
               then generate_unified (S (S fuel)) request
               else generate_traditional (S (S fuel)) request) s1 = (Ok res, s')
              /\ sent s1 s' new
              /\ (length new <= 2)%nat
              /\ (forall call, new !! 1%nat = Some call ->
                               c_model_id call = ModelConstants.FLASH_TTS)
              /\ (forall call, new !! 0%nat = Some call ->
                               ModelConstants.model_id (model (st_config s1))
                               = Some (c_model_id call)
                               \/ c_model_id call = ModelConstants.FLASH_TTS)
              /\ st_config s' = st_config s1 /\ st_api s' = st_api s1
              /\ used_cache res = false
              /\ (uncached self request -> same_cache s1 s')).
  { intros s1. destruct (String.eqb (processing_mode request) "unified").
    - apply (Hmode unified_body). intros ?. apply unified_body_attempt.
    - apply (Hmode traditional_body). intros ?. apply traditional_body_attempt. }
  unfold generate_audio. unfold bind at 1.
  destruct (use_cache request && cache_manager self) eqn:Hcache.
  - unfold bind at 1.
    destruct (try_cache_lookup_result request s) as (r & s1 & Hl & Hnet & Hr).
    rewrite Hl. destruct Hnet as (Hc1 & Hg1 & Ha1).
    destruct Hr as [->|(Hok & Hused & Hpm & name & Hname & Hne)].
    + cbn [success failed_lookup]. unfold ret at 1.
      destruct (Hgen s1)
        as (res & s' & new & Hrun & Hsent & Hlen & H1 & H0 & Hcfg & Hapi & Hused & Hun).
      exists res, s', new. split; [done|].
      split; [unfold sent in *; by rewrite Hsent, Hc1|].
      split; [done|]. split; [done|]. split; [by rewrite <- Hg1|].
      split; [congruence|]. split; [congruence|].
      split; [intros; congruence|].
      intros [H|H]; apply andb_true_iff in Hcache as [? ?]; congruence.
    + rewrite Hok. unfold ret.
      exists r, s1, []. split; [done|].
      split; [unfold sent; by rewrite app_nil_r|].
      split; [simpl; lia|]. split; [by intros ? [=]|]. split; [by intros ? [=]|].
      split; [done|]. split; [done|].
      split; [intros _; repeat split; try done; by exists name|].
      intros [H|H]; apply andb_true_iff in Hcache as [? ?]; congruence.
  - unfold ret at 1.
    destruct (Hgen s)
      as (res & s' & new & Hrun & Hsent & Hlen & H1 & H0 & Hcfg & Hapi & Hused & Hun).
    exists res, s', new. split; [done|]. split; [done|]. split; [done|].
    split; [done|]. split; [done|]. split; [done|]. split; [done|].
    split; [intros; congruence|]. intros H. split; [by apply Hun | done].
Qed.

End GeneratorRuns.

Section GeneratorTheorems.

Variable float_repr : Q -> string.
Variable json_loads : list Byte.byte -> exn + json.
Variable b64decode : string -> exn + list Byte.byte.
Variable re_pipeline : string -> string -> string.
Variable self : AudioGenerator.

Local Abbreviation call_api := (_call_gemini_api json_loads b64decode).
Local Abbreviation extract := (_extract_audio_data json_loads b64decode).
Local Abbreviation generate :=
  (generate_audio float_repr json_loads b64decode re_pipeline self).
Local Abbreviation handle_error :=
  (_handle_generation_error float_repr json_loads b64decode re_pipeline self).
Local Abbreviation run :=
  (generate_audio_run float_repr json_loads b64decode re_pipeline self).

(** X13. [generate_audio] always returns a result (it never raises), and
    the configuration of the generator is afterwards what it was before:
    the switch to the fallback model does not outlive the call. *)
Theorem generate_audio_restores_config fuel request s :
  exists res s',
    generate (S (S fuel)) request s = (Ok res, s')
    /\ st_config s' = st_config s.
Proof.
  destruct (run fuel request s) as (res & s' & new & Hrun & _ & _ & _ & _ & Hcfg & _).
  by exists res, s'.
Qed.


(** X15. A result that says it came from the cache did: no request was
    sent, the result is a success, carries the processing mode of the
    request and a non-empty file name. *)
Theorem cached_result_sends_nothing fuel request s :
  exists res s',
    generate (S (S fuel)) request s = (Ok res, s')
    /\ (used_cache res = true ->
        st_calls s' = st_calls s
        /\ success res = true
        /\ res_processing_mode res = Some (processing_mode request)
        /\ exists name, filename res = Some name /\ name <> "").
Proof.
  destruct (run fuel request s)
    as (res & s' & new & Hrun & Hsent & _ & _ & _ & _ & _ & Hhit & _).
  exists res, s'. split; [done|]. intros Hused.
  destruct (Hhit Hused) as (-> & Hok & Hpm & Hname).
  unfold sent in Hsent. rewrite app_nil_r in Hsent. done.
Qed.

(** X16. A request with [use_cache] off, or a generator without cache
    manager, goes by the cache: the result is not from the cache, and the
    cache directory and the loaded index are as they were, also when the
    fallback model was used. *)
Theorem uncached_request_leaves_cache fuel request s :
  use_cache request = false \/ cache_manager self = false ->
  exists res s',
    generate (S (S fuel)) request s = (Ok res, s')
    /\ used_cache res = false
    /\ st_dir s' = st_dir s
    /\ st_metadata s' = st_metadata s.
Proof.
  intros Hun.
  destruct (run fuel request s)
    as (res & s' & new & Hrun & _ & _ & _ & _ & _ & _ & _ & Hsame).
  destruct (Hsame Hun) as ((Hd & Hm & _) & Hused).
  by exists res, s'.
Qed.

Lemma startswith_append p x : PyStr.startswith (String.append p x) p = true.
Proof.
  unfold PyStr.startswith. induction p as [|c p IH].
  - by destruct x.
  - change (String.append (String c p) x) with (String c (String.append p x)).
    cbn [String.prefix]. by destruct (ascii_dec c c).
Qed.

Lemma validate_audio_size audio_data audio :
  validate_audio audio_data = inr audio ->
  audio = audio_data
  /\ AudioConstants.MIN_AUDIO_SIZE <= Z.of_nat (length audio)
     <= AudioConstants.MAX_AUDIO_SIZE.
Proof.
  unfold validate_audio.
  destruct (Z.ltb_spec (Z.of_nat (length audio_data)) AudioConstants.MIN_AUDIO_SIZE);
    [discriminate|].
  destruct (Z.ltb_spec AudioConstants.MAX_AUDIO_SIZE (Z.of_nat (length audio_data)));
    [discriminate|].
  intros [= <-]. split; [done | lia].
Qed.

Lemma extract_audio_data_run body :
  (exists audio response_json audio_b64,
      extract body = inr audio
      /\ json_loads body = inr response_json
      /\ inline_data response_json = inr audio_b64
      /\ decode_audio b64decode audio_b64 = inr audio
      /\ AudioConstants.MIN_AUDIO_SIZE <= Z.of_nat (length audio)
         <= AudioConstants.MAX_AUDIO_SIZE)
  \/ (exists e, extract body = inl e
                /\ (e_class e = APIException \/ e_class e = AudioException)
                /\ e_status_code e = None /\ e_error_code e = None).
Proof.
  unfold _extract_audio_data.
  destruct (extract_body json_loads b64decode body) as [e|audio] eqn:Hbody.
  - right. destruct (isinstance e [JSONDecodeError]); [eexists; split; [reflexivity|]; auto|].
    destruct (isinstance e [KeyError]); [eexists; split; [reflexivity|]; auto|].
    rewrite isinstance_Exception. eexists; split; [reflexivity|]; auto.
  - left. revert Hbody. unfold extract_body, sum_bind.
    destruct (json_loads body) as [?|response_json] eqn:Hj; [discriminate|].
    destruct (inline_data response_json) as [?|audio_b64] eqn:Hi; [discriminate|].
    destruct (decode_audio b64decode audio_b64) as [?|audio_data] eqn:Hd;
      [discriminate|].
    intros [-> Hsize]%validate_audio_size.
    exists audio_data, response_json, audio_b64. done.
Qed.

(** X17. What [_call_gemini_api] makes of an HTTP response, whatever its
    status and body.  It returns audio only for status 200 and audio whose
    size is within [MIN_AUDIO_SIZE] and [MAX_AUDIO_SIZE]; in every other
    case it raises a plain [APIException] without status code, whose
    message starts with "API call failed: " and is shown to the user as
    it is, and which is neither a credential nor a rate-limit error (so
    the fallback applies to it). *)
Theorem api_response_errors_are_plain
    model_id prompt voice temperature timeout budget s status body :
  (forall c, st_api s (length (st_calls s)) c = Response status body) ->
  (exists audio s',
      call_api model_id prompt voice temperature timeout budget s = (Ok audio, s')
      /\ status = 200
      /\ extract body = inr audio
      /\ AudioConstants.MIN_AUDIO_SIZE <= Z.of_nat (length audio)
         <= AudioConstants.MAX_AUDIO_SIZE)
  \/ (exists e s',
         call_api model_id prompt voice temperature timeout budget s = (Raise e, s')
         /\ e_class e = APIException
         /\ e_status_code e = None
         /\ e_user_message e = Some (e_message e)
         /\ PyStr.startswith (e_message e) "API call failed: " = true
         /\ isinstance e [InvalidAPIKeyException; RateLimitedException] = false).
Proof.
  intros Hapi. unfold _call_gemini_api, bind, get_state, urlopen.
  rewrite Hapi, try_except_Exception.
  destruct (Z.eqb_spec status 200) as [->|Hne]; cbn [negb].
  - destruct (extract_audio_data_run body)
      as [(audio & j & b64 & Hex & _ & _ & _ & Hsize)|(e & Hex & _)];
      rewrite Hex; cbn [lift].
    + left. by eexists _, _.
    + right. eexists _, _. split; [reflexivity|].
      repeat split; try done. apply startswith_append.
  - right. eexists _, _. split; [reflexivity|].
    repeat split; try done. apply startswith_append.
Qed.

Local Abbreviation traditional_body :=
  (_generate_traditional_body float_repr json_loads b64decode re_pipeline self).
Local Abbreviation unified_body :=
  (_generate_unified_body float_repr json_loads b64decode self).
Local Abbreviation generate_unified :=
  (_generate_unified float_repr json_loads b64decode re_pipeline self).
Local Abbreviation generate_traditional :=
  (_generate_traditional float_repr json_loads b64decode re_pipeline self).

Lemma call_api_refused id prompt v t timeout budget s answer e :
  (forall c, st_api s (length (st_calls s)) c = answer) ->
  refusal answer = Some e ->
  call_api id prompt v t timeout budget s
  = (Raise e,
     with_calls (st_calls s ++ [the_call s id prompt v t timeout budget]) s).
Proof.
  intros Hapi He. unfold _call_gemini_api, bind, get_state, urlopen.
  rewrite Hapi. destruct answer; simpl in He; try discriminate;
    by injection He as <-.
Qed.

(** A refused request makes the [try] block of either mode raise. *)
Lemma attempt_refused request s id answer e :
  ModelConstants.model_id (model (st_config s)) = Some id ->
  (forall c, st_api s (length (st_calls s)) c = answer) ->
  refusal answer = Some e ->
  forall unified : bool,
  exists call s',
    (if unified then unified_body request s else traditional_body request s)
    = (Raise e, s')
    /\ st_calls s' = (st_calls s ++ [call])%list
    /\ c_model_id call = id
    /\ st_config s' = st_config s /\ st_api s' = st_api s
    /\ same_cache s s'.
Proof.
  intros Hid Hapi He [|].
  - rewrite (unified_body_unfold float_repr json_loads b64decode self request s id Hid).
    match goal with
    | |- context [bind (call_api ?a ?b ?c ?d ?e ?f) ?k ?s1] =>
        rewrite (bind_Raise _ _ _ _ _
                   (call_api_refused a b c d e f s1 answer _ Hapi He))
    end.
    eexists _, _. split; [reflexivity|]. by repeat split.
  - rewrite (traditional_body_unfold float_repr json_loads b64decode re_pipeline
               self request s id Hid).
    match goal with
    | |- context [bind (call_api ?a ?b ?c ?d ?e ?f) ?k ?s1] =>
        rewrite (bind_Raise _ _ _ _ _
                   (call_api_refused a b c d e f s1 answer _ Hapi He))
    end.
    eexists _, _. split; [reflexivity|]. by repeat split.
Qed.

(** [generate_audio] returns a cached file or goes on to the mode of the
    request, in a state the look-up may have changed. *)
Lemma generate_audio_dispatch fuel request s :
  exists s1,
    same_net s s1
    /\ ((exists res, generate fuel request s = (Ok res, s1)
                     /\ used_cache res = true)
        \/ generate fuel request s
           = if String.eqb (processing_mode request) "unified"
             then generate_unified fuel request s1
             else generate_traditional fuel request s1).
Proof.
  remember (generate fuel request s) as X eqn:HX.
  unfold generate_audio in HX. unfold bind at 1 in HX.
  destruct (use_cache request && cache_manager self).
  - unfold bind at 1 in HX.
    destruct (try_cache_lookup_result float_repr request s)
      as (r & s1 & Hl & Hnet & Hr).
    rewrite Hl in HX. exists s1. split; [done|].
    destruct Hr as [->|(Hok & Hused & _)].
    + right. cbn [success failed_lookup] in HX. unfold ret at 1 in HX.
      rewrite HX. by destruct (String.eqb (processing_mode request) "unified").
    + left. rewrite Hok in HX. unfold ret in HX. by exists r.
  - exists s. split; [apply same_net_refl|]. right. unfold ret at 1 in HX.
    rewrite HX. by destruct (String.eqb (processing_mode request) "unified").
Qed.

Lemma generate_mode_refused fuel request s1 id answer e :
  ModelConstants.model_id (model (st_config s1)) = Some id ->
  (forall c, st_api s1 (length (st_calls s1)) c = answer) ->
  refusal answer = Some e ->
  exists call s2,
    (if String.eqb (processing_mode request) "unified"
     then generate_unified fuel request s1
     else generate_traditional fuel request s1)
    = handle_error fuel e request s2
    /\ st_calls s2 = (st_calls s1 ++ [call])%list
    /\ c_model_id call = id
    /\ st_config s2 = st_config s1 /\ st_api s2 = st_api s1
    /\ same_cache s1 s2.
Proof.
  intros Hid Hapi He.
  destruct (attempt_refused request s1 id answer e Hid Hapi He
              (String.eqb (processing_mode request) "unified"))
    as (call & s2 & Hbody & Hrest).
  exists call, s2. split; [|exact Hrest].
  destruct (String.eqb _ _).
  - by apply generate_unified_failure.
  - by apply generate_traditional_failure.
Qed.

(** X18. When the API answers the first request with HTTP 401, 403 or
    429, [generate_audio] returns the cached audio if it has it, and
    otherwise a failure after exactly one request, sent to the configured
    model: the message is "Rate limited. Wait a moment and try again."
    for 429 and "Invalid API key. Check your configuration." for 401 and
    403. *)
Theorem credential_errors_fail_fast fuel request s id code reason :
  ModelConstants.model_id (model (st_config s)) = Some id ->
  (forall c, st_api s (length (st_calls s)) c = HTTPErr code reason) ->
  code = 401 \/ code = 403 \/ code = 429 ->
  exists res s',
    generate (S fuel) request s = (Ok res, s')
    /\ (used_cache res = true
        \/ (success res = false
            /\ (exists call, st_calls s' = (st_calls s ++ [call])%list
                             /\ c_model_id call = id)
            /\ error_message res
               = Some (if code =? 429
                       then "Rate limited. Wait a moment and try again."
                       else "Invalid API key. Check your configuration."))).
Proof.
  intros Hid Hapi Hcode.
  destruct (generate_audio_dispatch (S fuel) request s)
    as (s1 & (Hc1 & Hg1 & Ha1) & [(res & Hrun & Hused)|Hrun]).
  { exists res, s1. split; [done|]. by left. }
  rewrite Hrun.
  assert (Hid1 : ModelConstants.model_id (model (st_config s1)) = Some id)
    by (by rewrite Hg1).
  assert (Hapi1 : forall c, st_api s1 (length (st_calls s1)) c = HTTPErr code reason).
  { intros c. by rewrite Ha1, Hc1. }
  destruct (generate_mode_refused (S fuel) request s1 id _ _ Hid1 Hapi1 eq_refl)
    as (call & s2 & -> & Hcalls & Hcid & _).
  rewrite (handle_error_no_fallback float_repr json_loads b64decode re_pipeline self).
  2:{ unfold fallback_wanted.
      assert (isinstance (handle_http_error code reason)
                [InvalidAPIKeyException; RateLimitedException] = true) as ->.
      { destruct Hcode as [->|[->| ->]]; reflexivity. }
      by rewrite andb_false_r. }
  eexists _, _. split; [reflexivity|]. right. split; [done|].
  split; [exists call; by rewrite Hcalls, Hc1|].
  destruct Hcode as [->|[->| ->]]; reflexivity.
Qed.

Lemma network_error_text err :
  isinstance (handle_network_error err)
    [InvalidAPIKeyException; RateLimitedException] = false
  /\ isinstance (handle_network_error err) [NetworkException] = true
  /\ error_text (handle_network_error err)
     = if PyStr.contains "timeout" (PyStr.lower err)
       then "Network timeout. Check your connection."
       else if PyStr.contains "connection" (PyStr.lower err)
       then "Connection failed. Check your internet."
       else "Network error. Check your connection.".
Proof.
  unfold handle_network_error.
  destruct (PyStr.contains "timeout" (PyStr.lower err)); [done|].
  destruct (PyStr.contains "connection" (PyStr.lower err)) eqn:E.
  - repeat split; try done. unfold error_text, new_ConnectionException,
      mk_NetworkException. cbn [e_user_message]. by rewrite E.
  - repeat split; try done. unfold error_text, new_NetworkException,
      mk_NetworkException. cbn [e_user_message]. by rewrite E.
Qed.

(** X19. When every request fails with a network error, [generate_audio]
    returns the cached audio if it has it, and otherwise the error result
    of the first failure, with one of the three messages of
    [handle_network_error]. *)
Theorem network_outage_reports_first_error fuel request s id err :
  ModelConstants.model_id (model (st_config s)) = Some id ->
  (forall n c, st_api s n c = URLErr err) ->
  exists res s',
    generate (S (S fuel)) request s = (Ok res, s')
    /\ (used_cache res = true
        \/ (res = error_result (handle_network_error err) request
            /\ error_message res
               = Some (if PyStr.contains "timeout" (PyStr.lower err)
                       then "Network timeout. Check your connection."
                       else if PyStr.contains "connection" (PyStr.lower err)
                       then "Connection failed. Check your internet."
                       else "Network error. Check your connection."))).
Proof.
  intros Hid Hapi.
  destruct (generate_audio_dispatch (S (S fuel)) request s)
    as (s1 & (Hc1 & Hg1 & Ha1) & [(res & Hrun & Hused)|Hrun]).
  { exists res, s1. split; [done|]. by left. }
  rewrite Hrun.
  assert (Hid1 : ModelConstants.model_id (model (st_config s1)) = Some id)
    by (by rewrite Hg1).
  assert (Hapi1 : forall c, st_api s1 (length (st_calls s1)) c = URLErr err).
  { intros c. by rewrite Ha1. }
  destruct (generate_mode_refused (S (S fuel)) request s1 id _ _ Hid1 Hapi1 eq_refl)
    as (call & s2 & -> & Hcalls & Hcid & Hcfg2 & Hapi2 & _).
  destruct (handle_error_run float_repr json_loads b64decode re_pipeline self
              fuel (handle_network_error err) request s2)
    as (res & s3 & new & Hh & _ & _ & _ & _ & _ & _ & _ & Hres & _).
  exists res, s3. split; [done|]. right.
  assert (res = error_result (handle_network_error err) request) as ->.
  { destruct Hres as [->|(s4 & Hok)]; [done|]. exfalso.
    assert (Hapi3 : forall c, st_api (fallback_state s2)
                                (length (st_calls (fallback_state s2))) c = URLErr err).
    { intros c. simpl. by rewrite Hapi2, Ha1. }
    destruct (attempt_refused (fallback_request s2 request) (fallback_state s2)
                ModelConstants.FLASH_TTS _ _ eq_refl Hapi3 eq_refl false)
      as (call3 & s5 & Hraise & _).
    rewrite Hraise in Hok. discriminate. }
  split; [done|]. unfold error_result. cbn [error_message].
  by rewrite (proj2 (proj2 (network_error_text err))).
Qed.

End GeneratorTheorems.

(** ** The connection test and the validators *)

Section ApiTestProps.

Variable json_loads : list Byte.byte -> exn + json.
Variable b64decode : string -> exn + list Byte.byte.
Variable round_float : Q -> Z -> Q.

Local Abbreviation test := (test_api_connection json_loads b64decode round_float).

(** X20. [test_api_connection] never raises and leaves configuration,
    cache directory and loaded index as they were.  For a known model it
    sends exactly one request: the test sentence, the configured voice and
    API key, temperature 0, no thinking budget, the 30 second timeout.
    For an unknown model it sends nothing and fails.  When the request is
    refused, the result carries the user message and the error code of
    the exception [_call_gemini_api] raised. *)
Theorem test_api_connection_sends_one_request s :
  exists res s',
    test s = (Ok res, s')
    /\ st_config s' = st_config s
    /\ st_dir s' = st_dir s /\ st_metadata s' = st_metadata s
    /\ match ModelConstants.model_id (model (st_config s)) with
       | Some id =>
           st_calls s' = (st_calls s ++ [test_call (st_config s) id])%list
       | None => st_calls s' = st_calls s /\ Result.success res = false
       end
    /\ (forall answer e,
           (forall c, st_api s (length (st_calls s)) c = answer) ->
           refusal answer = Some e ->
           is_Some (ModelConstants.model_id (model (st_config s))) ->
           res = Result.error_result (error_text e) (e_error_code e)).
Proof.
  unfold test_api_connection. cbv zeta. rewrite try_except_Exception.
  unfold bind at 1. unfold time_time at 1.
  unfold bind at 1, get_state. cbn [st_config with_ticks].
  unfold bind at 1, lookup_model_id.
  destruct (ModelConstants.model_id (model (st_config s))) as [id|] eqn:Hid.
  2:{ eexists _, _. split; [reflexivity|]. repeat split; done. }
  unfold ret at 1.
  set (s1 := with_ticks (S (st_ticks s)) s).
  destruct (call_api_sends_once json_loads b64decode id
              "Please convert this text to speech: Testing API connection."
              (voice (st_config s)) 0 APIConstants.TRADITIONAL_TIMEOUT 0 s1)
    as (r & Hcall & Hfuel).
  destruct r as [audio|e|]; [| |done].
  - rewrite (bind_Ok _ _ _ _ _ Hcall).
    eexists _, _. split; [reflexivity|]. repeat split; try done.
    intros answer e Hapi He _. exfalso.
    rewrite (call_api_refused json_loads b64decode _ _ _ _ _ _ s1 answer e Hapi He)
      in Hcall. discriminate.
  - rewrite (bind_Raise _ _ _ _ _ Hcall).
    eexists _, _. split; [reflexivity|]. repeat split; try done.
    intros answer e' Hapi He _.
    rewrite (call_api_refused json_loads b64decode _ _ _ _ _ _ s1 answer e' Hapi He)
      in Hcall. by injection Hcall as ->.
Qed.

End ApiTestProps.

Section Validators.

Lemma get_model_definitions_model_id m :
  ModelConstants.model_id m
  = option_map ModelConstants.mi_model_id
      (PyDict.get m ModelConstants.get_model_definitions).
Proof.
  unfold ModelConstants.model_id, ModelConstants.get_model_definitions. simpl.
  repeat (destruct (String.eqb m _); [reflexivity|]). reflexivity.
Qed.

(** X21. A configuration [ConfigurationService.validate_config] accepts
    is accepted by the other checks: [validate_model_config] succeeds, the
    API key has [MIN_API_KEY_LENGTH] characters, the voice is a known
    one, the model has a model id, and [TTSConfig.validate] holds when the
    model is a unified one or the thinking budget is within 0 and 32768
    ([validate_config] does not look at the budget of a TTS-only model). *)
Theorem validate_config_agrees_with_other_checks config :
  ValidationResult.success (ConfigurationService.validate_config config) = true ->
  Result.success (validate_model_config config) = true
  /\ APIConstants.MIN_API_KEY_LENGTH <= PyStr.len (api_key config)
  /\ In (voice config) VoiceConstants.get_all_voices
  /\ is_Some (ModelConstants.model_id (model config))
  /\ (model config = "flash_unified" \/ model config = "pro_unified"
      \/ 0 <= thinking_budget config <= 32768 ->
      validate config = true).
Proof.
  unfold ConfigurationService.validate_config. cbv zeta.
  destruct (PyStr.strip_is_empty (api_key config)) eqn:Hblank.
  { repeat match goal with
           | |- context [match ?x with _ => _ end] => destruct x
           end; discriminate. }
  destruct (Z.ltb_spec (PyStr.len (api_key config)) APIConstants.MIN_API_KEY_LENGTH)
    as [Hshort|Hlen].
  { repeat match goal with
           | |- context [match ?x with _ => _ end] => destruct x
           end; discriminate. }
  destruct (existsb (String.eqb (voice config)) VoiceConstants.get_all_voices)
    eqn:Hvoice; cbn [negb].
  2:{ repeat match goal with
             | |- context [match ?x with _ => _ end] => destruct x
             end; discriminate. }
  destruct (Qleb 0 (temperature config) && Qleb (temperature config) 2) eqn:Htemp;
    cbn [negb].
  2:{ repeat match goal with
             | |- context [match ?x with _ => _ end] => destruct x
             end; discriminate. }
  destruct ((1 <=? cache_days config) && (cache_days config <=? 365)) eqn:Hdays;
    cbn [negb].
  2:{ repeat match goal with
             | |- context [match ?x with _ => _ end] => destruct x
             end; discriminate. }
  rewrite get_model_definitions_model_id. unfold validate_model_config. cbv zeta.
  destruct (PyDict.get (model config) ModelConstants.get_model_definitions)
    as [info|] eqn:Hmodel; [|discriminate].
  assert (Hvalid : 0 <= thinking_budget config <= 32768 -> validate config = true).
  { intros Hb. unfold validate. rewrite Hblank.
    apply andb_true_iff in Htemp as [Ht1 Ht2]. unfold Qltb, Qleb in *.
    rewrite Ht1, Ht2. cbn [negb orb].
    apply andb_true_iff in Hdays as [Hd1 Hd2].
    apply Z.leb_le in Hd1, Hd2.
    destruct (Z.ltb_spec (thinking_budget config) 0); [lia|].
    destruct (Z.ltb_spec 32768 (thinking_budget config)); [lia|].
    destruct (Z.ltb_spec (cache_days config) 1); [lia|].
    destruct (Z.ltb_spec 365 (cache_days config)); [lia|]. done. }
  assert (Hin : In (voice config) VoiceConstants.get_all_voices).
  { apply existsb_exists in Hvoice as (v & Hv & Heq).
    apply String.eqb_eq in Heq. by subst v. }
  destruct (ModelConstants.mi_thinking_budget_range info) as [[lo hi]|] eqn:Hrange.
  - destruct (in_range (lo, hi) (thinking_budget config)) eqn:Hin_range;
      cbn [negb]; [|discriminate].
    intros _. split; [done|]. split; [lia|]. split; [done|]. split; [by eexists|].
    intros _. apply Hvalid.
    assert (Hr : (lo, hi) = ModelConstants.FLASH_THINKING_RANGE
                 \/ (lo, hi) = ModelConstants.PRO_THINKING_RANGE).
    { revert Hmodel Hrange. unfold ModelConstants.get_model_definitions. simpl.
      repeat (destruct (String.eqb (model config) _);
              [intros [= <-]; simpl; intros [=]; subst; auto|]).
      discriminate. }
    unfold in_range in Hin_range. cbn [fst snd] in Hin_range.
    apply andb_true_iff in Hin_range as [H1 H2]. apply Z.leb_le in H1, H2.
    destruct Hr as [[= -> ->]|[= -> ->]]; lia.
  - intros _. split; [done|]. split; [lia|]. split; [done|]. split; [by eexists|].
    intros [Hm|[Hm|Hb]]; [| |by apply Hvalid].
    + rewrite Hm in Hmodel. injection Hmodel as <-. discriminate.
    + rewrite Hm in Hmodel. injection Hmodel as <-. discriminate.
Qed.

End Validators.

(** ** The properties on concrete states *)

(** Two traditional requests that differ in the configured thinking budget. *)
Lemma cache_key_deterministic_witness :
  _generate_cache_key demo_repr (set_thinking_budget 1024 demo_config)
                      (demo_request "traditional")
  = _generate_cache_key demo_repr demo_config (demo_request "traditional").
Proof.
  apply (proj1 (cache_key_deterministic demo_repr)); try reflexivity.
  intros H. discriminate H.
Defined.

(** A network error is followed by one request to the fallback model, an
    invalid key by none. *)
Lemma fallback_policy_witness :
  let s := demo_state None ∅ true 0 api_down in
  let handle := _handle_generation_error demo_repr demo_loads (demo_decode 2000)
                  demo_pipeline demo_generator 2 in
  text_ok (text (demo_request "unified"))
  /\ (exists res s' call,
         handle (new_NetworkException "<urlopen error timed out>")
                (demo_request "unified") s = (Ok res, s')
         /\ st_calls s' = (st_calls s ++ [call])%list
         /\ ModelConstants.model_id ModelConstants.DEFAULT_FALLBACK_MODEL
            = Some (c_model_id call))
  /\ (exists res s',
         handle (new_InvalidAPIKeyException "HTTP 401: Unauthorized")
                (demo_request "unified") s = (Ok res, s')
         /\ st_calls s' = st_calls s).
Proof.
  intros s handle.
  assert (Htext : text_ok (text (demo_request "unified"))).
  { split; [reflexivity | vm_compute; discriminate]. }
  split; [exact Htext|]. split.
  - apply (proj1 (fallback_policy demo_repr demo_loads (demo_decode 2000)
                    demo_pipeline demo_generator 0 _ _ s Htext));
      [reflexivity | discriminate | reflexivity].
  - apply (proj1 (proj2 (fallback_policy demo_repr demo_loads (demo_decode 2000)
                           demo_pipeline demo_generator 0 _ _ s Htext))).
    reflexivity.
Defined.

(** The fallback request fails as the first one did: the result carries
    the message of the first error. *)
Lemma fallback_failure_reports_original_error_witness :
  let s := demo_state None ∅ true 0 api_down in
  let original := new_TimeoutException "read timeout" in
  exists res s',
    _handle_generation_error demo_repr demo_loads (demo_decode 2000)
      demo_pipeline demo_generator 2 original (demo_request "unified") s
    = (Ok res, s')
    /\ success res = false
    /\ error_message res = Some "Network timeout. Check your connection.".
Proof.
  intros s original.
  destruct (fallback_failure_reports_original_error demo_repr demo_loads
              (demo_decode 2000) demo_pipeline demo_generator 0 original
              (demo_request "unified") s)
    as (res & s' & Hrun & _ & Hfail).
  exists res, s'. split; [exact Hrun|].
  apply (Hfail eq_refl (new_NetworkException "<urlopen error timed out>")
           (_generate_traditional_body demo_repr demo_loads (demo_decode 2000)
              demo_pipeline demo_generator
              (fallback_request s (demo_request "unified"))
              (fallback_state s)).2).
  vm_compute. reflexivity.
Defined.

(** The directory cannot be written: the audio is returned all the same. *)
Lemma cache_write_failure_keeps_success_witness :
  let s := demo_state None ∅ false 0 api_up in
  api_delivers demo_loads (demo_decode 2000) s (repeat Byte.x00 2000)
  /\ exists res s',
      generate_audio demo_repr demo_loads (demo_decode 2000) demo_pipeline
        demo_generator 0 (demo_request "unified") s = (Ok res, s')
      /\ success res = true.
Proof.
  intros s.
  assert (Hapi : api_delivers demo_loads (demo_decode 2000) s (repeat Byte.x00 2000)).
  { exists []. split; [intros c; reflexivity | vm_compute; reflexivity]. }
  split; [exact Hapi|].
  apply (proj2 (proj2 (cache_write_failure_keeps_success demo_repr demo_loads
                         (demo_decode 2000) demo_pipeline demo_generator))
           0%nat (demo_request "unified") s ModelConstants.FLASH_UNIFIED
           (repeat Byte.x00 2000)); [reflexivity | exact Hapi].
Defined.

(** A 200 response with 500 bytes of audio. *)
Lemma audio_size_error_is_rewrapped_witness :
  let s := demo_state None ∅ true 0 api_up in
  Z.of_nat (length (repeat Byte.x00 500)) < AudioConstants.MIN_AUDIO_SIZE
  /\ exists e2 s',
      _call_gemini_api demo_loads (demo_decode 500) ModelConstants.FLASH_TTS
        "Please convert this text to speech: Hello world" "Zephyr" 0
        APIConstants.TRADITIONAL_TIMEOUT 0 s = (Raise e2, s')
      /\ e_class e2 = APIException
      /\ isinstance e2 [AudioSizeException] = false.
Proof.
  intros s.
  assert (Hsmall : Z.of_nat (length (repeat Byte.x00 500))
                   < AudioConstants.MIN_AUDIO_SIZE) by (vm_compute; reflexivity).
  split; [exact Hsmall|].
  apply (proj2 (proj2 (audio_size_error_is_rewrapped demo_loads (demo_decode 500)
                         [] demo_envelope (JStr "AAAA") (repeat Byte.x00 500)
                         eq_refl eq_refl eq_refl (or_introl Hsmall)))).
  intros c. reflexivity.
Defined.





(** A hit in a directory that cannot be written: the index cannot be
    saved, and the lookup reports a miss. *)
Lemma get_cached_file_never_raises_witness :
  let m := demo_index [("a.wav", demo_entry "K" 0)] in
  let s := demo_state (Some m) {[ "a.wav" := demo_file false ]} false 0 api_down in
  is_Some (st_dir s !! "a.wav")
  /\ st_writable s = false
  /\ exists s', CacheManager.get_cached_file "K" s = (Ok None, s').
Proof.
  intros m s.
  assert (Hfile : is_Some (st_dir s !! "a.wav")) by (eexists; reflexivity).
  split; [exact Hfile|]. split; [reflexivity|].
  apply (proj2 (proj2 get_cached_file_never_raises) "K" s m []
           "a.wav" (demo_entry "K" 0) []);
    try reflexivity; [apply List.Forall_nil | exact Hfile].
Defined.

(** The index file holds bytes that are no JSON document. *)
Lemma load_metadata_unloadable_index_witness :
  let s := demo_state None
             {[ "cache_metadata.json" := demo_file false;
                "gemini_tts_5fea075d_2.wav" := demo_file false ]}
             true 0 api_down in
  index_unloadable s
  /\ (exists s', CacheManager._load_metadata s = (Ok new_CacheMetadata, s'))
  /\ (exists s', CacheManager.get_cached_file "5fea075d67587777ae18e57dded0013a" s
                 = (Ok None, s'))
  /\ (exists orphans s',
         CacheManager.orphaned_files s = (Ok orphans, s')
         /\ In "gemini_tts_5fea075d_2.wav" orphans).
Proof.
  intros s.
  assert (Hbad : index_unloadable s).
  { exists (demo_file false). split; [reflexivity|]. right. left. by eexists. }
  split; [exact Hbad|].
  destruct (load_metadata_unloadable_index s Hbad) as (Hload & Hrest).
  split; [exact Hload|].
  destruct (Hrest eq_refl) as (Hmiss & orphans & s' & Horph & Hall).
  split.
  - destruct (Hmiss "5fea075d67587777ae18e57dded0013a") as (s1 & Hrun & _).
    by exists s1.
  - exists orphans, s'. split; [exact Horph|].
    apply Hall; [eexists; reflexivity | reflexivity | reflexivity].
Defined.

(** [save_audio] stops after writing its temporary file at time 2; the
    clean-up runs much later and the file is still there.  A file of the
    same age whose name has the reserved prefix is removed. *)
Lemma save_audio_temp_file_survives_cleanup_witness :
  let key := "5fea075d67587777ae18e57dded0013a" in
  let s := {| st_config := demo_config; st_metadata := None; st_dir := ∅;
              st_writable := true;
              st_clock := fun n => inject_Z (2 + 100000 * Z.of_nat n);
              st_ticks := 0; st_api := api_down; st_calls := [] |} in
  let r := CacheManager.save_audio_until_temp_written key [] s in
  let reserved := with_dir {[ ".cache_tmp_gemini_tts_5fea075d_2.wav" := demo_file false ]} s in
  r.1 = Ok ".tmp_gemini_tts_5fea075d_2.wav"
  /\ (exists removed s',
         CacheManager.cleanup_temp_files (with_ticks 5 r.2) = (Ok removed, s')
         /\ is_Some (st_dir s' !! ".tmp_gemini_tts_5fea075d_2.wav"))
  /\ (CacheManager.cleanup_temp_files (with_ticks 5 reserved)).1 = Ok 1
  /\ st_dir (CacheManager.cleanup_temp_files (with_ticks 5 reserved)).2
       !! ".cache_tmp_gemini_tts_5fea075d_2.wav" = None.
Proof.
  intros key s r reserved.
  assert (Hrun : CacheManager.save_audio_until_temp_written key [] s
                 = (Ok ".tmp_gemini_tts_5fea075d_2.wav", r.2))
    by (vm_compute; reflexivity).
  split; [vm_compute; reflexivity|]. split.
  - exact (proj2 (proj2 (proj2 save_audio_temp_file_survives_cleanup)
                    key [] s _ _ Hrun) 5%nat).
  - split; vm_compute; reflexivity.
Defined.

(** An index with one entry, looked up with another key. *)
Lemma get_cached_file_miss_witness :
  let m := demo_index [("a.wav", demo_entry "K" 0)] in
  let s := demo_state (Some m) {[ "a.wav" := demo_file false ]} true 0 api_down in
  CacheManager.get_cached_file "other" s = (Ok None, s).
Proof.
  intros m s.
  apply (get_cached_file_miss "other" s s m eq_refl).
  repeat constructor. discriminate.
Defined.

(** The entry was made at time 0 and is looked up at time 5. *)
Lemma get_cached_file_hit_witness :
  let m := demo_index [("a.wav", demo_entry "K" 0)] in
  let s := demo_state (Some m) {[ "a.wav" := demo_file false ]} true 5 api_down in
  exists s' m',
    CacheManager.get_cached_file "K" s = (Ok (Some "a.wav"), s')
    /\ st_metadata s' = Some m'
    /\ PyDict.get "a.wav" (files m') = Some (touched 5 (demo_entry "K" 0))
    /\ st_dir s' !! "a.wav" = Some (demo_file false).
Proof.
  intros m s.
  assert (Hnd : NoDup (files m).*1).
  { apply (bool_decide_unpack _). vm_compute. exact I. }
  assert (Hfile : is_Some (st_dir s !! "a.wav")) by (eexists; reflexivity).
  assert (Hw : index_writable s) by (repeat split; reflexivity).
  destruct (get_cached_file_hit "K" s s m [] "a.wav" (demo_entry "K" 0) []
              eq_refl Hnd eq_refl (List.Forall_nil _) eq_refl Hfile Hw)
    as (s' & Hrun & Hmd & Hentry & _ & _ & Hdir).
  exists s', (update_access 5 "a.wav" m).
  split; [exact Hrun|]. split; [exact Hmd|]. split; [exact Hentry|].
  rewrite Hdir by discriminate. reflexivity.
Defined.

(** An index of one entry is saved and read by a process that has loaded
    nothing. *)
Lemma saved_index_is_loaded_back_witness :
  let m := demo_index [("a.wav", demo_entry "K" 0)] in
  let s := demo_state (Some m) {[ "a.wav" := demo_file false ]} true 0 api_down in
  exists s1 s3,
    CacheManager._save_metadata s = (Ok tt, s1)
    /\ CacheManager.get_metadata (with_metadata None s1) = (Ok m, s3).
Proof.
  intros m s.
  assert (Hnd : NoDup (files m).*1).
  { apply (bool_decide_unpack _). vm_compute. exact I. }
  assert (Hw : index_writable s) by (repeat split; reflexivity).
  destruct (saved_index_is_loaded_back s m eq_refl Hnd Hw) as (s1 & Hsave & Hload).
  destruct (Hload (with_metadata None s1) eq_refl eq_refl) as (s3 & Hget & _).
  exists s1, s3. split; [exact Hsave | exact Hget].
Defined.

(** The directory cannot be written. *)
Lemma save_audio_raises_witness :
  let s := demo_state None ∅ false 0 api_down in
  exists e s',
    CacheManager.save_audio demo_key [] s = (Raise e, s')
    /\ e_class e = CacheWriteException
    /\ e_user_message e = Some "Cache error. Audio may not be saved for reuse.".
Proof.
  intros s.
  destruct (CacheManager.save_audio demo_key [] s) as [r s'] eqn:Hrun.
  assert (Hr : (CacheManager.save_audio demo_key [] s).1
               = Raise (new_CacheWriteException
                   "Cannot save audio file: Permission denied: .tmp_gemini_tts_5fea075d_0.wav"))
    by (vm_compute; reflexivity).
  rewrite Hrun in Hr. cbn [fst] in Hr. subst r. eexists _, s'. split; [reflexivity|].
  destruct (save_audio_raises demo_key [] s _ s' Hrun) as [(Hsec & _)|Hwrite];
    [discriminate Hsec | exact Hwrite].
Defined.


(** An empty cache in a directory that can be written. *)
Lemma save_audio_then_lookup_witness :
  let s := demo_state (Some (demo_index [])) ∅ true 0 api_down in
  exists s1 s2,
    CacheManager.save_audio demo_key [] s = (Ok "gemini_tts_5fea075d_0.wav", s1)
    /\ CacheManager.get_cached_file demo_key s1
       = (Ok (Some "gemini_tts_5fea075d_0.wav"), s2).
Proof.
  intros s.
  assert (Hlen : PyStr.len (save_name demo_key s) <= FileConstants.MAX_FILENAME_LENGTH)
    by (vm_compute; discriminate).
  assert (Hstore : can_store s (save_name demo_key s))
    by (repeat split; reflexivity).
  destruct (save_audio_then_lookup demo_key [] s (demo_index []) eq_refl
              (NoDup_nil_2) (List.Forall_nil _) Hlen eq_refl Hstore)
    as (s1 & s2 & Hsave & _ & Hget & _).
  exists s1, s2. split; [exact Hsave | exact Hget].
Defined.

(** The key of the demo request, saved at time 0. *)
Lemma save_audio_accepts_generated_keys_witness :
  let s := demo_state None ∅ true 0 api_down in
  let key := _generate_cache_key demo_repr demo_config (demo_request "unified") in
  let r := CacheManager.save_audio key [] s in
  r.1 = Ok (save_name key s)
  \/ exists msg, r.1 = Raise (new_CacheWriteException msg).
Proof.
  intros s key r.
  apply (save_audio_accepts_generated_keys demo_repr demo_config
           (demo_request "unified") [] s r.1 r.2);
    [vm_compute; discriminate | apply surjective_pairing].
Defined.




(** The request asks for no cache; the API delivers. *)
Lemma uncached_request_leaves_cache_witness :
  let s := demo_state None ∅ true 0 api_up in
  exists res s',
    generate_audio demo_repr demo_loads (demo_decode 2000) demo_pipeline
      demo_generator 2 demo_request_no_cache s = (Ok res, s')
    /\ used_cache res = false
    /\ st_dir s' = st_dir s
    /\ st_metadata s' = st_metadata s.
Proof.
  intros s.
  apply (uncached_request_leaves_cache demo_repr demo_loads (demo_decode 2000)
           demo_pipeline demo_generator 0 demo_request_no_cache s).
  left. reflexivity.
Defined.

(** A 200 response with 500 bytes of audio. *)
Lemma api_response_errors_are_plain_witness :
  let s := demo_state None ∅ true 0 api_up in
  exists e s',
    _call_gemini_api demo_loads (demo_decode 500) ModelConstants.FLASH_TTS
      "Please convert this text to speech: Hello world" "Zephyr" 0
      APIConstants.TRADITIONAL_TIMEOUT 0 s = (Raise e, s')
    /\ e_class e = APIException
    /\ e_status_code e = None
    /\ e_user_message e = Some (e_message e)
    /\ PyStr.startswith (e_message e) "API call failed: " = true
    /\ isinstance e [InvalidAPIKeyException; RateLimitedException] = false.
Proof.
  intros s.
  destruct (api_response_errors_are_plain demo_loads (demo_decode 500)
              ModelConstants.FLASH_TTS
              "Please convert this text to speech: Hello world" "Zephyr" 0
              APIConstants.TRADITIONAL_TIMEOUT 0 s 200 [] (fun c => eq_refl))
    as [(audio & s' & _ & _ & Hext & _)|Hplain]; [|exact Hplain].
  vm_compute in Hext. discriminate Hext.
Defined.

(** The API answers 401 and the cache is empty. *)
Lemma credential_errors_fail_fast_witness :
  let s := demo_state None ∅ true 0 api_unauthorized in
  exists res s' call,
    generate_audio demo_repr demo_loads (demo_decode 2000) demo_pipeline
      demo_generator 1 (demo_request "unified") s = (Ok res, s')
    /\ success res = false
    /\ st_calls s' = [call]
    /\ c_model_id call = ModelConstants.FLASH_UNIFIED
    /\ error_message res = Some "Invalid API key. Check your configuration.".
Proof.
  intros s.
  destruct (credential_errors_fail_fast demo_repr demo_loads (demo_decode 2000)
              demo_pipeline demo_generator 0 (demo_request "unified") s
              ModelConstants.FLASH_UNIFIED 401 "Unauthorized"
              eq_refl (fun c => eq_refl) (or_introl eq_refl))
    as (res & s' & Hrun & [Hhit|(Hfail & (call & Hcalls & Hid) & Hmsg)]).
  - exfalso. apply (f_equal (fun p => match p.1 with
                                       | Ok r => used_cache r
                                       | _ => true
                                       end)) in Hrun.
    cbn [fst] in Hrun. rewrite Hhit in Hrun. vm_compute in Hrun. discriminate Hrun.
  - exists res, s', call. split; [exact Hrun|]. split; [exact Hfail|].
    split; [exact Hcalls|]. split; [exact Hid | exact Hmsg].
Defined.

(** No request gets through and the cache is empty. *)
Lemma network_outage_reports_first_error_witness :
  let s := demo_state None ∅ true 0 api_down in
  exists res s',
    generate_audio demo_repr demo_loads (demo_decode 2000) demo_pipeline
      demo_generator 2 (demo_request "unified") s = (Ok res, s')
    /\ success res = false
    /\ error_message res = Some "Network error. Check your connection.".
Proof.
  intros s.
  destruct (network_outage_reports_first_error demo_repr demo_loads
              (demo_decode 2000) demo_pipeline demo_generator 0
              (demo_request "unified") s ModelConstants.FLASH_UNIFIED
              "<urlopen error timed out>" eq_refl (fun n c => eq_refl))
    as (res & s' & Hrun & [Hhit|(Hres & Hmsg)]).
  - exfalso. apply (f_equal (fun p => match p.1 with
                                       | Ok r => used_cache r
                                       | _ => true
                                       end)) in Hrun.
    cbn [fst] in Hrun. rewrite Hhit in Hrun. vm_compute in Hrun. discriminate Hrun.
  - exists res, s'. split; [exact Hrun|]. split; [by rewrite Hres | exact Hmsg].
Defined.

(** A TTS-only model with a thinking budget within the bounds of
    [TTSConfig.validate]. *)
Lemma validate_config_agrees_with_other_checks_witness :
  ValidationResult.success (ConfigurationService.validate_config demo_valid_config)
  = true
  /\ Result.success (validate_model_config demo_valid_config) = true
  /\ validate demo_valid_config = true.
Proof.
  assert (Hok : ValidationResult.success
                  (ConfigurationService.validate_config demo_valid_config) = true)
    by (vm_compute; reflexivity).
  destruct (validate_config_agrees_with_other_checks demo_valid_config Hok)
    as (Hmodel & _ & _ & _ & Hvalid).
  split; [exact Hok|]. split; [exact Hmodel|].
  apply Hvalid. right. right. split; discriminate.
Defined.
